(** * LocalAI gateway (server.py): the relay in front of the Ollama daemon

    A shallow embedding of [src/server.py]: the [OllamaClient] methods, the
    Flask views [/api/health], [/api/chat], [/api/chat/simple], the error
    handlers and the start-up code of [main], followed by the properties of
    the streaming relay that the specification states.

    Python values are the ones [json.loads] builds; a Python [str] is its
    sequence of code points; [bytes] are lists of bytes.  Generators and
    views are programs over three effects (an upstream HTTP call, a log
    record, a [yield]); the library functions whose code is not part of the
    repository ([bytes.decode], [json.loads]) are parameters of the
    development, and the daemon is an arbitrary function from calls to
    outcomes. *)

From Stdlib Require Import List ZArith NArith Lia Bool String Ascii.
From Stdlib Require Import DecimalString.
Import ListNotations.

Set Implicit Arguments.
Set Warnings "-register-all".
Local Open Scope list_scope.

(* ===================================================================== *)
(** ** Python strings and bytes *)
(* ===================================================================== *)

(** A Python [str]: its code points. *)
Definition pystr := list N.

(** A Python [bytes] object. *)
Definition bytes := list Byte.byte.

(** A literal of the source, written as a Rocq string (ASCII only). *)
Definition py (s : string) : pystr :=
  map N_of_ascii (list_ascii_of_string s).

Fixpoint pystr_eqb (a b : pystr) : bool :=
  match a, b with
  | [], [] => true
  | x :: a', y :: b' => N.eqb x y && pystr_eqb a' b'
  | _, _ => false
  end.

(** [prefix in s[i:]] for [i = 0]. *)
Fixpoint startswith (s prefix : pystr) : bool :=
  match prefix, s with
  | [], _ => true
  | p :: prefix', c :: s' => N.eqb p c && startswith s' prefix'
  | _ :: _, [] => false
  end.

(** [sub in s] on strings: substring search. *)
Fixpoint str_contains (s sub : pystr) : bool :=
  startswith s sub ||
  match s with
  | [] => false
  | _ :: s' => str_contains s' sub
  end.

(** [str.isspace] on one character: the code points CPython's
    [Py_UNICODE_ISSPACE] accepts. *)
Definition is_space (c : N) : bool :=
  ((9 <=? c) && (c <=? 13) || (28 <=? c) && (c <=? 32) ||
   (c =? 133) || (c =? 160) || (c =? 5760) ||
   (8192 <=? c) && (c <=? 8202) || (c =? 8232) || (c =? 8233) ||
   (c =? 8239) || (c =? 8287) || (c =? 12288))%N.

Fixpoint lstrip (s : pystr) : pystr :=
  match s with
  | [] => []
  | c :: s' => if is_space c then lstrip s' else s
  end.

(** [s.strip()] *)
Definition strip (s : pystr) : pystr := rev (lstrip (rev (lstrip s))).

(** [str(n)] for an [int]. *)
Definition str_of_int (z : Z) : pystr :=
  py (NilEmpty.string_of_int (Z.to_int z)).

(* ===================================================================== *)
(** ** Python values *)
(* ===================================================================== *)

(** The values [json.loads] returns and [json.dumps] accepts.  A [dict]
    keeps its insertion order (an association list without repeated
    keys); a [float] is carried by its [repr], which is all the program
    does with one. *)
Inductive pyval : Type :=
| VNone
| VBool (b : bool)
| VInt (z : Z)
| VFloat (repr : pystr)
| VStr (s : pystr)
| VList (l : list pyval)
| VDict (d : list (pystr * pyval)).

Definition pydict := list (pystr * pyval).

(** [d.get(k)] as an option. *)
Fixpoint dict_lookup (d : pydict) (k : pystr) : option pyval :=
  match d with
  | [] => None
  | (k', v) :: d' => if pystr_eqb k' k then Some v else dict_lookup d' k
  end.

(** [d[k] = v]: overwrite in place or append. *)
Fixpoint dict_set (d : pydict) (k : pystr) (v : pyval) : pydict :=
  match d with
  | [] => [(k, v)]
  | (k', v') :: d' =>
      if pystr_eqb k' k then (k', v) :: d' else (k', v') :: dict_set d' k v
  end.

(** [type(v).__name__] *)
Definition type_name (v : pyval) : pystr :=
  match v with
  | VNone => py "NoneType"
  | VBool _ => py "bool"
  | VInt _ => py "int"
  | VFloat _ => py "float"
  | VStr _ => py "str"
  | VList _ => py "list"
  | VDict _ => py "dict"
  end.

(** [bool(v)] *)
Definition truthy (v : pyval) : bool :=
  match v with
  | VNone => false
  | VBool b => b
  | VInt z => negb (Z.eqb z 0)
  | VFloat r => negb (pystr_eqb r (py "0.0") || pystr_eqb r (py "-0.0"))
  | VStr s => match s with [] => false | _ => true end
  | VList l => match l with [] => false | _ => true end
  | VDict d => match d with [] => false | _ => true end
  end.

(** [v == 'k'] for a string literal. *)
Definition eq_str (v : pyval) (k : pystr) : bool :=
  match v with
  | VStr s => pystr_eqb s k
  | _ => false
  end.

(* ===================================================================== *)
(** ** json.dumps *)
(* ===================================================================== *)

Definition hex_digit (n : N) : N :=
  (if n <? 10 then 48 + n else 87 + n)%N.

(** [ '\\u{0:04x}'.format(n) ] *)
Definition u_escape (n : N) : pystr :=
  py "\u" ++ [hex_digit (N.shiftr n 12 mod 16); hex_digit (N.shiftr n 8 mod 16);
              hex_digit (N.shiftr n 4 mod 16); hex_digit (n mod 16)]%N.

(** One character under [ensure_ascii=True]: everything outside
    [' '..'~'], the quote and the backslash are escaped. *)
Definition escape_char (c : N) : pystr :=
  (if c =? 34 then py "\" ++ [34]
   else if c =? 92 then py "\\"
   else if c =? 10 then py "\n"
   else if c =? 13 then py "\r"
   else if c =? 9 then py "\t"
   else if c =? 8 then py "\b"
   else if c =? 12 then py "\f"
   else if (32 <=? c) && (c <=? 126) then [c]
   else if c <? 65536 then u_escape c
   else let n := c - 65536 in
        u_escape (N.lor 55296 (N.land (N.shiftr n 10) 1023)) ++
        u_escape (N.lor 56320 (N.land n 1023)))%N.

Definition dumps_str (s : pystr) : pystr :=
  [34%N] ++ flat_map escape_char s ++ [34%N].

Definition dumps_float (r : pystr) : pystr :=
  if pystr_eqb r (py "nan") then py "NaN"
  else if pystr_eqb r (py "inf") then py "Infinity"
  else if pystr_eqb r (py "-inf") then py "-Infinity"
  else r.

(** [', '.join(items)] *)
Fixpoint join_comma (items : list pystr) : pystr :=
  match items with
  | [] => []
  | [x] => x
  | x :: rest => x ++ py ", " ++ join_comma rest
  end.

(** [json.dumps(v)] with the default separators. *)
Fixpoint json_dumps (v : pyval) : pystr :=
  match v with
  | VNone => py "null"
  | VBool true => py "true"
  | VBool false => py "false"
  | VInt z => str_of_int z
  | VFloat r => dumps_float r
  | VStr s => dumps_str s
  | VList l => py "[" ++ join_comma (map json_dumps l) ++ py "]"
  | VDict d =>
      py "{" ++
      join_comma (map (fun kv => dumps_str (fst kv) ++ py ": " ++ json_dumps (snd kv)) d)
      ++ py "}"
  end.

(* ===================================================================== *)
(** ** Exceptions *)
(* ===================================================================== *)

(** The classes of [requests.exceptions] the handlers tell apart.
    [ConnectTimeout] inherits from both [ConnectionError] and [Timeout];
    [InvalidJSON] is the [JSONDecodeError] of [requests] that
    [response.json()] raises (requests 2.27 and later). *)
Inductive requests_kind : Type :=
| ConnectionError
| ReadTimeout
| ConnectTimeout
| HTTPError
| ChunkedEncodingError
| InvalidJSON
| OtherRequestException.

(** Exception classes.  [HTTPException] is the class of
    [werkzeug.exceptions] with its status code ([BadRequest] is 400,
    [NotFound] 404, [MethodNotAllowed] 405, [UnsupportedMediaType] 415);
    [NonException] stands for the classes that derive from
    [BaseException] only ([KeyboardInterrupt], [SystemExit]). *)
Inductive exc_class : Type :=
| Requests (k : requests_kind)
| JSONDecodeError
| UnicodeDecodeError
| TypeError
| AttributeError
| KeyError
| ValueError
| RecursionError
| HTTPException (code : Z)
| OtherException
| NonException.

(** A raised exception: its class and [str(e)]. *)
Record exn : Type := mk_exn { exn_class : exc_class; exn_str : pystr }.

(** An exception raised by the [requests] library. *)
Record requests_exn : Type :=
  mk_requests_exn { rq_kind : requests_kind; rq_str : pystr }.

Definition exn_of_requests (e : requests_exn) : exn :=
  mk_exn (Requests (rq_kind e)) (rq_str e).

(** [isinstance(e, (ConnectionError, Timeout))] with the names imported
    from [requests.exceptions]. *)
Definition is_ConnectionError_or_Timeout (e : exn) : bool :=
  match exn_class e with
  | Requests ConnectionError | Requests ReadTimeout | Requests ConnectTimeout => true
  | _ => false
  end.

(** [isinstance(e, RequestException)] *)
Definition is_RequestException (e : exn) : bool :=
  match exn_class e with
  | Requests _ => true
  | _ => false
  end.

(** [isinstance(e, json.JSONDecodeError)] *)
Definition is_JSONDecodeError (e : exn) : bool :=
  match exn_class e with
  | JSONDecodeError | Requests InvalidJSON => true
  | _ => false
  end.

(** [isinstance(e, Exception)] *)
Definition is_Exception (e : exn) : bool :=
  match exn_class e with
  | NonException => false
  | _ => true
  end.

(** The status code of [e] when [isinstance(e, HTTPException)]. *)
Definition http_code (e : exn) : option Z :=
  match exn_class e with
  | HTTPException code => Some code
  | _ => None
  end.

(* ===================================================================== *)
(** ** The upstream daemon seen through [requests] *)
(* ===================================================================== *)

Inductive Method : Type := GET | POST.

(** One call of [session.get], [session.post] or [requests.post]. *)
Record HttpCall : Type := mk_call {
  call_method : Method;
  call_url : pystr;
  call_json : option pyval;
  call_stream : bool;
  call_timeout : Z
}.

(** A [requests.Response]: the status line, what [response.json()]
    returns (or the message of the [JSONDecodeError] of [requests] it
    raises), and what [response.iter_lines()] produces: the lines of the
    body and, when reading fails before the body ends, the exception
    raised after them. *)
Record Response : Type := mk_response {
  status_code : Z;
  reason : pystr;
  url : pystr;
  json : pyval + pystr;
  lines : list bytes;
  lines_end : option exn
}.

(** A call returns a response or raises; everything [requests] raises
    derives from [RequestException]. *)
Definition HttpOutcome : Type := (Response + requests_exn)%type.

(** The daemon: the outcome of a call, given how many calls came before. *)
Definition Upstream : Type := nat -> HttpCall -> HttpOutcome.

Inductive LogLevel : Type := INFO | WARNING | ERROR.

Record LogRecord : Type := mk_log { log_level : LogLevel; log_msg : pystr }.

(* ===================================================================== *)
(** ** Programs: return, raise, yield, log, call upstream *)
(* ===================================================================== *)

(** A function body (or, with [yield], a generator body) as the tree of
    what it does.  [Y] is the type of the yielded items, [A] of the
    returned value. *)
Inductive Prog (Y A : Type) : Type :=
| Ret (a : A)
| Raise (e : exn)
| Yield (y : Y) (k : Prog Y A)
| Log (r : LogRecord) (k : Prog Y A)
| Http (c : HttpCall) (k : HttpOutcome -> Prog Y A).

Arguments Ret {Y A} a.
Arguments Raise {Y A} e.
Arguments Yield {Y A} y k.
Arguments Log {Y A} r k.
Arguments Http {Y A} c k.

Fixpoint bind {Y A B} (p : Prog Y A) (f : A -> Prog Y B) : Prog Y B :=
  match p with
  | Ret a => f a
  | Raise e => Raise e
  | Yield y k => Yield y (bind k f)
  | Log r k => Log r (bind k f)
  | Http c k => Http c (fun o => bind (k o) f)
  end.

Declare Scope prog_scope.
Delimit Scope prog_scope with prog.
Notation "x <- p ;; q" := (bind p (fun x => q))
  (at level 61, p at next level, right associativity) : prog_scope.
Notation "p ;; q" := (bind p (fun _ => q))
  (at level 61, right associativity) : prog_scope.
Local Open Scope prog_scope.

(** [try: p  except ... as e: h e]: [h e = None] when no clause matches
    [e].  An exception raised inside a handler is not caught again. *)
Fixpoint try_except {Y A} (p : Prog Y A) (h : exn -> option (Prog Y A)) : Prog Y A :=
  match p with
  | Ret a => Ret a
  | Raise e => match h e with Some q => q | None => Raise e end
  | Yield y k => Yield y (try_except k h)
  | Log r k => Log r (try_except k h)
  | Http c k => Http c (fun o => try_except (k o) h)
  end.

(** [try: p  finally: fin]: [fin] runs on every way out of [p]; the
    outcome of [p] is restored after it. *)
Fixpoint try_finally {Y A} (p : Prog Y A) (fin : Prog Y unit) : Prog Y A :=
  match p with
  | Ret a => fin ;; Ret a
  | Raise e => fin ;; Raise e
  | Yield y k => Yield y (try_finally k fin)
  | Log r k => Log r (try_finally k fin)
  | Http c k => Http c (fun o => try_finally (k o) fin)
  end.

(** How a loop body ends: falls through or [continue] ([Next]), or [break]. *)
Inductive ctl : Type := Next | Break.

(** [for x in g: body x]: the generator [g] advances only as far as the
    loop asks; after [break] the rest of [g] never runs. *)
Fixpoint for_each {X Y} (g : Prog X unit) (body : X -> Prog Y ctl) : Prog Y unit :=
  match g with
  | Ret _ => Ret tt
  | Raise e => Raise e
  | Yield x k =>
      c <- body x ;;
      match c with
      | Next => for_each k body
      | Break => Ret tt
      end
  | Log r k => Log r (for_each k body)
  | Http c k => Http c (fun o => for_each (k o) body)
  end.

Definition yield {Y} (y : Y) : Prog Y unit := Yield y (Ret tt).

Definition logger_error {Y} (msg : pystr) : Prog Y unit := Log (mk_log ERROR msg) (Ret tt).
Definition logger_warning {Y} (msg : pystr) : Prog Y unit := Log (mk_log WARNING msg) (Ret tt).
Definition logger_info {Y} (msg : pystr) : Prog Y unit := Log (mk_log INFO msg) (Ret tt).

(** A library call that returns or raises. *)
Definition lift {Y A} (r : A + exn) : Prog Y A :=
  match r with
  | inl a => Ret a
  | inr e => Raise e
  end.

(** [session.get], [session.post], [requests.post]. *)
Definition request {Y} (c : HttpCall) : Prog Y Response :=
  Http c (fun o =>
    match o with
    | inl r => Ret r
    | inr e => Raise (exn_of_requests e)
    end).

(** What a process has done so far: the upstream calls and the log. *)
Record World : Type := mk_world {
  calls : list HttpCall;
  records : list LogRecord
}.

Definition empty_world : World := mk_world [] [].

(** The outcome of running a program: what it yielded, how it ended and
    the world after it. *)
Record Outcome (Y A : Type) : Type := mk_outcome {
  yielded : list Y;
  result : A + exn;
  world : World
}.

Definition emit {Y A} (y : Y) (o : Outcome Y A) : Outcome Y A :=
  mk_outcome (y :: yielded o) (result o) (world o).

Fixpoint run {Y A} (up : Upstream) (p : Prog Y A) (w : World) : Outcome Y A :=
  match p with
  | Ret a => mk_outcome [] (inl a) w
  | Raise e => mk_outcome [] (inr e) w
  | Yield y k => emit y (run up k w)
  | Log r k => run up k (mk_world (calls w) (records w ++ [r]))
  | Http c k =>
      run up (k (up (List.length (calls w)) c)) (mk_world (calls w ++ [c]) (records w))
  end.

(* ===================================================================== *)
(** ** Operations on values that may raise *)
(* ===================================================================== *)

(** The messages are CPython 3.11's. *)
Definition quoted (s : pystr) : pystr := [39%N] ++ s ++ [39%N].

Definition no_attribute (v : pyval) (attr : string) : exn :=
  mk_exn AttributeError
    (quoted (type_name v) ++ py " object has no attribute " ++ quoted (py attr)).

(** [k in v] for a string literal [k]. *)
Definition py_contains (k : pystr) (v : pyval) : bool + exn :=
  match v with
  | VDict d => inl (match dict_lookup d k with Some _ => true | None => false end)
  | VList l => inl (existsb (fun x => eq_str x k) l)
  | VStr s => inl (str_contains s k)
  | _ => inr (mk_exn TypeError
                (py "argument of type " ++ quoted (type_name v) ++ py " is not iterable"))
  end.

(** [v[k]] for a string literal [k]. *)
Definition py_getitem (v : pyval) (k : pystr) : pyval + exn :=
  match v with
  | VDict d =>
      match dict_lookup d k with
      | Some x => inl x
      | None => inr (mk_exn KeyError (quoted k))
      end
  | VList _ => inr (mk_exn TypeError (py "list indices must be integers or slices, not str"))
  | VStr _ => inr (mk_exn TypeError (py "string indices must be integers, not 'str'"))
  | _ => inr (mk_exn TypeError (quoted (type_name v) ++ py " object is not subscriptable"))
  end.

(** [v.get(k, default)] *)
Definition py_get (v : pyval) (k : pystr) (default : pyval) : pyval + exn :=
  match v with
  | VDict d =>
      inl (match dict_lookup d k with Some x => x | None => default end)
  | _ => inr (no_attribute v "get")
  end.

(** [v.strip()] *)
Definition py_strip (v : pyval) : pystr + exn :=
  match v with
  | VStr s => inl (strip s)
  | _ => inr (no_attribute v "strip")
  end.

(** [len(v)] *)
Definition py_len (v : pyval) : Z + exn :=
  match v with
  | VStr s => inl (Z.of_nat (List.length s))
  | VList l => inl (Z.of_nat (List.length l))
  | VDict d => inl (Z.of_nat (List.length d))
  | _ => inr (mk_exn TypeError
                (py "object of type " ++ quoted (type_name v) ++ py " has no len()"))
  end.

(** [iter(v)]: the items a [for] loop or a comprehension goes through. *)
Definition py_iter (v : pyval) : list pyval + exn :=
  match v with
  | VList l => inl l
  | VDict d => inl (map (fun kv => VStr (fst kv)) d)
  | VStr s => inl (map (fun c => VStr [c]) s)
  | _ => inr (mk_exn TypeError (quoted (type_name v) ++ py " object is not iterable"))
  end.

(** [[f(m) for m in items]] *)
Fixpoint comprehension {Y} (f : pyval -> Prog Y pyval) (items : list pyval)
  : Prog Y (list pyval) :=
  match items with
  | [] => Ret []
  | m :: rest =>
      x <- f m ;;
      xs <- comprehension f rest ;;
      Ret (x :: xs)
  end.

(* ===================================================================== *)
(** ** requests.Response *)
(* ===================================================================== *)

(** [response.raise_for_status()] *)
Definition raise_for_status {Y} (response : Response) : Prog Y unit :=
  let code := status_code response in
  let tail := py ": " ++ reason response ++ py " for url: " ++ url response in
  if ((400 <=? code) && (code <? 500))%Z then
    Raise (mk_exn (Requests HTTPError) (str_of_int code ++ py " Client Error" ++ tail))
  else if ((500 <=? code) && (code <? 600))%Z then
    Raise (mk_exn (Requests HTTPError) (str_of_int code ++ py " Server Error" ++ tail))
  else Ret tt.

(** [response.json()] *)
Definition response_json {Y} (response : Response) : Prog Y pyval :=
  match json response with
  | inl v => Ret v
  | inr msg => Raise (mk_exn (Requests InvalidJSON) msg)
  end.

(** [response.iter_lines()], a generator of [bytes]. *)
Definition iter_lines (response : Response) : Prog bytes unit :=
  fold_right (fun line k => Yield line k)
    (match lines_end response with
     | None => Ret tt
     | Some e => Raise e
     end)
    (lines response).

(** [bool(line)] for [bytes]. *)
Definition bytes_truthy (line : bytes) : bool :=
  match line with
  | [] => false
  | _ => true
  end.

(* ===================================================================== *)
(** ** server.py *)
(* ===================================================================== *)

Definition DEFAULT_PORT : Z := 5000.
Definition DEFAULT_HOST : pystr := py "127.0.0.1".
Definition DEFAULT_MODEL : pystr := py "codellama".

(** [class OllamaClient]: the [requests.Session] of the instance holds
    the connection pool only and is left out. *)
Record OllamaClient : Type := mk_client { base_url : pystr }.

(** The module's globals that the code reads after import:
    [OLLAMA_API_URL], which [main] rebinds, and the client [ollama]. *)
Record Globals : Type := mk_globals {
  OLLAMA_API_URL : pystr;
  ollama : OllamaClient
}.

(** The reply to a request: what a view function hands back to Flask, a
    JSON body with a status or
    [Response(generate(), mimetype='text/event-stream')]; or the
    [text/html] page Flask answers with for an [HTTPException] that no
    handler is registered for. *)
Inductive ViewResult : Type :=
| Json (status : Z) (body : pyval)
| EventStream (generate : Prog pystr unit)
| ErrorPage (status : Z).

(** Flask's [request] as the views use it: what evaluating
    [request.json] does.  It returns the parsed body; for a request
    whose content type is not JSON (a request without a body among them)
    it raises [UnsupportedMediaType], and for a JSON content type with a
    body that does not parse (an empty body among them) it raises
    [BadRequest].  (Before Flask 2.1 the first case returned [None],
    which is [Parsed VNone] here.) *)
Inductive Request : Type :=
| Parsed (data : pyval)
| NotJson
| BadJson.

Definition UnsupportedMediaType : exn :=
  mk_exn (HTTPException 415)
    (py "415 Unsupported Media Type: Did not attempt to load JSON data because the request Content-Type was not 'application/json'.").

Definition BadRequest : exn :=
  mk_exn (HTTPException 400)
    (py "400 Bad Request: The browser (or proxy) sent a request that this server could not understand.").

Definition NotFound : exn :=
  mk_exn (HTTPException 404)
    (py "404 Not Found: The requested URL was not found on the server. If you entered the URL manually please check your spelling and try again.").

Definition MethodNotAllowed : exn :=
  mk_exn (HTTPException 405)
    (py "405 Method Not Allowed: The method is not allowed for the requested URL.").

(** [jsonify(body)] and [jsonify(body), status] *)
Definition jsonify (body : pyval) : ViewResult := Json 200 body.
Definition jsonify_status (body : pyval) (status : Z) : ViewResult := Json status body.

(** [{'error': msg}] *)
Definition error_body (msg : pyval) : pyval := VDict [(py "error", msg)].

(** [f"data: {json.dumps(payload)}\n\n"] *)
Definition sse (payload : pyval) : pystr :=
  py "data: " ++ json_dumps payload ++ [10; 10]%N.

(** ["data: [DONE]\n\n"] *)
Definition DONE : pystr := py "data: [DONE]" ++ [10; 10]%N.

Definition system_prompt : pystr := py
"You are an expert coding assistant. You help developers with:
- Writing clean, efficient code
- Debugging and fixing errors
- Explaining complex algorithms
- Code reviews and optimization
- Best practices and design patterns

Provide clear, concise answers with code examples when relevant.
Use markdown formatting for code blocks with language specification.".

Section Server.

(** [bytes.decode('utf-8')] and [json.loads]: what they return or raise. *)
Variable bytes_decode : bytes -> pystr + exn.
Variable json_loads : pystr -> pyval + exn.

(** [str(v)], as an f-string formats a value. *)
Variable str_of : pyval -> pystr.

(** [json.loads(line.decode('utf-8'))] *)
Definition loads_line (line : bytes) : pyval + exn :=
  match bytes_decode line with
  | inl text => json_loads text
  | inr e => inr e
  end.

(** *** OllamaClient *)

(** [OllamaClient.__init__]; the default of [base_url] is the value
    [OLLAMA_API_URL] had when the class was defined. *)
Definition OllamaClient_init (base_url : option pystr) : OllamaClient :=
  match base_url with
  | Some u => mk_client u
  | None => mk_client (py "http://localhost:11434")
  end.

(** [OllamaClient.check_health] *)
Definition check_health {Y} (self : OllamaClient) : Prog Y bool :=
  try_except
    (response <- request (mk_call GET (base_url self ++ py "/api/tags") None false 5) ;;
     Ret (status_code response =? 200)%Z)
    (fun e =>
       if is_ConnectionError_or_Timeout e || is_RequestException e
       then Some (Ret false)
       else None).

(** [OllamaClient.list_models] *)
Definition list_models {Y} (self : OllamaClient) : Prog Y pyval :=
  try_except
    (response <- request (mk_call GET (base_url self ++ py "/api/tags") None false 5) ;;
     if (status_code response =? 200)%Z then
       body <- response_json response ;;
       lift (py_get body (py "models") (VList []))
     else Ret (VList []))
    (fun e =>
       if is_ConnectionError_or_Timeout e || is_RequestException e
       then Some (logger_error (py "Error listing models: " ++ exn_str e) ;;
                  Ret (VList []))
       else None).

(** The [payload] of [generate_stream]. *)
Definition generate_payload (model : pyval) (prompt : pystr)
    (system_prompt : option pystr) : pydict :=
  let payload :=
    [(py "model", model); (py "prompt", VStr prompt); (py "stream", VBool true)] in
  match system_prompt with
  | Some s => if truthy (VStr s) then dict_set payload (py "system") (VStr s) else payload
  | None => payload
  end.

(** The [session.post] of [generate_stream]. *)
Definition generate_call (self : OllamaClient) (payload : pydict) : HttpCall :=
  mk_call POST (base_url self ++ py "/api/generate") (Some (VDict payload)) true 300.

(** The body of the loop over [response.iter_lines()]. *)
Definition decode_line (line : bytes) : Prog pyval ctl :=
  if bytes_truthy line then
    try_except
      (event <- lift (loads_line line) ;;
       yield event ;;
       Ret Next)
      (fun e =>
         if is_JSONDecodeError e
         then Some (logger_error (py "JSON decode error: " ++ exn_str e) ;;
                    Ret Next)
         else None)
  else Ret Next.

(** The [except] clauses of [generate_stream]. *)
Definition on_request_failure (e : exn) : option (Prog pyval unit) :=
  if is_ConnectionError_or_Timeout e then
    Some (logger_error (py "Connection error: " ++ exn_str e) ;;
          yield (error_body (VStr (py "Connection to Ollama failed. Is Ollama running?"))))
  else if is_RequestException e then
    Some (logger_error (py "Request error: " ++ exn_str e) ;;
          yield (error_body (VStr (py "Request failed: " ++ exn_str e))))
  else None.

(** [OllamaClient.generate_stream] *)
Definition generate_stream (self : OllamaClient) (model : pyval) (prompt : pystr)
    (system_prompt : option pystr) : Prog pyval unit :=
  let payload := generate_payload model prompt system_prompt in
  try_except
    (response <- request (generate_call self payload) ;;
     raise_for_status response ;;
     for_each (iter_lines response) decode_line)
    on_request_failure.

(** *** Views *)

(** [health_check], [GET /api/health] *)
Definition health_check {Y} (g : Globals) : Prog Y ViewResult :=
  ollama_status <- check_health (ollama g) ;;
  models <- (if ollama_status then list_models (ollama g) else Ret (VList [])) ;;
  n <- lift (py_len models) ;;
  items <- lift (py_iter models) ;;
  names <- comprehension (fun m => lift (py_get m (py "name") (VStr (py "unknown")))) items ;;
  Ret (jsonify (VDict [
    (py "status", VStr (if ollama_status then py "healthy" else py "degraded"));
    (py "ollama_connected", VBool ollama_status);
    (py "models_available", VInt n);
    (py "models", VList names)])).

(** One entry of the list comprehension of [get_models]. *)
Definition model_info {Y} (m : pyval) : Prog Y pyval :=
  (name <- lift (py_get m (py "name") (VStr (py "unknown"))) ;;
   size <- lift (py_get m (py "size") (VInt 0)) ;;
   modified <- lift (py_get m (py "modified_at") (VStr [])) ;;
   Ret (VDict [(py "name", name); (py "size", size); (py "modified", modified)]))%prog.

(** [get_models], [GET /api/models] *)
Definition get_models {Y} (g : Globals) : Prog Y ViewResult :=
  (models <- list_models (ollama g) ;;
   items <- lift (py_iter models) ;;
   infos <- comprehension model_info items ;;
   Ret (jsonify (VDict [(py "models", VList infos)])))%prog.

(** The body of the loop of [generate] in [chat]: one decoded event. *)
Definition relay_event (chunk : pyval) : Prog pystr ctl :=
  has_error <- lift (py_contains (py "error") chunk) ;;
  if (has_error : bool) then
    msg <- lift (py_getitem chunk (py "error")) ;;
    yield (sse (error_body msg)) ;;
    Ret Break
  else
    has_response <- lift (py_contains (py "response") chunk) ;;
    (if (has_response : bool) then
       text <- lift (py_getitem chunk (py "response")) ;;
       yield (sse (VDict [(py "response", text)]))
     else Ret tt) ;;
    done <- lift (py_get chunk (py "done") (VBool false)) ;;
    if truthy done then
      total_duration <- lift (py_get chunk (py "total_duration") (VInt 0)) ;;
      load_duration <- lift (py_get chunk (py "load_duration") (VInt 0)) ;;
      prompt_eval_count <- lift (py_get chunk (py "prompt_eval_count") (VInt 0)) ;;
      eval_count <- lift (py_get chunk (py "eval_count") (VInt 0)) ;;
      let stats := VDict [
        (py "total_duration", total_duration);
        (py "load_duration", load_duration);
        (py "prompt_eval_count", prompt_eval_count);
        (py "eval_count", eval_count)] in
      yield (sse (VDict [(py "done", VBool true); (py "stats", stats)])) ;;
      Ret Next
    else Ret Next.

(** The [except Exception as e] clause of [generate]. *)
Definition on_streaming_error (e : exn) : option (Prog pystr unit) :=
  if is_Exception e then
    Some (logger_error (py "Streaming error: " ++ exn_str e) ;;
          yield (sse (error_body (VStr (exn_str e)))))
  else None.

(** [generate], the generator nested in [chat]; it reads the global
    [ollama] when it runs. *)
Definition generate (g : Globals) (model : pyval) (user_message : pystr)
  : Prog pystr unit :=
  try_finally
    (try_except
       (for_each (generate_stream (ollama g) model user_message (Some system_prompt))
                 relay_event)
       on_streaming_error)
    (yield DONE).

(** [data = request.json] *)
Definition request_json {Y} (request : Request) : Prog Y pyval :=
  match request with
  | Parsed data => Ret data
  | NotJson => Raise UnsupportedMediaType
  | BadJson => Raise BadRequest
  end.

(** [chat], [POST /api/chat] *)
Definition chat {Y} (g : Globals) (request : Request) : Prog Y ViewResult :=
  data <- request_json request ;;
  if negb (truthy data) then
    Ret (jsonify_status (error_body (VStr (py "No data provided"))) 400)
  else
    message <- lift (py_get data (py "message") (VStr [])) ;;
    user_message <- lift (py_strip message) ;;
    model <- lift (py_get data (py "model") (VStr DEFAULT_MODEL)) ;;
    if negb (truthy (VStr user_message)) then
      Ret (jsonify_status (error_body (VStr (py "Message is required"))) 400)
    else
      Ret (EventStream (generate g model user_message)).

(** The [requests.post] of [chat_simple]; it reads the global
    [OLLAMA_API_URL] when the request is handled. *)
Definition simple_call (g : Globals) (model : pyval) (user_message : pystr) : HttpCall :=
  mk_call POST (OLLAMA_API_URL g ++ py "/api/generate")
    (Some (VDict [(py "model", model);
                  (py "prompt", VStr user_message);
                  (py "stream", VBool false)]))
    false 300.

(** The [try] statement of [chat_simple]. *)
Definition simple_request {Y} (g : Globals) (model : pyval) (user_message : pystr)
  : Prog Y ViewResult :=
  try_except
    (response <- request (simple_call g model user_message) ;;
     raise_for_status response ;;
     body <- response_json response ;;
     Ret (jsonify body))
    (fun e =>
       if is_ConnectionError_or_Timeout e then
         Some (logger_error (py "Connection error: " ++ exn_str e) ;;
               Ret (jsonify_status
                      (error_body (VStr (py "Connection to Ollama failed. Is Ollama running?")))
                      503))
       else if is_RequestException e then
         Some (logger_error (py "Request error: " ++ exn_str e) ;;
               Ret (jsonify_status (error_body (VStr (exn_str e))) 500))
       else None).

(** [chat_simple], [POST /api/chat/simple] *)
Definition chat_simple {Y} (g : Globals) (request : Request) : Prog Y ViewResult :=
  data <- request_json request ;;
  if negb (truthy data) then
    Ret (jsonify_status (error_body (VStr (py "No data provided"))) 400)
  else
    message <- lift (py_get data (py "message") (VStr [])) ;;
    user_message <- lift (py_strip message) ;;
    model <- lift (py_get data (py "model") (VStr DEFAULT_MODEL)) ;;
    if negb (truthy (VStr user_message)) then
      Ret (jsonify_status (error_body (VStr (py "Message is required"))) 400)
    else
      simple_request g model user_message.

(** [not_found], the handler of 404 *)
Definition not_found {Y} : Prog Y ViewResult :=
  Ret (jsonify_status (error_body (VStr (py "Endpoint not found"))) 404).

(** [str(error)] for the [InternalServerError] Flask passes to the
    handler of 500. *)
Definition internal_server_error_str : pystr :=
  py "500 Internal Server Error: The server encountered an internal error and was unable to complete your request. Either the server is overloaded or there is an error in the application.".

(** [internal_error], the handler of 500 *)
Definition internal_error {Y} (error : exn) : Prog Y ViewResult :=
  logger_error (py "Internal server error: " ++ exn_str error) ;;
  Ret (jsonify_status (error_body (VStr (py "Internal server error"))) 500).

(** Flask around a view.  An [HTTPException] goes to the handler
    registered for its code, [not_found] for 404 and [internal_error]
    for 500, and is itself the reply when there is none; every other
    exception the view lets through is wrapped in an
    [InternalServerError] and handed to the handler registered for
    500. *)
Definition dispatch {Y} (view : Prog Y ViewResult) : Prog Y ViewResult :=
  try_except view
    (fun e =>
       match http_code e with
       | Some code =>
           if (code =? 404)%Z then Some not_found
           else if (code =? 500)%Z then Some (internal_error e)
           else Some (Ret (ErrorPage code))
       | None =>
           if is_Exception e
           then Some (internal_error (mk_exn OtherException internal_server_error_str))
           else None
       end).

(** What Flask's URL map resolves a request to: the view of one of the
    rules [/api/health], [/api/models], [/api/chat] and
    [/api/chat/simple], with the request the view reads, or [NotFound]
    for a path without a rule, or [MethodNotAllowed] for a path with a
    rule and a method the rule does not list. *)
Inductive Route : Type :=
| ApiHealth
| ApiModels
| ApiChat (request : Request)
| ApiChatSimple (request : Request)
| Unknown
| WrongMethod.

Definition handle {Y} (g : Globals) (r : Route) : Prog Y ViewResult :=
  match r with
  | ApiHealth => dispatch (health_check g)
  | ApiModels => dispatch (get_models g)
  | ApiChat request => dispatch (chat g request)
  | ApiChatSimple request => dispatch (chat_simple g request)
  | Unknown => dispatch (Raise NotFound)
  | WrongMethod => dispatch (Raise MethodNotAllowed)
  end.

(** *** Start-up *)

(** The options on the command line, each given or not. *)
Record CommandLine : Type := mk_argv {
  opt_port : option Z;
  opt_host : option pystr;
  opt_debug : bool;
  opt_ollama_url : option pystr
}.

(** The [argparse.Namespace] of [parse_arguments]. *)
Record Namespace : Type := mk_args {
  port : Z;
  host : pystr;
  debug : bool;
  ollama_url : pystr
}.

Definition or_default {A} (o : option A) (d : A) : A :=
  match o with
  | Some a => a
  | None => d
  end.

(** [parse_arguments]: the default of [--ollama-url] is the value of the
    global when the parser is built. *)
Definition parse_arguments (g : Globals) (argv : CommandLine) : Namespace :=
  mk_args (or_default (opt_port argv) DEFAULT_PORT)
          (or_default (opt_host argv) DEFAULT_HOST)
          (opt_debug argv)
          (or_default (opt_ollama_url argv) (OLLAMA_API_URL g)).

Definition check_mark : pystr := [226; 339; 8220]%N.
Definition cross_mark : pystr := [226; 339; 8212]%N.
Definition warning_mark : pystr := [226; 353; 160]%N.

(** [check_dependencies]: [flask] and [requests] were imported when the
    module was loaded, so both imports succeed. *)
Definition check_dependencies {Y} : Prog Y bool :=
  logger_info (check_mark ++ py " All dependencies found") ;;
  Ret true.

(** [for model in models: logger.info(...)] *)
Fixpoint log_model_names {Y} (models : list pyval) : Prog Y unit :=
  match models with
  | [] => Ret tt
  | model :: rest =>
      name <- lift (py_get model (py "name") (VStr (py "unknown"))) ;;
      logger_info (py "  - " ++ str_of name) ;;
      log_model_names rest
  end.

(** [check_ollama_connection] *)
Definition check_ollama_connection {Y} (g : Globals) : Prog Y bool :=
  ok <- check_health (ollama g) ;;
  if (ok : bool) then
    models <- list_models (ollama g) ;;
    n <- lift (py_len models) ;;
    logger_info (check_mark ++ py " Connected to Ollama (" ++ str_of_int n
                 ++ py " models available)") ;;
    (if truthy models then
       logger_info (py "Available models:") ;;
       items <- lift (py_iter models) ;;
       log_model_names items
     else
       logger_warning (warning_mark
                       ++ py " No models found. Download one with: ollama pull codellama")) ;;
    Ret true
  else
    logger_error (cross_mark ++ py " Cannot connect to Ollama") ;;
    logger_error (py "Make sure Ollama is running: ollama serve") ;;
    Ret false.

(** The globals right after [import]: [ollama = OllamaClient()]. *)
Definition module_globals : Globals :=
  mk_globals (py "http://localhost:11434") (OllamaClient_init None).

(** [main] up to [app.run]: it returns the globals the application
    serves with and the arguments [app.run] receives.  The banner goes to
    standard output, which is not part of the model; [sys.exit(1)] is
    behind a test that cannot fail here. *)
Definition main {Y} (g : Globals) (argv : CommandLine) : Prog Y (Globals * Namespace) :=
  let args := parse_arguments g argv in
  let g := mk_globals (ollama_url args) (ollama g) in
  deps <- check_dependencies ;;
  (if negb deps then Raise (mk_exn NonException (py "1")) else Ret tt) ;;
  connected <- check_ollama_connection g ;;
  (if negb connected then
     logger_warning (warning_mark ++ py " Server will start but won't work without Ollama")
   else Ret tt) ;;
  Ret (g, args).

End Server.

(* ===================================================================== *)
(** ** The library functions, for the examples *)
(* ===================================================================== *)

(** Executable versions of [bytes.decode('utf-8')], [json.loads] and
    [str] as CPython 3.11 has them, with which the programs above run on
    concrete bytes.  The properties below hold for every behaviour of
    the three functions; these versions serve the concrete runs. *)
Module Py.

Definition is_cont (b : N) : bool := ((128 <=? b) && (b <=? 191))%N.

Definition hex2 (b : N) : pystr := [hex_digit (b / 16); hex_digit (b mod 16)]%N.

(** [UnicodeDecodeError] for the sequence that starts at [pos] with byte
    [b], of which [n] bytes were read. *)
Definition decode_error (b pos : N) (n : N) (why : string) : exn :=
  mk_exn UnicodeDecodeError
    (py "'utf-8' codec can't decode " ++
     (if (n <=? 1)%N
      then py "byte 0x" ++ hex2 b ++ py " in position " ++ str_of_int (Z.of_N pos)
      else py "bytes in position " ++ str_of_int (Z.of_N pos) ++ py "-"
           ++ str_of_int (Z.of_N (pos + n - 1))) ++
     py ": " ++ py why).

(** Strict UTF-8: no overlong forms, no surrogates, nothing above
    U+10FFFF. *)
Fixpoint utf8 (pos : N) (bs : list N) : pystr + exn :=
  let cons c r := match r with inl s => inl (c :: s) | inr e => inr e end in
  match bs with
  | [] => inl []
  | b0 :: t0 =>
    (if b0 <? 128 then cons b0 (utf8 (pos + 1) t0)
     else if (b0 <? 194) || (244 <? b0) then inr (decode_error b0 pos 1 "invalid start byte")
     else
       match t0 with
       | [] => inr (decode_error b0 pos 1 "unexpected end of data")
       | b1 :: t1 =>
         if b0 <? 224 then
           if is_cont b1
           then cons ((b0 - 192) * 64 + (b1 - 128)) (utf8 (pos + 2) t1)
           else inr (decode_error b0 pos 1 "invalid continuation byte")
         else
           let lo := if b0 =? 224 then 160 else if b0 =? 240 then 144 else 128 in
           let hi := if b0 =? 237 then 159 else if b0 =? 244 then 143 else 191 in
           if negb ((lo <=? b1) && (b1 <=? hi))
           then inr (decode_error b0 pos 1 "invalid continuation byte")
           else
             match t1 with
             | [] => inr (decode_error b0 pos 2 "unexpected end of data")
             | b2 :: t2 =>
               if negb (is_cont b2)
               then inr (decode_error b0 pos 2 "invalid continuation byte")
               else if b0 <? 240 then
                 cons ((b0 - 224) * 4096 + (b1 - 128) * 64 + (b2 - 128))
                      (utf8 (pos + 3) t2)
               else
                 match t2 with
                 | [] => inr (decode_error b0 pos 3 "unexpected end of data")
                 | b3 :: t3 =>
                   if is_cont b3
                   then cons ((b0 - 240) * 262144 + (b1 - 128) * 4096
                              + (b2 - 128) * 64 + (b3 - 128))
                             (utf8 (pos + 4) t3)
                   else inr (decode_error b0 pos 3 "invalid continuation byte")
                 end
             end
       end)%N
  end.

(** [line.decode('utf-8')] *)
Definition bytes_decode (line : bytes) : pystr + exn :=
  utf8 0 (map Byte.to_N line).

(** *** Floats

    A [float] is carried by its [repr].  [float(literal)] is the double
    nearest to the decimal, ties to even, and [repr] is the shortest
    decimal that reads back as that double, the nearest one when there
    are two. *)

(** [num / den] rounded to the nearest integer, ties to even. *)
Definition round_div (num den : Z) : Z :=
  let q := (num / den)%Z in
  match (2 * (num mod den) ?= den)%Z with
  | Lt => q
  | Gt => (q + 1)%Z
  | Eq => if Z.even q then q else (q + 1)%Z
  end.

(** The double nearest to [num / den > 0], as [(q, k)] for [q * 2^k]
    with [q < 2^53] and [k >= -1074]; [None] when it overflows. *)
Definition to_double (num den : Z) : option (Z * Z) :=
  (let k0 := Z.log2 num - Z.log2 den - 52 in
   let floor_at k := if 0 <=? k then num / (den * 2 ^ k) else (num * 2 ^ (- k)) / den in
   let k1 := if floor_at k0 <? 2 ^ 52 then k0 - 1 else k0 in
   let k := Z.max k1 (-1074) in
   let q := if 0 <=? k then round_div num (den * 2 ^ k)
            else round_div (num * 2 ^ (- k)) den in
   let (q', k') := if q =? 2 ^ 53 then (2 ^ 52, k + 1) else (q, k) in
   if 971 <? k' then None else Some (q', k'))%Z.

(** The double nearest to [m * 10^e]. *)
Definition double_of_decimal (m e : Z) : option (Z * Z) :=
  (if 0 <=? e then to_double (m * 10 ^ e) 1 else to_double m (10 ^ (- e)))%Z.

Definition same_double (a b : option (Z * Z)) : bool :=
  match a, b with
  | Some (q1, k1), Some (q2, k2) => ((q1 =? q2) && (k1 =? k2))%Z
  | _, _ => false
  end.

(** [xn / xd >= 10^p] *)
Definition at_least_pow10 (xn xd p : Z) : bool :=
  (if 0 <=? p then 10 ^ p * xd <=? xn else xd <=? xn * 10 ^ (- p))%Z.

Fixpoint magnitude_from (fuel : nat) (xn xd p : Z) : Z :=
  match fuel with
  | O => p
  | S fuel' =>
      if at_least_pow10 xn xd p then magnitude_from fuel' xn xd (p + 1)%Z else p
  end.

(** The [p] with [10^(p-1) <= xn / xd < 10^p]. *)
Definition magnitude (xn xd : Z) : Z :=
  magnitude_from 8 xn xd ((Z.log2 xn - Z.log2 xd) * 30103 / 100000 - 1)%Z.

(** The shortest decimal [m * 10^e], of [n] digits or more, that reads
    back as the double [q * 2^k = xn / xd]. *)
Fixpoint shortest_from (fuel : nat) (q k xn xd p n : Z) : Z * Z :=
  (let j := n - p in
   let (yn, yd) := if 0 <=? j then (xn * 10 ^ j, xd) else (xn, xd * 10 ^ (- j)) in
   let lo := yn / yd in
   let hi := lo + 1 in
   let back m := same_double (double_of_decimal m (- j)) (Some (q, k)) in
   let nearest := match (2 * (yn mod yd) ?= yd) with
                  | Lt => lo
                  | Gt => hi
                  | Eq => if Z.even lo then lo else hi
                  end in
   match fuel with
   | O => (nearest, - j)
   | S fuel' =>
       match back lo, back hi with
       | true, true => (nearest, - j)
       | true, false => (lo, - j)
       | false, true => (hi, - j)
       | false, false => shortest_from fuel' q k xn xd p (n + 1)
       end
   end)%Z.

Fixpoint strip_zeros (fuel : nat) (m e : Z) : Z * Z :=
  match fuel with
  | O => (m, e)
  | S fuel' =>
      if ((m mod 10 =? 0) && negb (m =? 0))%Z then strip_zeros fuel' (m / 10)%Z (e + 1)%Z
      else (m, e)
  end.

Definition shortest (q k : Z) : Z * Z :=
  let (xn, xd) := (if 0 <=? k then (q * 2 ^ k, 1) else (q, 2 ^ (- k)))%Z in
  let (m, e) := shortest_from 16 q k xn xd (magnitude xn xd) 1 in
  strip_zeros 20 m e.

(** The digits [d] with the decimal point after the first [decpt] of
    them, the way [repr] writes a float: positional for
    [-4 < decpt <= 16], with an exponent otherwise. *)
Definition float_repr_digits (d : pystr) (decpt : Z) : pystr :=
  let nd := Z.of_nat (List.length d) in
  let zeros n := repeat 48%N (Z.to_nat n) in
  if ((-4 <? decpt) && (decpt <=? 16))%Z then
    if (decpt <=? 0)%Z then [48; 46]%N ++ zeros (- decpt)%Z ++ d
    else if (nd <=? decpt)%Z then d ++ zeros (decpt - nd)%Z ++ [46; 48]%N
    else firstn (Z.to_nat decpt) d ++ [46%N] ++ skipn (Z.to_nat decpt) d
  else
    let x := (decpt - 1)%Z in
    let xs := str_of_int (Z.abs x) in
    firstn 1 d ++ (match skipn 1 d with [] => [] | t => 46%N :: t end) ++
    [101%N; if (x <? 0)%Z then 45%N else 43%N] ++
    (match xs with [_] => 48%N :: xs | _ => xs end).

(** [repr(float(literal))] for the literal [m * 10^e] with [m >= 0] and
    the sign [neg]. *)
Definition float_repr (neg : bool) (m e : Z) : pystr :=
  let sign := if neg then [45%N] else [] in
  let p := (Z.of_nat (List.length (str_of_int m)) + e)%Z in
  if ((m =? 0) || (p <? -330))%Z then sign ++ py "0.0"
  else if (310 <? p)%Z then sign ++ py "inf"
  else
    match double_of_decimal m e with
    | None => sign ++ py "inf"
    | Some (q, k) =>
        if (q =? 0)%Z then sign ++ py "0.0"
        else
          let (sm, se) := shortest q k in
          let d := str_of_int sm in
          sign ++ float_repr_digits d (Z.of_nat (List.length d) + se)%Z
    end.

(** *** json.loads

    The scanner of CPython's [json.decoder], on code points, with the
    two limits of the interpreter it can meet: an integer of more than
    4300 digits raises [ValueError] (Python 3.11), and a nesting deeper
    than the recursion limit raises [RecursionError]. *)

(** [sys.get_int_max_str_digits()] *)
Definition int_max_str_digits : nat := 4300.

(** [sys.getrecursionlimit()], the default.  The frames already on the
    stack when [json.loads] is called lower the depth that is left; they
    are not counted here. *)
Definition recursion_limit : nat := 1000.

(** Why the scanner gave up: a syntax error, with its message and the
    input left, or an exception of another class. *)
Inductive perr : Type :=
| PErr (msg : string) (rest : pystr)
| PRaise (e : exn).

Definition int_too_long (n : nat) : exn :=
  mk_exn ValueError
    (py "Exceeds the limit (4300 digits) for integer string conversion: value has "
     ++ str_of_int (Z.of_nat n)
     ++ py " digits; use sys.set_int_max_str_digits() to increase the limit").

Definition too_deep (what : string) : exn :=
  mk_exn RecursionError
    (py "maximum recursion depth exceeded while decoding a JSON " ++ py what
     ++ py " from a unicode string").

Definition is_ws (c : N) : bool :=
  ((c =? 32) || (c =? 9) || (c =? 10) || (c =? 13))%N.

Definition is_digit (c : N) : bool := ((48 <=? c) && (c <=? 57))%N.

Fixpoint skip_ws (s : pystr) : pystr :=
  match s with
  | c :: s' => if is_ws c then skip_ws s' else s
  | [] => []
  end.

Fixpoint span (f : N -> bool) (s : pystr) : pystr * pystr :=
  match s with
  | c :: s' => if f c then let (a, b) := span f s' in (c :: a, b) else ([], s)
  | [] => ([], [])
  end.

Definition hex_val (c : N) : option N :=
  (if is_digit c then Some (c - 48)
   else if (97 <=? c) && (c <=? 102) then Some (c - 87)
   else if (65 <=? c) && (c <=? 70) then Some (c - 55)
   else None)%N.

Definition hex4 (a b c d : N) : option N :=
  match hex_val a, hex_val b, hex_val c, hex_val d with
  | Some x, Some y, Some z, Some t => Some (x * 4096 + y * 256 + z * 16 + t)%N
  | _, _, _, _ => None
  end.

Definition simple_escape (e : N) : option N :=
  (if e =? 34 then Some 34 else if e =? 92 then Some 92 else if e =? 47 then Some 47
   else if e =? 98 then Some 8 else if e =? 102 then Some 12 else if e =? 110 then Some 10
   else if e =? 114 then Some 13 else if e =? 116 then Some 9 else None)%N.

(** The low half of a surrogate pair at the head of [s], if any. *)
Definition low_surrogate (s : pystr) : option N :=
  match s with
  | b :: u :: g1 :: g2 :: g3 :: g4 :: _ =>
      if ((b =? 92) && (u =? 117))%N then
        match hex4 g1 g2 g3 g4 with
        | Some u2 => if ((56320 <=? u2) && (u2 <=? 57343))%N then Some u2 else None
        | None => None
        end
      else None
  | _ => None
  end.

(** The body of a string literal, after the opening quote. *)
Fixpoint scanstring (s : pystr) : (pystr * pystr) + perr :=
  let cons c r :=
    match r with
    | inl (t, rest) => inl (c :: t, rest)
    | inr e => inr e
    end in
  match s with
  | [] => inr (PErr "Unterminated string starting at" s)
  | c :: s1 =>
    if (c =? 34)%N then inl ([], s1)
    else if (c <? 32)%N then inr (PErr "Invalid control character at" s)
    else if negb (c =? 92)%N then cons c (scanstring s1)
    else
      match s1 with
      | [] => inr (PErr "Unterminated string starting at" s)
      | e :: s2 =>
        if negb (e =? 117)%N then
          match simple_escape e with
          | Some ch => cons ch (scanstring s2)
          | None => inr (PErr "Invalid \escape" s)
          end
        else
          match s2 with
          | h1 :: h2 :: h3 :: h4 :: s3 =>
            match hex4 h1 h2 h3 h4 with
            | None => inr (PErr "Invalid \uXXXX escape" s1)
            | Some u1 =>
              match (if ((55296 <=? u1) && (u1 <=? 56319))%N
                     then low_surrogate s3 else None), s3 with
              | Some u2, _ :: _ :: _ :: _ :: _ :: _ :: s4 =>
                  cons (65536 + N.lor (N.shiftl (u1 - 55296) 10) (u2 - 56320))%N
                       (scanstring s4)
              | _, _ => cons u1 (scanstring s3)
              end
            end
          | _ => inr (PErr "Invalid \uXXXX escape" s1)
          end
      end
  end.

(** [int(digits)] *)
Definition int_of_digits (ds : pystr) : Z :=
  fold_left (fun acc d => acc * 10 + Z.of_N (d - 48)%N)%Z ds 0%Z.

(** A number at the head of [s]: an optional minus, [0] or a run of
    digits that does not start with [0], then an optional fraction and an
    optional exponent, each taken only when it has a digit.  Without
    fraction and exponent it is an [int], otherwise a [float]. *)
Definition scan_number (s : pystr) : option ((pyval * pystr) + perr) :=
  let (neg, s0) := match s with
                   | c :: t => if (c =? 45)%N then (true, t) else (false, s)
                   | [] => (false, s)
                   end in
  let (int_digits, s1) :=
    match s0 with
    | c :: t => if (c =? 48)%N then ([c], t) else span is_digit s0
    | [] => ([], [])
    end in
  match int_digits with
  | [] => None
  | _ =>
    let (frac, s2) :=
      match s1 with
      | c :: t =>
          if (c =? 46)%N then
            match span is_digit t with
            | ([], _) => ([], s1)
            | (ds, rest) => (c :: ds, rest)
            end
          else ([], s1)
      | [] => ([], s1)
      end in
    let (expo, s3) :=
      match s2 with
      | c :: t =>
          if ((c =? 101) || (c =? 69))%N then
            let (sign, t') :=
              match t with
              | sg :: t1 => if ((sg =? 43) || (sg =? 45))%N then ([sg], t1) else ([], t)
              | [] => ([], t)
              end in
            match span is_digit t' with
            | ([], _) => ([], s2)
            | (ds, rest) => (c :: sign ++ ds, rest)
            end
          else ([], s2)
      | [] => ([], s2)
      end in
    match frac, expo with
    | [], [] =>
        if (int_max_str_digits <? List.length int_digits)%nat
        then Some (inr (PRaise (int_too_long (List.length int_digits))))
        else
          Some (inl (VInt (if neg then - int_of_digits int_digits
                           else int_of_digits int_digits)%Z,
                     s3))
    | _, _ =>
        let frac_digits := skipn 1 frac in
        let e := match skipn 1 expo with
                 | sg :: ds =>
                     if (sg =? 45)%N then (- int_of_digits ds)%Z
                     else if (sg =? 43)%N then int_of_digits ds
                     else int_of_digits (sg :: ds)
                 | [] => 0%Z
                 end in
        Some (inl (VFloat (float_repr neg (int_of_digits (int_digits ++ frac_digits))
                             (e - Z.of_nat (List.length frac_digits))%Z),
                   s3))
    end
  end.

Definition literal (s : pystr) (word : string) (v : pyval)
  : option ((pyval * pystr) + perr) :=
  if startswith s (py word) then Some (inl (v, skipn (String.length word) s)) else None.

Definition first_some {A} (l : list (option A)) : option A :=
  fold_right (fun o acc => match o with Some a => Some a | None => acc end) None l.

(** The value at the head of [s] ([scan_once]), the members of an object
    after a key is due, and the elements of an array after a value is
    due; [depth] is the nesting that is left before the recursion limit
    is met. *)
Fixpoint scan_once (fuel depth : nat) (s : pystr) : (pyval * pystr) + perr :=
  match fuel with
  | O => inr (PErr "Expecting value" s)
  | S fuel' =>
    match s with
    | [] => inr (PErr "Expecting value" s)
    | c :: s1 =>
      if (c =? 34)%N then
        match scanstring s1 with
        | inl (t, rest) => inl (VStr t, rest)
        | inr (PErr msg at_) =>
            inr (PErr msg (if String.eqb msg "Unterminated string starting at" then s else at_))
        | inr e => inr e
        end
      else if (c =? 123)%N then
        match depth with
        | O => inr (PRaise (too_deep "object"))
        | S depth' =>
          match skip_ws s1 with
          | c' :: s2 =>
              if (c' =? 125)%N then inl (VDict [], s2)
              else members fuel' depth' [] (skip_ws s1)
          | [] => inr (PErr "Expecting property name enclosed in double quotes" [])
          end
        end
      else if (c =? 91)%N then
        match depth with
        | O => inr (PRaise (too_deep "array"))
        | S depth' =>
          match skip_ws s1 with
          | c' :: s2 =>
              if (c' =? 93)%N then inl (VList [], s2)
              else elements fuel' depth' [] (skip_ws s1)
          | [] => inr (PErr "Expecting value" [])
          end
        end
      else
        match first_some [literal s "null" VNone; literal s "true" (VBool true);
                          literal s "false" (VBool false); scan_number s;
                          literal s "NaN" (VFloat (py "nan"));
                          literal s "Infinity" (VFloat (py "inf"));
                          literal s "-Infinity" (VFloat (py "-inf"))] with
        | Some r => r
        | None => inr (PErr "Expecting value" s)
        end
    end
  end
with members (fuel depth : nat) (acc : pydict) (s : pystr) : (pyval * pystr) + perr :=
  match fuel with
  | O => inr (PErr "Expecting value" s)
  | S fuel' =>
    match s with
    | [] => inr (PErr "Expecting property name enclosed in double quotes" s)
    | q :: s1 =>
      if negb (q =? 34)%N
      then inr (PErr "Expecting property name enclosed in double quotes" s)
      else
        match scanstring s1 with
        | inr (PErr msg at_) =>
            inr (PErr msg (if String.eqb msg "Unterminated string starting at" then s else at_))
        | inr e => inr e
        | inl (key, s2) =>
          match skip_ws s2 with
          | [] => inr (PErr "Expecting ':' delimiter" [])
          | colon :: s3 =>
            if negb (colon =? 58)%N then inr (PErr "Expecting ':' delimiter" (skip_ws s2))
            else
              match scan_once fuel' depth (skip_ws s3) with
              | inr e => inr e
              | inl (v, s4) =>
                let acc' := dict_set acc key v in
                match skip_ws s4 with
                | [] => inr (PErr "Expecting ',' delimiter" [])
                | d :: s5 =>
                  if (d =? 125)%N then inl (VDict acc', s5)
                  else if (d =? 44)%N then members fuel' depth acc' (skip_ws s5)
                  else inr (PErr "Expecting ',' delimiter" (skip_ws s4))
                end
              end
          end
        end
    end
  end
with elements (fuel depth : nat) (acc : list pyval) (s : pystr)
  : (pyval * pystr) + perr :=
  match fuel with
  | O => inr (PErr "Expecting value" s)
  | S fuel' =>
    match scan_once fuel' depth s with
    | inr e => inr e
    | inl (v, s1) =>
      match skip_ws s1 with
      | [] => inr (PErr "Expecting ',' delimiter" [])
      | d :: s2 =>
        if (d =? 93)%N then inl (VList (acc ++ [v]), s2)
        else if (d =? 44)%N then elements fuel' depth (acc ++ [v]) (skip_ws s2)
        else inr (PErr "Expecting ',' delimiter" (skip_ws s1))
      end
    end
  end.

(** [JSONDecodeError(msg, doc, pos)]: the message with line, column and
    offset. *)
Definition json_error (doc : pystr) (msg : string) (rest : pystr) : exn :=
  let pos := (List.length doc - List.length rest)%nat in
  let before := firstn pos doc in
  let lineno := S (List.length (filter (N.eqb 10) before)) in
  let colno := S (List.length (fst (span (fun c => negb (N.eqb c 10)) (rev before)))) in
  mk_exn JSONDecodeError
    (py msg ++ py ": line " ++ str_of_int (Z.of_nat lineno)
     ++ py " column " ++ str_of_int (Z.of_nat colno)
     ++ py " (char " ++ str_of_int (Z.of_nat pos) ++ py ")").

(** [json.loads(doc)] *)
Definition json_loads (doc : pystr) : pyval + exn :=
  if startswith doc [65279%N] then
    inr (json_error doc "Unexpected UTF-8 BOM (decode using utf-8-sig)" doc)
  else
    match scan_once (2 * List.length doc + 2) recursion_limit (skip_ws doc) with
    | inr (PErr msg rest) => inr (json_error doc msg rest)
    | inr (PRaise e) => inr e
    | inl (v, rest) =>
        match skip_ws rest with
        | [] => inl v
        | _ => inr (json_error doc "Extra data" (skip_ws rest))
        end
    end.

(** *** str and repr *)

(** [ch.isprintable()] outside ASCII, by the ranges of the characters
    that are not: the controls and the no-break space of Latin-1, the
    soft hyphen, the format characters of Arabic and Syriac, the spaces
    and format characters of General Punctuation, the ideographic
    space, the surrogates, the private use areas, the byte order mark
    and the last code points of the plane.  Code points that Unicode has
    not assigned are not printable either; they are not told apart
    here. *)
Definition is_printable (c : N) : bool :=
  negb (((128 <=? c) && (c <=? 160)) || (c =? 173)
        || ((1536 <=? c) && (c <=? 1541)) || (c =? 1564) || (c =? 1757) || (c =? 1807)
        || (c =? 2192) || (c =? 2193) || (c =? 2274) || (c =? 5760) || (c =? 6158)
        || ((8192 <=? c) && (c <=? 8207)) || ((8232 <=? c) && (c <=? 8239))
        || ((8287 <=? c) && (c <=? 8303)) || (c =? 12288)
        || ((55296 <=? c) && (c <=? 63743)) || (c =? 65279)
        || ((65520 <=? c) && (c <=? 65531)) || (c =? 65534) || (c =? 65535)
        || (983040 <=? c))%N.

(** One character of [repr(s)] inside the quotes [quote]. *)
Definition repr_char (quote c : N) : pystr :=
  (if (c =? quote) || (c =? 92) then [92; c]
   else if c =? 9 then py "\t"
   else if c =? 10 then py "\n"
   else if c =? 13 then py "\r"
   else if (c <? 32) || (c =? 127) then py "\x" ++ hex2 c
   else if c <? 127 then [c]
   else if is_printable c then [c]
   else if c <? 256 then py "\x" ++ hex2 c
   else if c <? 65536 then u_escape c
   else py "\U" ++ hex2 (N.shiftr c 24) ++ hex2 (N.shiftr c 16 mod 256)
        ++ hex2 (N.shiftr c 8 mod 256) ++ hex2 (c mod 256))%N.

(** [repr(s)] of a [str]: single quotes, unless the string has a single
    quote and no double quote. *)
Definition repr_str (s : pystr) : pystr :=
  let quote := if existsb (N.eqb 39) s && negb (existsb (N.eqb 34) s)
               then 34%N else 39%N in
  [quote] ++ flat_map (repr_char quote) s ++ [quote].

(** [repr(v)] *)
Fixpoint repr (v : pyval) : pystr :=
  match v with
  | VNone => py "None"
  | VBool true => py "True"
  | VBool false => py "False"
  | VInt z => str_of_int z
  | VFloat r => r
  | VStr s => repr_str s
  | VList l => py "[" ++ join_comma (map repr l) ++ py "]"
  | VDict d =>
      py "{" ++
      join_comma (map (fun kv => repr_str (fst kv) ++ py ": " ++ repr (snd kv)) d)
      ++ py "}"
  end.

(** [str(v)]: the string itself, and [repr(v)] for every other value. *)
Definition str_of (v : pyval) : pystr :=
  match v with
  | VStr s => s
  | _ => repr v
  end.

End Py.


(* ===================================================================== *)
(** ** Vocabulary of the properties *)
(* ===================================================================== *)

(** JSON text of the examples, written with ['] for the double quote. *)
Definition js (s : string) : pystr :=
  map (fun c => if (c =? 39)%N then 34%N else c) (py s).

Definition js_bytes (s : string) : bytes :=
  map (fun c => match Byte.of_N c with Some b => b | None => Byte.x00 end) (js s).

(** The three kinds of data chunk of the event stream. *)
Definition is_response_chunk (c : pystr) : Prop :=
  exists text, c = sse (VDict [(py "response", text)]).

Definition is_done_chunk (c : pystr) : Prop :=
  exists stats, c = sse (VDict [(py "done", VBool true); (py "stats", stats)]).

Definition is_error_chunk (c : pystr) : Prop :=
  exists msg, c = sse (error_body msg).

(** [yield y1; ...; yield yn] and then [k]. *)
Definition yield_all {Y A} (ys : list Y) (k : Prog Y A) : Prog Y A :=
  fold_right (fun y p => Yield y p) k ys.

(** The outcome of [p] followed by the outcome of what runs after it. *)
Definition then_outcome {Y A B} (o : Outcome Y A) (o' : Outcome Y B) : Outcome Y B :=
  mk_outcome (yielded o ++ yielded o') (result o') (world o').

(** The outcome [o] with another way of ending. *)
Definition with_result {Y A B} (o : Outcome Y A) (r : B + exn) : Outcome Y B :=
  mk_outcome (yielded o) r (world o).

(** The world after some more log records. *)
Definition logged (w : World) (rs : list LogRecord) : World :=
  mk_world (calls w) (records w ++ rs).

(** The world after one more upstream call. *)
Definition called (w : World) (c : HttpCall) : World :=
  mk_world (calls w ++ [c]) (records w).

(** A program that neither yields nor raises. *)
Inductive quiet {Y A} : Prog Y A -> Prop :=
| quiet_ret a : quiet (Ret a)
| quiet_log r k : quiet k -> quiet (Log r k)
| quiet_http c k : (forall o, quiet (k o)) -> quiet (Http c k).

(** A generator all of whose runs yield [content] items and then, at
    most once and as the last item, an [error] item, after which it
    returns. *)
Inductive relayed {Y A} (content error : Y -> Prop) : Prog Y A -> Prop :=
| relayed_ret a : relayed content error (Ret a)
| relayed_raise e : relayed content error (Raise e)
| relayed_content y k :
    content y -> relayed content error k -> relayed content error (Yield y k)
| relayed_error y k :
    error y -> quiet k -> relayed content error (Yield y k)
| relayed_log r k : relayed content error k -> relayed content error (Log r k)
| relayed_http c k :
    (forall o, relayed content error (k o)) -> relayed content error (Http c k).

(** A loop body that yields [content] items and goes on, raises, or
    yields one [error] item and breaks. *)
Inductive relays_one {Y} (content error : Y -> Prop) : Prog Y ctl -> Prop :=
| relays_ret c : relays_one content error (Ret c)
| relays_raise e : relays_one content error (Raise e)
| relays_content y k :
    content y -> relays_one content error k -> relays_one content error (Yield y k)
| relays_error y : error y -> relays_one content error (Yield y (Ret Break)).

(** What a line of the body amounts to: an event, or the
    [JSONDecodeError] for which the line is skipped. *)
Definition item : Type := (pyval + exn)%type.

Definition events_of (items : list item) : list pyval :=
  flat_map (fun it => match it with inl v => [v] | inr _ => [] end) items.

Definition errors_of (items : list item) : list exn :=
  flat_map (fun it => match it with inl _ => [] | inr e => [e] end) items.

Section Decoding.

Variable bytes_decode : bytes -> pystr + exn.
Variable json_loads : pystr -> pyval + exn.

(** The stream decoder as the specification words it: over the lines of
    a body, a blank line gives nothing, a line that [json.loads] rejects
    with a [JSONDecodeError] is skipped, every other line gives the event
    it decodes to.  [decodes ls items]: the lines [ls] amount to [items],
    in order. *)
Inductive decodes : list bytes -> list item -> Prop :=
| decodes_end : decodes [] []
| decodes_blank ls items :
    decodes ls items -> decodes ([] :: ls) items
| decodes_event line event ls items :
    line <> [] -> loads_line bytes_decode json_loads line = inl event ->
    decodes ls items -> decodes (line :: ls) (inl event :: items)
| decodes_noise line e ls items :
    line <> [] -> loads_line bytes_decode json_loads line = inr e ->
    is_JSONDecodeError e = true ->
    decodes ls items -> decodes (line :: ls) (inr e :: items).

End Decoding.

(** The record [generate_stream] logs for a line it skips. *)
Definition decode_error_record (e : exn) : LogRecord :=
  mk_log ERROR (py "JSON decode error: " ++ exn_str e).

(** The decoder's work on [items] as a generator: an event is yielded,
    a skipped line is logged. *)
Definition replay {A} (items : list item) (k : Prog pyval A) : Prog pyval A :=
  fold_right (fun it p =>
                match it with
                | inl event => Yield event p
                | inr e => Log (decode_error_record e) p
                end) k items.

(** The [stats] that [generate] builds from a [done] event. *)
Definition stats_of (d : pydict) : pyval :=
  let get k := match dict_lookup d k with Some v => v | None => VInt 0 end in
  VDict [(py "total_duration", get (py "total_duration"));
         (py "load_duration", get (py "load_duration"));
         (py "prompt_eval_count", get (py "prompt_eval_count"));
         (py "eval_count", get (py "eval_count"))].

(** The chunks [generate] writes for an event without [error] key: the
    fragment, when there is one, and the statistics, when [done] is
    truthy. *)
Definition frames_of (d : pydict) : list pystr :=
  match dict_lookup d (py "response") with
  | Some text => [sse (VDict [(py "response", text)])]
  | None => []
  end ++
  if truthy (match dict_lookup d (py "done") with Some v => v | None => VBool false end)
  then [sse (VDict [(py "done", VBool true); (py "stats", stats_of d)])]
  else [].

Definition chunks_of (event : pyval) : list pystr :=
  match event with
  | VDict d => frames_of d
  | _ => []
  end.

(** An event that is a [dict] without an [error] key. *)
Definition error_free (event : pyval) : Prop :=
  exists d, event = VDict d /\ dict_lookup d (py "error") = None.

(** An event that ends a generation: [done] is true, or there is an
    [error] field. *)
Definition terminal_event (event : pyval) : Prop :=
  py_get event (py "done") (VBool false) = inl (VBool true) \/
  py_contains (py "error") event = inl true.

(** In [events], nothing follows a terminal event. *)
Definition terminal_is_last (events : list pyval) : Prop :=
  forall pre event post,
    events = pre ++ event :: post -> terminal_event event -> post = [].

(** A status [raise_for_status] lets through. *)
Definition status_ok (code : Z) : Prop := (code < 400 \/ 600 <= code)%Z.


(** The [message] field of a request body, when it has one. *)
Definition message_of (data : pyval) : option pyval :=
  match data with
  | VDict d => dict_lookup d (py "message")
  | _ => None
  end.

(** A request body whose message is absent or blank. *)
Definition message_missing_or_blank (data : pyval) : Prop :=
  message_of data = None \/
  exists s, message_of data = Some (VStr s) /\ strip s = [].

(** A request body that passes the validation of [chat] and
    [chat_simple] with message [user_message] and model [model]. *)
Definition valid_request (data : pyval) (user_message : pystr) (model : pyval) : Prop :=
  exists d s, data = VDict d /\ dict_lookup d (py "message") = Some (VStr s) /\
              strip s = user_message /\ user_message <> [] /\
              model = match dict_lookup d (py "model") with
                      | Some m => m
                      | None => VStr DEFAULT_MODEL
                      end.

(** The ninth character tells the chunks apart: [r], [d] or [e], the
    first letter of the key of a data chunk, and [O] in the sentinel. *)
Definition chunk_tag (c : pystr) : N := nth 8 c 0%N.

Definition content_chunk (c : pystr) : Prop := is_response_chunk c \/ is_done_chunk c.

(** How [generate_stream] ends once the loop over the lines is left:
    normally, or with an exception that reaches its [except] clauses. *)
Definition ending (stop : option exn) : Prog pyval unit :=
  match stop with
  | None => Ret tt
  | Some e => match on_request_failure e with
              | Some q => q
              | None => Raise e
              end
  end.

(** How the decoded sequence ends when the reading stops with [stop]:
    nothing more and a normal return, or the error event built from a
    [requests] exception and a normal return, or nothing more and the
    exception. *)
Definition ends_with (o : Outcome pyval unit) (events : list pyval) (stop : option exn)
  : Prop :=
  match stop with
  | None => yielded o = events /\ result o = inl tt
  | Some e =>
      if is_RequestException e
      then exists msg, yielded o = events ++ [error_body (VStr msg)] /\ result o = inl tt
      else yielded o = events /\ result o = inr e
  end.




(** A request body that [chat] and [chat_simple] turn down: nothing, or
    an object whose message is absent or blank. *)
Definition rejected_body (data : pyval) : Prop :=
  truthy data = false \/
  exists d, data = VDict d /\ message_missing_or_blank data.



(** The record of the handler of 500. *)
Definition internal_error_record : LogRecord :=
  mk_log ERROR (py "Internal server error: " ++ internal_server_error_str).

Definition internal_error_reply : ViewResult :=
  Json 500 (error_body (VStr (py "Internal server error"))).

(** The validation of [chat] and [chat_simple], by cases on the body. *)
Inductive validation (data : pyval) : Prop :=
| validation_rejects :
    rejected_body data -> validation data
| validation_accepts user_message model :
    valid_request data user_message model -> validation data
| validation_raises :
    truthy data = true ->
    (forall d, data <> VDict d) \/
    (exists d m, data = VDict d /\ dict_lookup d (py "message") = Some m /\
                 forall s, m <> VStr s) ->
    validation data.

(** The [session.get] of [check_health] and of [list_models]. *)
Definition tags_call (self : OllamaClient) : HttpCall :=
  mk_call GET (base_url self ++ py "/api/tags") None false 5.

(** The body of [/api/health] when the probe fails. *)
Definition degraded_body : pyval :=
  VDict [(py "status", VStr (py "degraded"));
         (py "ollama_connected", VBool false);
         (py "models_available", VInt 0);
         (py "models", VList [])].

(* ===================================================================== *)
(** ** The inputs of the concrete runs *)
(* ===================================================================== *)

(** A request body with a message. *)
Definition hello : pyval := VDict [(py "message", VStr (py " hello "))].

(** A 200 answer to the streaming call: the lines of its body and how
    reading them ends. *)
Definition streaming_response (ls : list bytes) (stop : option exn) : Response :=
  mk_response 200 (py "OK") (py "http://localhost:11434/api/generate")
    (inr (py "Extra data: line 2 column 1 (char 20)")) ls stop.

(** A daemon that gives the same answer to every call. *)
Definition daemon (r : Response) : Upstream := fun _ _ => inl r.

(** The stream [chat] answers [hello] with. *)
Definition hello_stream : Prog pystr unit :=
  generate Py.bytes_decode Py.json_loads module_globals (VStr DEFAULT_MODEL) (py "hello").

Definition two_fragments : Response :=
  streaming_response
    [js_bytes "{'response': 'Hi'}"; js_bytes "{'response': ' there', 'done': true, 'eval_count': 2}"]
    None.


(** A body that goes on after a done event. *)
Definition done_then_more : Response :=
  streaming_response [js_bytes "{'done': true}"; js_bytes "{'response': 'late'}"] None.

(** The events [generate_stream] decodes from the call of [hello]. *)
Definition hello_events (r : Response) : Outcome pyval unit :=
  run (daemon r)
    (generate_stream Py.bytes_decode Py.json_loads (ollama module_globals)
       (VStr DEFAULT_MODEL) (py "hello") (Some system_prompt))
    empty_world.

(** An event with a fragment and [done]. *)
Definition last_event : pydict :=
  [(py "response", VStr (py "!")); (py "done", VBool true); (py "eval_count", VInt 7)].

Definition one_event : Response :=
  streaming_response [js_bytes "{'response': '!', 'done': true, 'eval_count': 7}"] None.

(** A request body whose message is a number. *)
Definition number_message : pyval := VDict [(py "message", VInt 42)].


(** An event with a fragment, a true [done] and an [error]. *)
Definition failed_event : pydict :=
  [(py "response", VStr (py "!")); (py "done", VBool true);
   (py "error", VStr (py "out of memory"))].

Definition one_failed_event : Response :=
  streaming_response
    [js_bytes "{'response': '!', 'done': true, 'error': 'out of memory'}"] None.

(** A request body whose message is blank. *)
Definition blank : pyval := VDict [(py "message", VStr (py "   "))].

(** A daemon that cannot be reached. *)
Definition unreachable : Upstream :=
  fun _ _ => inr (mk_requests_exn ConnectionError (py "Connection refused")).

(** The daemon answers the listing with [{"models": null}]. *)
Definition null_listing : Response :=
  mk_response 200 (py "OK") (py "http://localhost:11434/api/tags")
    (inl (VDict [(py "models", VNone)])) [] None.

(** A body with a line that is not UTF-8 between two fragments. *)
Definition noisy_bytes : Response :=
  streaming_response
    [js_bytes "{'response': 'a'}"; [Byte.xff]; js_bytes "{'response': 'b'}"] None.

Definition codec_error : exn :=
  mk_exn UnicodeDecodeError
    (py "'utf-8' codec can't decode byte 0xff in position 0: invalid start byte").

(** A body with a line that is not JSON between two fragments. *)
Definition noisy_json : Response :=
  streaming_response
    [js_bytes "{'response': 'a'}"; js_bytes "{'response': "; []; js_bytes "{'response': 'b'}"]
    None.

(** [--ollama-url http://10.0.0.5:11434] *)
Definition remote_url : pystr := py "http://10.0.0.5:11434".

Definition override : CommandLine := mk_argv None None false (Some remote_url).

(** The answer of the daemon to [/api/chat/simple]. *)
Definition simple_answer : Response :=
  mk_response 200 (py "OK") (remote_url ++ py "/api/generate")
    (inl (VDict [(py "response", VStr (py "Hi")); (py "done", VBool true)])) [] None.

(** A daemon that listens at [remote_url] only. *)
Definition remote_daemon : Upstream :=
  fun _ c =>
    if startswith (call_url c) remote_url then inl simple_answer
    else inr (mk_requests_exn ConnectionError (py "Connection refused")).

(** The globals after [main] was started with [override]. *)
Definition started : Globals :=
  mk_globals remote_url (ollama module_globals).


(* ===================================================================== *)
(** ** Vocabulary of the further properties *)
(* ===================================================================== *)

(** A program that makes no upstream call. *)
Inductive no_call {Y A} : Prog Y A -> Prop :=
| no_call_ret a : no_call (Ret a)
| no_call_raise e : no_call (Raise e)
| no_call_yield y k : no_call k -> no_call (Yield y k)
| no_call_log r k : no_call k -> no_call (Log r k).

(** A program all of whose runs end by returning a value that satisfies
    [P] or by raising an exception that satisfies [Q]. *)
Inductive ends {Y A} (P : A -> Prop) (Q : exn -> Prop) : Prog Y A -> Prop :=
| ends_ret a : P a -> ends P Q (Ret a)
| ends_raise e : Q e -> ends P Q (Raise e)
| ends_yield y k : ends P Q k -> ends P Q (Yield y k)
| ends_log r k : ends P Q k -> ends P Q (Log r k)
| ends_http c k : (forall o, ends P Q (k o)) -> ends P Q (Http c k).

(** The reply of a view is a JSON body with one of the statuses [codes]. *)
Definition json_reply (codes : list Z) (v : ViewResult) : Prop :=
  match v with
  | Json status _ => In status codes
  | EventStream _ | ErrorPage _ => False
  end.

(** An exception of a class that derives from [Exception]. *)
Definition ordinary (e : exn) : Prop :=
  is_Exception e && match http_code e with None => true | Some _ => false end = true.

Definition never (e : exn) : Prop := False.

(** The statuses a route can answer a JSON body with. *)
Definition statuses_of (route : Route) : list Z :=
  match route with
  | ApiHealth | ApiModels => [500; 200]
  | ApiChat _ => [500; 400]
  | ApiChatSimple _ => [500; 200; 400; 503]
  | Unknown => [404]
  | WrongMethod => []
  end%Z.

(** The status of the error page a route can answer with: 415 or 400
    when [request.json] raises in a view that reads it, 405 for a method
    the rule does not list. *)
Definition page_of (route : Route) (status : Z) : Prop :=
  match route with
  | ApiChat NotJson | ApiChatSimple NotJson => status = 415%Z
  | ApiChat BadJson | ApiChatSimple BadJson => status = 400%Z
  | WrongMethod => status = 405%Z
  | _ => False
  end.

(** A reply that [route] can give: a JSON body with one of its statuses,
    or, for [/api/chat] with a parsed body only, a stream, or the error
    page of the route. *)
Definition reply_of (route : Route) (v : ViewResult) : Prop :=
  match v with
  | Json status _ => In status (statuses_of route)
  | EventStream _ => exists data, route = ApiChat (Parsed data)
  | ErrorPage status => page_of route status
  end.

(** [d.get(k, default)] on a [dict]. *)
Definition field (d : pydict) (k : string) (default : pyval) : pyval :=
  match dict_lookup d (py k) with
  | Some v => v
  | None => default
  end.

(** The name [health_check] shows for a model. *)
Definition name_of (d : pydict) : pyval := field d "name" (VStr (py "unknown")).

(** The entry [get_models] shows for a model. *)
Definition info_of (d : pydict) : pyval :=
  VDict [(py "name", field d "name" (VStr (py "unknown")));
         (py "size", field d "size" (VInt 0));
         (py "modified", field d "modified_at" (VStr []))].

(** The record [list_models] logs when the request fails. *)
Definition listing_error_record (msg : pystr) : LogRecord :=
  mk_log ERROR (py "Error listing models: " ++ msg).

(** What [list_models] returns and logs, by the outcome of its call. *)
Definition listing_of (o : HttpOutcome) : (pyval + exn) * list LogRecord :=
  match o with
  | inr e => (inl (VList []), [listing_error_record (rq_str e)])
  | inl r =>
      if (status_code r =? 200)%Z then
        match json r with
        | inr msg => (inl (VList []), [listing_error_record msg])
        | inl (VDict d) => (inl (field d "models" (VList [])), [])
        | inl v => (inr (no_attribute v "get"), [])
        end
      else (inl (VList []), [])
  end.

(** The call of [list_models] fails: it raises, or the status is not 200,
    or the body is not JSON. *)
Definition listing_fails (o : HttpOutcome) : Prop :=
  match o with
  | inr _ => True
  | inl r => status_code r <> 200%Z \/ exists msg, json r = inr msg
  end.

(** A value that cannot be iterated: [None], a [bool] or a number. *)
Definition not_iterable (v : pyval) : Prop :=
  match v with
  | VNone | VBool _ | VInt _ | VFloat _ => True
  | _ => False
  end.

(** The body of [/api/health] when the probe succeeds. *)
Definition healthy_body (names : list pyval) : pyval :=
  VDict [(py "status", VStr (py "healthy"));
         (py "ollama_connected", VBool true);
         (py "models_available", VInt (Z.of_nat (List.length names)));
         (py "models", VList names)].

(** The daemon answers the call [c], made after [n] others, with the
    response [r] of status 200. *)
Definition answers (up : Upstream) (n : nat) (c : HttpCall) (r : Response) : Prop :=
  up n c = inl r /\ status_code r = 200%Z.

(** A listing with two models, one of them without a name. *)
Definition two_models : Response :=
  mk_response 200 (py "OK") (py "http://localhost:11434/api/tags")
    (inl (VDict [(py "models",
                  VList [VDict [(py "name", VStr (py "codellama:7b"));
                                (py "size", VInt 3825819519);
                                (py "modified_at", VStr (py "2024-01-01T00:00:00Z"));
                                (py "digest", VStr (py "8fdf8f752f6e"))];
                         VDict [(py "size", VInt 42)]])]))
    [] None.

Definition two_models_dicts : list pydict :=
  [[(py "name", VStr (py "codellama:7b"));
    (py "size", VInt 3825819519);
    (py "modified_at", VStr (py "2024-01-01T00:00:00Z"));
    (py "digest", VStr (py "8fdf8f752f6e"))];
   [(py "size", VInt 42)]].

(** A listing answered with status 503. *)
Definition busy : Response :=
  mk_response 503 (py "Service Unavailable") (py "http://localhost:11434/api/tags")
    (inr (py "Expecting value: line 1 column 1 (char 0)")) [] None.

(** The message of the error event [generate_stream] builds from an
    exception of [requests]. *)
Definition failure_message (e : exn) : pystr :=
  if is_ConnectionError_or_Timeout e
  then py "Connection to Ollama failed. Is Ollama running?"
  else py "Request failed: " ++ exn_str e.

(** The record [generate_stream] logs for an exception of [requests]. *)
Definition failure_record (e : exn) : LogRecord :=
  mk_log ERROR ((if is_ConnectionError_or_Timeout e
                 then py "Connection error: "
                 else py "Request error: ") ++ exn_str e).

(** A fragment event: a [dict] with the fragment [text], without
    [error] key and without a truthy [done]. *)
Definition fragment_of (event text : pyval) : Prop :=
  exists d, event = VDict d /\ dict_lookup d (py "error") = None /\
            dict_lookup d (py "response") = Some text /\
            truthy (field d "done" (VBool false)) = false.

(** The answer of the daemon is a gateway error. *)
Definition bad_gateway : Response :=
  mk_response 502 (py "Bad Gateway") (py "http://localhost:11434/api/generate")
    (inr (py "Expecting value: line 1 column 1 (char 0)")) [] None.

(** An event that is not a JSON object. *)
Definition not_an_object (event : pyval) : Prop :=
  match event with
  | VDict _ => False
  | _ => True
  end.

(** A body whose second line is a JSON array. *)
Definition array_line : Response :=
  streaming_response [js_bytes "{'response': 'a'}"; js_bytes "[1, 2]"; js_bytes "{'response': 'b'}"]
    None.

(** The probe of [check_health] fails: the call raises or its status is
    not 200. *)
Definition probe_fails (o : HttpOutcome) : Prop :=
  match o with
  | inl r => status_code r <> 200%Z
  | inr _ => True
  end.

(** The records of a start-up without the daemon. *)
Definition startup_records_without_daemon : list LogRecord :=
  [mk_log INFO (check_mark ++ py " All dependencies found");
   mk_log ERROR (cross_mark ++ py " Cannot connect to Ollama");
   mk_log ERROR (py "Make sure Ollama is running: ollama serve");
   mk_log WARNING (warning_mark ++ py " Server will start but won't work without Ollama")].

(** The globals [main] serves with. *)
Definition globals_after_main (g : Globals) (argv : CommandLine) : Globals :=
  mk_globals (or_default (opt_ollama_url argv) (OLLAMA_API_URL g)) (ollama g).

(** The command line without options. *)
Definition no_options : CommandLine := mk_argv None None false None.

(** A printable ASCII character, from the space to the tilde. *)
Definition printable (c : N) : Prop := (32 <= c <= 126)%N.

(** The [repr] of every [float] inside [v] is printable ASCII, as the
    [repr] of a Python [float] is. *)
Fixpoint plain_floats (v : pyval) : Prop :=
  match v with
  | VFloat r => Forall printable r
  | VList l => fold_right (fun x acc => plain_floats x /\ acc) True l
  | VDict d => fold_right (fun kv acc => plain_floats (snd kv) /\ acc) True d
  | _ => True
  end.

(** A fragment with a line break, a quote and text outside ASCII. *)
Definition awkward_text : pyval :=
  VStr (py "a" ++ [10; 34; 233; 128512]%N ++ py "b").

(** What [json.loads] says of the line of [noisy_json] that is cut. *)
Definition missing_value : exn :=
  mk_exn JSONDecodeError (py "Expecting value: line 1 column 14 (char 13)").

(** A payload with [awkward_text] and a float. *)
Definition awkward_payload : pyval :=
  VDict [(py "response", awkward_text); (py "score", VFloat (py "0.5"))].

(** The records of [check_ollama_connection] when the daemon lists the
    models [ds]. *)
Definition listing_records (str_of : pyval -> pystr) (ds : list pydict) : list LogRecord :=
  mk_log INFO (check_mark ++ py " Connected to Ollama ("
               ++ str_of_int (Z.of_nat (List.length ds)) ++ py " models available)") ::
  match ds with
  | [] => [mk_log WARNING
             (warning_mark ++ py " No models found. Download one with: ollama pull codellama")]
  | _ => mk_log INFO (py "Available models:") ::
         map (fun d => mk_log INFO (py "  - " ++ str_of (name_of d))) ds
  end.

(* ===================================================================== *)
(** ** Programs and their runs *)
(* ===================================================================== *)

Unset Implicit Arguments.

Lemma then_nil {Y A B} (a : A + exn) w (o : Outcome Y B) :
  then_outcome (mk_outcome [] a w) o = o.
Proof. destruct o; reflexivity. Qed.

Section Runs.

Variable up : Upstream.

Lemma run_bind {Y A B} (p : Prog Y A) (f : A -> Prog Y B) w :
  run up (bind p f) w =
  match result (run up p w) with
  | inl a => then_outcome (run up p w) (run up (f a) (world (run up p w)))
  | inr e => with_result (run up p w) (inr e)
  end.
Proof.
  revert w; induction p as [a|e|y k IH|r k IH|c k IH]; intros w; simpl.
  - now rewrite then_nil.
  - reflexivity.
  - rewrite IH. destruct (result (run up k w)); reflexivity.
  - apply IH.
  - apply IH.
Qed.

Lemma run_try_except {Y A} (p : Prog Y A) h w :
  run up (try_except p h) w =
  match result (run up p w) with
  | inl a => run up p w
  | inr e =>
      match h e with
      | Some q => then_outcome (run up p w) (run up q (world (run up p w)))
      | None => run up p w
      end
  end.
Proof.
  revert w; induction p as [a|e|y k IH|r k IH|c k IH]; intros w; simpl.
  - reflexivity.
  - destruct (h e); [now rewrite then_nil | reflexivity].
  - rewrite IH. destruct (result (run up k w)) as [a|e]; [reflexivity|].
    destruct (h e); reflexivity.
  - apply IH.
  - apply IH.
Qed.

Lemma run_try_finally_yield {Y A} (p : Prog Y A) (y : Y) w :
  run up (try_finally p (yield y)) w =
  mk_outcome (yielded (run up p w) ++ [y]) (result (run up p w)) (world (run up p w)).
Proof.
  revert w; induction p as [a|e|y' k IH|r k IH|c k IH]; intros w; simpl;
    try reflexivity; try apply IH.
  rewrite IH. reflexivity.
Qed.

Lemma run_yield_all {Y A} (ys : list Y) (k : Prog Y A) w :
  run up (yield_all ys k) w = then_outcome (mk_outcome ys (inl tt) w) (run up k w).
Proof.
  induction ys as [|y ys IH]; simpl.
  - now rewrite then_nil.
  - rewrite IH. reflexivity.
Qed.

(** A quiet program yields nothing and returns. *)
Lemma run_quiet {Y A} (p : Prog Y A) :
  quiet p -> forall w, yielded (run up p w) = [] /\ exists a, result (run up p w) = inl a.
Proof.
  induction 1 as [a|r k _ IH|c k _ IH]; intros w; simpl; eauto.
Qed.

(** The runs of a relayed generator: content, then at most one error. *)
Lemma run_relayed {Y A} (content error : Y -> Prop) (p : Prog Y A) :
  relayed content error p ->
  forall w, exists body term,
    yielded (run up p w) = body ++ term /\
    Forall content body /\
    (term = [] \/ exists c, term = [c] /\ error c).
Proof.
  induction 1 as [a|e|y k Hy _ IH|y k Hy Hq|r k _ IH|c k _ IH]; intros w; simpl.
  - exists [], []; auto.
  - exists [], []; auto.
  - destruct (IH w) as (body & term & E & Hb & Ht).
    exists (y :: body), term. rewrite E. repeat split; auto.
  - destruct (run_quiet _ Hq w) as [E _].
    exists [], [y]. rewrite E. repeat split; eauto.
  - apply IH.
  - apply IH.
Qed.

End Runs.

Lemma quiet_try_except {Y A} (p : Prog Y A) h : quiet p -> quiet (try_except p h).
Proof. induction 1; simpl; constructor; auto. Qed.

Lemma relayed_try_except {Y A} (content error : Y -> Prop) (p : Prog Y A) h :
  relayed content error p ->
  (forall e q, h e = Some q -> relayed content error q) ->
  relayed content error (try_except p h).
Proof.
  intros Hp Hh.
  induction Hp as [a|e|y k Hy _ IH|y k Hy Hq|r k _ IH|c k _ IH]; simpl.
  - constructor.
  - destruct (h e) as [q|] eqn:E; [eauto | constructor].
  - now apply relayed_content.
  - apply relayed_error; [assumption | now apply quiet_try_except].
  - now constructor.
  - now constructor.
Qed.

Lemma relayed_for_each {X Y} (content error : Y -> Prop)
    (g : Prog X unit) (body : X -> Prog Y ctl) :
  (forall x, relays_one content error (body x)) ->
  relayed content error (for_each g body).
Proof.
  intros Hbody.
  induction g as [a|e|x k IH|r k IH|c k IH]; simpl; try (constructor; auto; fail).
  induction (Hbody x) as [c|e|y p Hy _ IHp|y Hy]; simpl.
  - destruct c; [assumption | constructor].
  - constructor.
  - now apply relayed_content.
  - apply relayed_error; [assumption | constructor].
Qed.

(* ===================================================================== *)
(** ** The chunks of the event stream *)
(* ===================================================================== *)

Arguments sse : simpl never.
Arguments py : simpl never.
Arguments json_dumps : simpl never.

Lemma sse_response_eq text :
  sse (VDict [(py "response", text)]) =
  js "data: {'response': " ++ (json_dumps text ++ py "}") ++ [10; 10]%N.
Proof. reflexivity. Qed.

Lemma sse_error_eq msg :
  sse (error_body msg) = js "data: {'error': " ++ (json_dumps msg ++ py "}") ++ [10; 10]%N.
Proof. reflexivity. Qed.

Lemma sse_done_eq stats :
  sse (VDict [(py "done", VBool true); (py "stats", stats)]) =
  js "data: {'done': true, 'stats': " ++ (json_dumps stats ++ py "}") ++ [10; 10]%N.
Proof. reflexivity. Qed.

Lemma response_chunk_tag c : is_response_chunk c -> chunk_tag c = 114%N.
Proof. intros [text ->]. rewrite sse_response_eq. reflexivity. Qed.

Lemma done_chunk_tag c : is_done_chunk c -> chunk_tag c = 100%N.
Proof. intros [stats ->]. rewrite sse_done_eq. reflexivity. Qed.

Lemma error_chunk_tag c : is_error_chunk c -> chunk_tag c = 101%N.
Proof. intros [msg ->]. rewrite sse_error_eq. reflexivity. Qed.

Lemma DONE_tag : chunk_tag DONE = 79%N.
Proof. reflexivity. Qed.

Section Relay.

Variable bytes_decode : bytes -> pystr + exn.
Variable json_loads : pystr -> pyval + exn.

(** What a program waits for first: the outcome of a library call or a
    test. *)
Ltac head_scrutinee p :=
  lazymatch p with
  | bind ?q _ => head_scrutinee q
  | lift ?r => r
  | (if ?b then _ else _) => b
  end.

Ltac relay_step :=
  cbn [lift bind yield];
  lazymatch goal with
  | |- relays_one _ _ (Ret _) => apply relays_ret
  | |- relays_one _ _ (Raise _) => apply relays_raise
  | |- relays_one _ _ (Yield (sse (error_body _)) (Ret Break)) =>
      apply relays_error; exact (ex_intro _ _ eq_refl)
  | |- relays_one _ _ (Yield (sse (VDict [(py "response", _)])) _) =>
      apply relays_content; [ left; exact (ex_intro _ _ eq_refl) | relay_step ]
  | |- relays_one _ _ (Yield (sse (VDict [(py "done", _); _])) _) =>
      apply relays_content; [ right; exact (ex_intro _ _ eq_refl) | relay_step ]
  | |- relays_one _ _ ?p =>
      let r := head_scrutinee p in destruct r eqn:?; relay_step
  end.

Lemma relay_event_relays chunk :
  relays_one content_chunk is_error_chunk (relay_event chunk).
Proof.
  unfold relay_event. relay_step.
Qed.

(** The [except Exception] clause yields one error chunk. *)
Lemma on_streaming_error_relayed e q :
  on_streaming_error e = Some q -> relayed content_chunk is_error_chunk q.
Proof.
  unfold on_streaming_error. destruct (is_Exception e); [|discriminate].
  intros [= <-]. cbn [logger_error bind yield].
  apply relayed_log, relayed_error; [exact (ex_intro _ _ eq_refl) | constructor].
Qed.

(** What [generate] does before its [finally] clause. *)
Lemma generate_body_relayed self model user_message sp :
  relayed content_chunk is_error_chunk
    (try_except
       (for_each (generate_stream bytes_decode json_loads self model user_message sp)
                 relay_event)
       on_streaming_error).
Proof.
  apply relayed_try_except.
  - apply relayed_for_each, relay_event_relays.
  - apply on_streaming_error_relayed.
Qed.

End Relay.

(* ===================================================================== *)
(** ** The stream decoder *)
(* ===================================================================== *)

Lemma logged_logged w a b : logged (logged w a) b = logged w (a ++ b).
Proof. unfold logged; simpl. now rewrite app_assoc. Qed.

Lemma logged_nil w : logged w [] = w.
Proof. destruct w; unfold logged; simpl. now rewrite app_nil_r. Qed.

Lemma try_except_replay {A} items (k : Prog pyval A) h :
  try_except (replay items k) h = replay items (try_except k h).
Proof.
  induction items as [|[event|e] items IH]; simpl; now rewrite ?IH.
Qed.

Lemma bind_yield_all {Y A B} (ys : list Y) (k : Prog Y A) (f : A -> Prog Y B) :
  bind (yield_all ys k) f = yield_all ys (bind k f).
Proof. induction ys as [|y ys IH]; simpl; now rewrite ?IH. Qed.

Lemma status_ok_passes {Y} r :
  status_ok (status_code r) -> @raise_for_status Y r = Ret tt.
Proof.
  unfold status_ok, raise_for_status. intros H.
  destruct (Z.leb_spec 400 (status_code r)), (Z.ltb_spec (status_code r) 500),
           (Z.leb_spec 500 (status_code r)), (Z.ltb_spec (status_code r) 600);
    simpl; try reflexivity; lia.
Qed.

Lemma status_error_raises {Y} r :
  (400 <= status_code r < 600)%Z ->
  exists msg, @raise_for_status Y r = Raise (mk_exn (Requests HTTPError) msg).
Proof.
  intros H. unfold raise_for_status.
  destruct (Z.leb_spec 400 (status_code r)), (Z.ltb_spec (status_code r) 500),
           (Z.leb_spec 500 (status_code r)), (Z.ltb_spec (status_code r) 600);
    simpl; try lia; eexists; reflexivity.
Qed.

Section Decoder.

Variable dec : bytes -> pystr + exn.
Variable loads : pystr -> pyval + exn.
Variable up : Upstream.

Lemma decode_line_event line event :
  line <> [] -> loads_line dec loads line = inl event ->
  decode_line dec loads line = Yield event (Ret Next).
Proof.
  intros Hl E. unfold decode_line.
  destruct line; [congruence|]. simpl bytes_truthy. cbv iota. now rewrite E.
Qed.

Lemma decode_line_noise line e :
  line <> [] -> loads_line dec loads line = inr e -> is_JSONDecodeError e = true ->
  decode_line dec loads line = Log (decode_error_record e) (Ret Next).
Proof.
  intros Hl E J. unfold decode_line.
  destruct line; [congruence|]. simpl bytes_truthy. cbv iota. rewrite E.
  simpl. now rewrite J.
Qed.

(** The loop over the lines, for lines that decode. *)
Lemma for_each_lines ls items (stop : Prog bytes unit) :
  decodes dec loads ls items ->
  for_each (fold_right (fun line k => Yield line k) stop ls) (decode_line dec loads) =
  replay items (for_each stop (decode_line dec loads)).
Proof.
  induction 1 as [|ls items _ IH|line event ls items Hl E _ IH|line e ls items Hl E J _ IH];
    simpl.
  - reflexivity.
  - exact IH.
  - rewrite (decode_line_event _ _ Hl E). simpl. now rewrite IH.
  - rewrite (decode_line_noise _ _ Hl E J). simpl. now rewrite IH.
Qed.

Lemma run_replay {A} items (k : Prog pyval A) w :
  run up (replay items k) w =
  then_outcome (mk_outcome (events_of items) (inl tt) w)
    (run up k (logged w (map decode_error_record (errors_of items)))).
Proof.
  revert w; induction items as [|[event|e] items IH]; intros w; simpl.
  - rewrite logged_nil. now rewrite then_nil.
  - rewrite IH. reflexivity.
  - rewrite IH.
    change (mk_world (calls w) (records w ++ [decode_error_record e]))
      with (logged w [decode_error_record e]).
    rewrite logged_logged. reflexivity.
Qed.

(** [generate_stream] once the daemon has answered with a response whose
    status passes and whose lines decode. *)
Lemma response_tree r items :
  status_ok (status_code r) ->
  decodes dec loads (lines r) items ->
  try_except
    (raise_for_status r ;; for_each (iter_lines r) (decode_line dec loads))
    on_request_failure
  = replay items (ending (lines_end r)).
Proof.
  intros Hs Hd.
  rewrite status_ok_passes by assumption. cbn [bind].
  unfold iter_lines, ending. rewrite (for_each_lines _ _ _ Hd), try_except_replay.
  destruct (lines_end r); reflexivity.
Qed.

Lemma decode_line_fatal line e :
  line <> [] -> loads_line dec loads line = inr e -> is_JSONDecodeError e = false ->
  decode_line dec loads line = Raise e.
Proof.
  intros Hl E J. unfold decode_line.
  destruct line; [congruence|]. simpl bytes_truthy. cbv iota. rewrite E.
  simpl. now rewrite J.
Qed.

(** The same when a line raises something else than a [JSONDecodeError]:
    the loop is left at that line. *)
Lemma response_tree_fatal r good bad rest items e :
  status_ok (status_code r) ->
  lines r = good ++ bad :: rest ->
  decodes dec loads good items ->
  bad <> [] -> loads_line dec loads bad = inr e -> is_JSONDecodeError e = false ->
  try_except
    (raise_for_status r ;; for_each (iter_lines r) (decode_line dec loads))
    on_request_failure
  = replay items (ending (Some e)).
Proof.
  intros Hs Hl Hd Hb E J.
  rewrite status_ok_passes by assumption. cbn [bind].
  unfold iter_lines, ending. rewrite Hl, fold_right_app.
  rewrite (for_each_lines _ _ _ Hd), try_except_replay.
  cbn [fold_right for_each]. rewrite (decode_line_fatal _ _ Hb E J).
  reflexivity.
Qed.

(** The run of the ending. *)
Lemma run_ending stop w :
  match stop with
  | None => run up (ending stop) w = mk_outcome [] (inl tt) w
  | Some e =>
      if is_RequestException e
      then exists msg rs,
             run up (ending stop) w
             = mk_outcome [error_body (VStr msg)] (inl tt) (logged w rs)
      else run up (ending stop) w = mk_outcome [] (inr e) w
  end.
Proof.
  destruct stop as [e|]; [|reflexivity].
  unfold ending, on_request_failure.
  destruct (is_RequestException e) eqn:He.
  - destruct (is_ConnectionError_or_Timeout e); eexists; eexists; reflexivity.
  - assert (Hc : is_ConnectionError_or_Timeout e = false).
    { revert He. unfold is_RequestException, is_ConnectionError_or_Timeout.
      destruct (exn_class e) as [[]| | | | | | | | | |]; congruence. }
    now rewrite Hc.
Qed.

End Decoder.

(* ===================================================================== *)
(** ** The relay *)
(* ===================================================================== *)

Lemma relay_event_frames d :
  dict_lookup d (py "error") = None ->
  relay_event (VDict d) = yield_all (frames_of d) (Ret Next).
Proof.
  intros He. unfold relay_event, frames_of, stats_of.
  cbn [py_contains py_getitem py_get lift bind]. rewrite He.
  destruct (dict_lookup d (py "response")) as [text|];
    cbn [lift bind yield];
    destruct (truthy match dict_lookup d (py "done") with
                     | Some v => v
                     | None => VBool false
                     end); reflexivity.
Qed.


Section Stream.

Variable dec : bytes -> pystr + exn.
Variable loads : pystr -> pyval + exn.
Variable up : Upstream.

(** The loop of [generate] over events without [error] key. *)
Lemma run_relay_error_free items (k : Prog pyval unit) w :
  Forall error_free (events_of items) ->
  run up (for_each (replay items k) relay_event) w =
  then_outcome (mk_outcome (flat_map chunks_of (events_of items)) (inl tt) w)
    (run up (for_each k relay_event)
       (logged w (map decode_error_record (errors_of items)))).
Proof.
  revert w; induction items as [|[event|e] items IH]; intros w Hf.
  - simpl. rewrite logged_nil. now rewrite then_nil.
  - simpl in Hf. inversion Hf as [|x l (d & -> & He) Hrest]; subst.
    cbn [replay fold_right for_each].
    rewrite (relay_event_frames _ He), bind_yield_all. cbn [bind].
    rewrite run_yield_all. fold (replay items k). rewrite (IH _ Hrest).
    unfold then_outcome; simpl. now rewrite app_assoc.
  - simpl in Hf. cbn [replay fold_right for_each run]. fold (replay items k).
    change (mk_world (calls w) (records w ++ [decode_error_record e]))
      with (logged w [decode_error_record e]).
    rewrite (IH _ Hf), logged_logged. reflexivity.
Qed.

(** The stream of [generate] when the daemon answers with a body that
    decodes to events without [error] key and ends normally. *)
Lemma run_generate_error_free g model user_message w r items :
  up (List.length (calls w))
     (generate_call (ollama g) (generate_payload model user_message (Some system_prompt)))
    = inl r ->
  status_ok (status_code r) ->
  decodes dec loads (lines r) items ->
  lines_end r = None ->
  Forall error_free (events_of items) ->
  yielded (run up (generate dec loads g model user_message) w) =
  flat_map chunks_of (events_of items) ++ [DONE].
Proof.
  intros Hup Hs Hd Hend Hf. unfold generate.
  rewrite run_try_finally_yield. f_equal.
  rewrite run_try_except.
  unfold generate_stream. cbn [request bind try_except for_each run].
  rewrite Hup.
  cbn [bind]. rewrite (response_tree dec loads r items Hs Hd).
  unfold ending. rewrite Hend.
  rewrite (run_relay_error_free _ _ _ Hf). cbn [for_each run then_outcome yielded result].
  now rewrite app_nil_r.
Qed.

Lemma replay_app {A} a b (k : Prog pyval A) :
  replay (a ++ b) k = replay a (replay b k).
Proof. unfold replay. now rewrite fold_right_app. Qed.


End Stream.

(* ===================================================================== *)
(** ** The streaming endpoint *)
(* ===================================================================== *)

Section Streaming.

Variable dec : bytes -> pystr + exn.
Variable loads : pystr -> pyval + exn.
Variable up : Upstream.

(** [chat] answers with a stream exactly for the requests that pass its
    validation, and the stream is [generate] on the trimmed message. *)
Lemma chat_streams g data gen :
  @chat dec loads Empty_set g (Parsed data) = Ret (EventStream gen) ->
  exists user_message model,
    valid_request data user_message model /\
    gen = generate dec loads g model user_message.
Proof.
  unfold chat. cbn [request_json bind]. destruct (truthy data) eqn:T; cbn [negb]; [|discriminate].
  destruct data as [| | | | |l|d]; cbn [py_get lift bind]; try discriminate.
  destruct (dict_lookup d (py "message")) as [m|] eqn:M.
  - destruct m; cbn [py_strip lift bind]; try discriminate.
    destruct (strip s) as [|c t] eqn:S; cbn [truthy negb]; [discriminate|].
    intros [= <-]. exists (c :: t), (match dict_lookup d (py "model") with
                                    | Some m => m
                                    | None => VStr DEFAULT_MODEL
                                    end).
    split; [|reflexivity].
    exists d, s. repeat split; auto. discriminate.
  - cbn [py_strip lift bind]. change (strip []) with (@nil N). cbn [truthy negb].
    discriminate.
Qed.

(** The chunks before the sentinel are data chunks, and a data chunk is
    not the sentinel. *)
Lemma content_not_DONE c : content_chunk c -> c <> DONE.
Proof.
  intros [H|H] ->; [apply response_chunk_tag in H | apply done_chunk_tag in H];
    rewrite DONE_tag in H; discriminate.
Qed.

Lemma error_not_DONE c : is_error_chunk c -> c <> DONE.
Proof. intros H ->. apply error_chunk_tag in H. rewrite DONE_tag in H. discriminate. Qed.

(** The stream of [generate]: data chunks, at most one error chunk, the
    sentinel. *)
Lemma generate_shape g model user_message w :
  exists content term,
    yielded (run up (generate dec loads g model user_message) w)
      = content ++ term ++ [DONE] /\
    Forall content_chunk content /\
    (term = [] \/ exists c, term = [c] /\ is_error_chunk c).
Proof.
  unfold generate. rewrite run_try_finally_yield. cbn [yielded].
  destruct (run_relayed up _ _ _
              (generate_body_relayed dec loads (ollama g) model user_message
                 (Some system_prompt)) w)
    as (content & term & E & Hc & Ht).
  exists content, term. rewrite E, app_assoc. auto.
Qed.

(** C1.  Once [/api/chat] has answered with a stream, whatever the
    daemon does (a body that ends, an error event, an exception of any
    class while the body is read or decoded), the stream is some chunks
    followed by the sentinel [data: [DONE]], and the sentinel occurs
    nowhere before: it is written exactly once and it is written last. *)
Theorem chat_stream_ends_with_one_DONE g data gen w :
  @chat dec loads Empty_set g (Parsed data) = Ret (EventStream gen) ->
  exists before,
    yielded (run up gen w) = before ++ [DONE] /\
    ~ In DONE before /\
    count_occ (list_eq_dec N.eq_dec) (yielded (run up gen w)) DONE = 1%nat.
Proof.
  intros H. destruct (chat_streams _ _ _ H) as (msg & model & _ & ->).
  destruct (generate_shape g model msg w) as (content & term & E & Hc & Ht).
  assert (Hn : ~ In DONE (content ++ term)).
  { intros Hin. apply in_app_or in Hin. destruct Hin as [Hin|Hin].
    - rewrite Forall_forall in Hc. exact (content_not_DONE _ (Hc _ Hin) eq_refl).
    - destruct Ht as [->|(c & -> & He)]; [destruct Hin|].
      destruct Hin as [Hin|[]]. exact (error_not_DONE _ He Hin). }
  exists (content ++ term). rewrite E, app_assoc. repeat split; auto.
  rewrite count_occ_app. rewrite (proj1 (count_occ_not_In _ _ _) Hn).
  simpl. destruct (list_eq_dec N.eq_dec DONE DONE); congruence.
Qed.





Lemma run_replay_ending items stop w :
  ends_with (run up (replay items (ending stop)) w) (events_of items) stop.
Proof.
  rewrite run_replay. unfold ends_with.
  pose proof (run_ending up stop
                (logged w (map decode_error_record (errors_of items)))) as H.
  destruct stop as [e|].
  - destruct (is_RequestException e).
    + destruct H as (msg & rs & ->). exists msg. split; reflexivity.
    + rewrite H. cbn. now rewrite app_nil_r.
  - rewrite H. cbn. now rewrite app_nil_r.
Qed.

(** C3, as the code has it.  [generate_stream] yields the event of every
    line that decodes, in line order, whatever the fields of the events:
    it does not stop at a [done] or at an [error] payload.  Blank lines
    and lines rejected with a [JSONDecodeError] are skipped; a line that
    raises anything else ends the sequence with that exception.  The
    event that is always the last one is the error event the decoder
    builds itself when the call, the status check or the reading of the
    body fails with an exception of [requests]. *)
Theorem generate_stream_yields_every_line self model prompt sp w :
  let c := generate_call self (generate_payload model prompt sp) in
  let o := run up (generate_stream dec loads self model prompt sp) w in
  (forall r items,
     up (List.length (calls w)) c = inl r ->
     status_ok (status_code r) ->
     decodes dec loads (lines r) items ->
     ends_with o (events_of items) (lines_end r)) /\
  (forall r good bad rest items e,
     up (List.length (calls w)) c = inl r ->
     status_ok (status_code r) ->
     lines r = good ++ bad :: rest ->
     decodes dec loads good items ->
     bad <> [] ->
     loads_line dec loads bad = inr e -> is_JSONDecodeError e = false ->
     ends_with o (events_of items) (Some e)) /\
  (forall r,
     up (List.length (calls w)) c = inl r ->
     (400 <= status_code r < 600)%Z ->
     exists msg, yielded o = [error_body (VStr msg)] /\ result o = inl tt) /\
  (forall e,
     up (List.length (calls w)) c = inr e ->
     exists msg, yielded o = [error_body (VStr msg)] /\ result o = inl tt).
Proof.
  intros c o. subst o. unfold generate_stream. fold c.
  cbn [request bind try_except run]. split; [|split; [|split]].
  - intros r items Hup Hs Hd. rewrite Hup. cbn [bind].
    rewrite (response_tree dec loads r items Hs Hd).
    apply run_replay_ending.
  - intros r good bad rest items e Hup Hs Hl Hd Hb E J. rewrite Hup. cbn [bind].
    rewrite (response_tree_fatal dec loads r good bad rest items e Hs Hl Hd Hb E J).
    apply run_replay_ending.
  - intros r Hup Hs. rewrite Hup. cbn [bind].
    destruct (status_error_raises (Y:=pyval) r Hs) as [msg ->].
    cbn [bind try_except on_request_failure is_ConnectionError_or_Timeout
         is_RequestException exn_class exn_str logger_error yield run yielded result emit].
    eexists; split; reflexivity.
  - intros e Hup. rewrite Hup. cbn [bind try_except].
    unfold on_request_failure.
    assert (Hr : is_RequestException (exn_of_requests e) = true) by reflexivity.
    rewrite Hr.
    destruct (is_ConnectionError_or_Timeout (exn_of_requests e));
      cbn [logger_error bind yield run yielded result emit];
      eexists; split; reflexivity.
Qed.

(** C9, as amended.  An event that carries a fragment and a true
    [done], and no [error] field, makes [generate] write two chunks, the
    response chunk and then the done chunk with the statistics; so the
    stream of a body made of that one event is these two chunks and the
    sentinel. *)
Theorem response_and_done_give_two_chunks d text flag :
  dict_lookup d (py "error") = None ->
  dict_lookup d (py "response") = Some text ->
  dict_lookup d (py "done") = Some flag ->
  truthy flag = true ->
  let response_chunk := sse (VDict [(py "response", text)]) in
  let done_chunk := sse (VDict [(py "done", VBool true); (py "stats", stats_of d)]) in
  relay_event (VDict d) = Yield response_chunk (Yield done_chunk (Ret Next)) /\
  forall g model user_message w r line,
    (forall c, up (List.length (calls w)) c = inl r) ->
    status_ok (status_code r) ->
    lines r = [line] -> line <> [] ->
    loads_line dec loads line = inl (VDict d) ->
    lines_end r = None ->
    yielded (run up (generate dec loads g model user_message) w)
      = [response_chunk; done_chunk; DONE].
Proof.
  intros He Hr Hd Ht response_chunk done_chunk.
  assert (Hf : frames_of d = [response_chunk; done_chunk]).
  { unfold frames_of. now rewrite Hr, Hd, Ht. }
  split.
  - rewrite (relay_event_frames _ He), Hf. reflexivity.
  - intros g model msg w r line Hup Hs Hl Hne Hload Hend.
    assert (Hdec : decodes dec loads (lines r) [inl (VDict d)]).
    { rewrite Hl. apply decodes_event; [assumption..|constructor]. }
    rewrite (run_generate_error_free dec loads up g model msg w r _ (Hup _) Hs Hdec Hend).
    + simpl. now rewrite Hf.
    + simpl. repeat constructor. now exists d.
Qed.

End Streaming.

(* ===================================================================== *)
(** ** Concrete runs *)
(* ===================================================================== *)

Example hello_two_fragments :
  yielded (run (daemon two_fragments) hello_stream empty_world) =
  [js "data: {'response': 'Hi'}" ++ [10; 10]%N;
   js "data: {'response': ' there'}" ++ [10; 10]%N;
   js "data: {'done': true, 'stats': {'total_duration': 0, 'load_duration': 0, 'prompt_eval_count': 0, 'eval_count': 2}}" ++ [10; 10]%N;
   DONE].
Proof. vm_compute. reflexivity. Qed.

Lemma chat_stream_ends_with_one_DONE_witness :
  @chat Py.bytes_decode Py.json_loads Empty_set module_globals (Parsed hello)
    = Ret (EventStream hello_stream) /\
  exists before,
    yielded (run (daemon two_fragments) hello_stream empty_world) = before ++ [DONE] /\
    ~ In DONE before /\
    count_occ (list_eq_dec N.eq_dec)
      (yielded (run (daemon two_fragments) hello_stream empty_world)) DONE = 1%nat.
Proof.
  split; [reflexivity|].
  apply (chat_stream_ends_with_one_DONE Py.bytes_decode Py.json_loads
           (daemon two_fragments) module_globals hello).
  reflexivity.
Defined.





Example done_then_more_events :
  yielded (hello_events done_then_more) =
  [VDict [(py "done", VBool true)]; VDict [(py "response", VStr (py "late"))]].
Proof. vm_compute. reflexivity. Qed.

(** The counterexample to C3 as stated: the decoder yields the event of
    the line that follows a done event. *)
Lemma done_event_is_not_last :
  ~ terminal_is_last (yielded (hello_events done_then_more)).
Proof.
  rewrite done_then_more_events. intros H.
  specialize (H [] (VDict [(py "done", VBool true)])
                [VDict [(py "response", VStr (py "late"))]] eq_refl).
  discriminate H. left. reflexivity.
Qed.

Example done_then_more_decodes :
  decodes Py.bytes_decode Py.json_loads (lines done_then_more)
    [inl (VDict [(py "done", VBool true)]);
     inl (VDict [(py "response", VStr (py "late"))])].
Proof.
  repeat (apply decodes_event; [discriminate | vm_compute; reflexivity |]).
  constructor.
Qed.

Lemma generate_stream_yields_every_line_witness :
  yielded (hello_events done_then_more) =
    [VDict [(py "done", VBool true)]; VDict [(py "response", VStr (py "late"))]] /\
  result (hello_events done_then_more) = inl tt.
Proof.
  destruct (generate_stream_yields_every_line Py.bytes_decode Py.json_loads
              (daemon done_then_more) (ollama module_globals) (VStr DEFAULT_MODEL)
              (py "hello") (Some system_prompt) empty_world) as [H _].
  apply (H done_then_more _ eq_refl (or_introl eq_refl) done_then_more_decodes).
Defined.

Lemma response_and_done_give_two_chunks_witness :
  relay_event (VDict last_event) =
    Yield (sse (VDict [(py "response", VStr (py "!"))]))
      (Yield (sse (VDict [(py "done", VBool true); (py "stats", stats_of last_event)]))
         (Ret Next)) /\
  yielded (run (daemon one_event) hello_stream empty_world) =
    [sse (VDict [(py "response", VStr (py "!"))]);
     sse (VDict [(py "done", VBool true); (py "stats", stats_of last_event)]);
     DONE].
Proof.
  destruct (response_and_done_give_two_chunks Py.bytes_decode Py.json_loads
              (daemon one_event) last_event (VStr (py "!")) (VBool true)
              eq_refl eq_refl eq_refl eq_refl) as [H1 H2].
  split; [exact H1|].
  apply (H2 module_globals (VStr DEFAULT_MODEL) (py "hello") empty_world one_event
            (js_bytes "{'response': '!', 'done': true, 'eval_count': 7}")).
  - reflexivity.
  - left. reflexivity.
  - reflexivity.
  - discriminate.
  - vm_compute. reflexivity.
  - reflexivity.
Defined.

(** The counterexample to C9 as stated: an event with a fragment, a true
    [done] and an [error] field.  The test on [error] comes first and
    leaves the loop: the event gives one error chunk, and neither the
    response chunk nor the done chunk is written. *)
Lemma error_field_gives_one_chunk :
  dict_lookup failed_event (py "response") = Some (VStr (py "!")) /\
  dict_lookup failed_event (py "done") = Some (VBool true) /\
  loads_line Py.bytes_decode Py.json_loads
    (js_bytes "{'response': '!', 'done': true, 'error': 'out of memory'}")
    = inl (VDict failed_event) /\
  relay_event (VDict failed_event) =
    Yield (sse (error_body (VStr (py "out of memory")))) (Ret Break) /\
  yielded (run (daemon one_failed_event) hello_stream empty_world) =
    [sse (error_body (VStr (py "out of memory"))); DONE] /\
  yielded (run (daemon one_failed_event) hello_stream empty_world) <>
    [sse (VDict [(py "response", VStr (py "!"))]);
     sse (VDict [(py "done", VBool true); (py "stats", stats_of failed_event)]);
     DONE].
Proof.
  assert (E : yielded (run (daemon one_failed_event) hello_stream empty_world) =
              [sse (error_body (VStr (py "out of memory"))); DONE])
    by (vm_compute; reflexivity).
  repeat split; try (vm_compute; reflexivity); try exact E.
  rewrite E. intros H. apply (f_equal (@List.length pystr)) in H. discriminate H.
Qed.

(* ===================================================================== *)
(** ** Validation and the simple endpoint *)
(* ===================================================================== *)

Section Views.

Variable dec : bytes -> pystr + exn.
Variable loads : pystr -> pyval + exn.
Variable up : Upstream.

Lemma falsy_has_no_message data : truthy data = false -> message_of data = None.
Proof. destruct data as [| | | | | |[|kv d]]; simpl; congruence. Qed.

Lemma validation_cases data : validation data.
Proof.
  destruct (truthy data) eqn:T; [|apply validation_rejects; now left].
  destruct data as [| | | | | |d];
    try (apply validation_raises; [assumption | left; discriminate]).
  destruct (dict_lookup d (py "message")) as [m|] eqn:M.
  - destruct m as [| | | |s| |];
      try (apply validation_raises;
           [assumption | right; exists d; eexists; repeat split; eauto; discriminate]).
    destruct (strip s) as [|c t] eqn:S.
    + apply validation_rejects. right. exists d. split; [reflexivity|].
      right. exists s. now split.
    + apply validation_accepts with (user_message := c :: t)
        (model := match dict_lookup d (py "model") with
                  | Some m => m
                  | None => VStr DEFAULT_MODEL
                  end).
      exists d, s. repeat split; auto. discriminate.
  - apply validation_rejects. right. exists d. split; [reflexivity|]. now left.
Qed.

Lemma views_accept {Y} g data user_message model :
  valid_request data user_message model ->
  @chat dec loads Y g (Parsed data) = Ret (EventStream (generate dec loads g model user_message)) /\
  @chat_simple Y g (Parsed data) = simple_request g model user_message.
Proof.
  intros (d & s & -> & M & S & Hne & ->). unfold chat, chat_simple, simple_request. cbn [request_json bind].
  assert (T : truthy (VDict d) = true).
  { destruct d; [discriminate M | reflexivity]. }
  rewrite T. cbn [negb py_get lift bind]. rewrite M. cbn [py_strip lift bind].
  rewrite S. destruct user_message; [congruence|]. cbn [truthy negb].
  split; reflexivity.
Qed.

Lemma views_raise {Y} g data :
  truthy data = true ->
  (forall d, data <> VDict d) \/
  (exists d m, data = VDict d /\ dict_lookup d (py "message") = Some m /\
               forall s, m <> VStr s) ->
  exists e,
    exn_class e = AttributeError /\
    @chat dec loads Y g (Parsed data) = Raise e /\
    @chat_simple Y g (Parsed data) = Raise e.
Proof.
  unfold chat, chat_simple. cbn [request_json bind]. intros T H. rewrite T. cbn [negb].
  destruct H as [H|(d & m & -> & M & H)].
  - destruct data; cbn [py_get lift bind]; try (eexists; repeat split; reflexivity).
    now elim (H d).
  - cbn [py_get lift bind]. rewrite M.
    destruct m; cbn [py_strip lift bind]; try (eexists; repeat split; reflexivity).
    now elim (H s).
Qed.

Lemma dispatch_raise {Y} e :
  is_Exception e = true ->
  http_code e = None ->
  @dispatch Y (Raise e) =
  Log internal_error_record (Ret internal_error_reply).
Proof. intros H C. unfold dispatch. cbn [try_except]. now rewrite C, H. Qed.


(** The run of [chat_simple] on a request that passes validation. *)
Lemma run_simple_request {Y} g model user_message w :
  let c := simple_call g model user_message in
  let o := run up (@simple_request Y g model user_message) w in
  yielded o = [] /\
  calls (world o) = calls w ++ [c] /\
  match up (List.length (calls w)) c with
  | inr e =>
      result o =
      inl (if is_ConnectionError_or_Timeout (exn_of_requests e)
           then Json 503 (error_body
                            (VStr (py "Connection to Ollama failed. Is Ollama running?")))
           else Json 500 (error_body (VStr (rq_str e))))
  | inl r =>
      if ((400 <=? status_code r) && (status_code r <? 600))%Z then
        exists msg,
          @raise_for_status Y r = Raise (mk_exn (Requests HTTPError) msg) /\
          result o = inl (Json 500 (error_body (VStr msg)))
      else
        match json r with
        | inl body => result o = inl (Json 200 body)
        | inr msg => result o = inl (Json 500 (error_body (VStr msg)))
        end
  end.
Proof.
  intros c o. subst o. unfold simple_request. fold c.
  cbn [request bind try_except run].
  destruct (up (List.length (calls w)) c) as [r|e]; cbn [bind try_except].
  - destruct ((400 <=? status_code r)%Z && (status_code r <? 600)%Z) eqn:S.
    + apply andb_true_iff in S. destruct S as [S1%Z.leb_le S2%Z.ltb_lt].
      destruct (status_error_raises (Y:=Y) r (conj S1 S2)) as [msg E].
      rewrite E. cbn. repeat split. exists msg. split; reflexivity.
    + rewrite status_ok_passes.
      * cbn [bind]. unfold response_json.
        destruct (json r) as [body|msg]; cbn; repeat split.
      * apply andb_false_iff in S. unfold status_ok.
        destruct S as [S%Z.leb_gt|S%Z.ltb_ge]; lia.
  - unfold is_ConnectionError_or_Timeout, exn_of_requests.
    destruct e as [[] msg]; cbn; repeat split.
Qed.

(** C7.  On a request that passes validation, [/api/chat/simple] makes
    one call to the daemon and answers 503 with an [error] object when
    the call fails to connect or times out, 500 with the text of the
    failure for every other failure of the request (an HTTP error status
    among them), and 200 with the JSON body of the daemon otherwise. *)
Theorem chat_simple_statuses g data user_message model w :
  valid_request data user_message model ->
  let c := simple_call g model user_message in
  let o := run up (@handle dec loads Empty_set g (ApiChatSimple (Parsed data))) w in
  calls (world o) = calls w ++ [c] /\
  match up (List.length (calls w)) c with
  | inr e =>
      result o =
      inl (if is_ConnectionError_or_Timeout (exn_of_requests e)
           then Json 503 (error_body
                            (VStr (py "Connection to Ollama failed. Is Ollama running?")))
           else Json 500 (error_body (VStr (rq_str e))))
  | inl r =>
      if ((400 <=? status_code r) && (status_code r <? 600))%Z then
        exists msg,
          @raise_for_status Empty_set r = Raise (mk_exn (Requests HTTPError) msg) /\
          result o = inl (Json 500 (error_body (VStr msg)))
      else
        match json r with
        | inl body => result o = inl (Json 200 body)
        | inr msg => result o = inl (Json 500 (error_body (VStr msg)))
        end
  end.
Proof.
  intros H c o. subst o c. cbn [handle].
  destruct (views_accept (Y:=Empty_set) g data user_message model H) as [_ ->].
  destruct (run_simple_request (Y:=Empty_set) g model user_message w) as (_ & Hc & Hr).
  cbn zeta in Hc, Hr. unfold dispatch. rewrite run_try_except.
  destruct (up (List.length (calls w)) (simple_call g model user_message)) as [r|e].
  - destruct ((400 <=? status_code r)%Z && (status_code r <? 600)%Z).
    + destruct Hr as (msg & E & Hr). rewrite Hr. split; [assumption|].
      exists msg. now split.
    + destruct (json r); rewrite Hr; now split.
  - rewrite Hr. now split.
Qed.

Lemma rejected_has_no_message data :
  rejected_body data -> message_missing_or_blank data.
Proof.
  intros [T|(d & _ & H)]; [left; now apply falsy_has_no_message | exact H].
Qed.

(** [chat_simple] never answers 400 once validation has passed. *)
Lemma simple_request_not_400 {Y} g model user_message w body :
  result (run up (@simple_request Y g model user_message) w) <> inl (Json 400 body).
Proof.
  destruct (run_simple_request (Y:=Y) g model user_message w) as (_ & _ & Hr).
  cbn zeta in Hr.
  destruct (up (List.length (calls w)) (simple_call g model user_message)) as [r|e].
  - destruct ((400 <=? status_code r)%Z && (status_code r <? 600)%Z).
    + destruct Hr as (msg & _ & ->). discriminate.
    + destruct (json r); rewrite Hr; discriminate.
  - rewrite Hr. destruct (is_ConnectionError_or_Timeout (exn_of_requests e)); discriminate.
Qed.

(** C10.  The views answer 400 only when the message is absent or is a
    string that trims to the empty string; and the validation is not
    total: on a body whose message is a number, [.strip()] raises, no
    call is made, and Flask answers with the handler of 500. *)
Theorem validation_is_partial g w :
  (forall data route body,
     route = ApiChat (Parsed data) \/ route = ApiChatSimple (Parsed data) ->
     result (run up (@handle dec loads Empty_set g route) w) = inl (Json 400 body) ->
     message_missing_or_blank data) /\
  (forall route,
     route = ApiChat (Parsed number_message) \/ route = ApiChatSimple (Parsed number_message) ->
     run up (@handle dec loads Empty_set g route) w =
       mk_outcome [] (inl internal_error_reply) (logged w [internal_error_record])).
Proof.
  split.
  - intros data route body Hr H.
    destruct (validation_cases data) as [Hrej|msg model Hv|T Hbad].
    + now apply rejected_has_no_message.
    + exfalso. destruct (views_accept (Y:=Empty_set) g data msg model Hv) as [E1 E2].
      destruct Hr as [-> | ->]; cbn [handle] in H; rewrite ?E1, ?E2 in H.
      * discriminate H.
      * unfold dispatch in H. rewrite run_try_except in H.
        destruct (result (run up (@simple_request Empty_set g model msg) w))
          as [v|e] eqn:R.
        -- exact (simple_request_not_400 (Y:=Empty_set) g model msg w body H).
        -- destruct (http_code e) as [code|].
           ++ destruct (code =? 404)%Z; [discriminate H|].
              destruct (code =? 500)%Z; discriminate H.
           ++ destruct (is_Exception e); [|rewrite R in H; discriminate H].
              discriminate H.
    + exfalso. destruct (views_raise (Y:=Empty_set) g data T Hbad) as (e & C & E1 & E2).
      assert (Hex : is_Exception e = true) by (unfold is_Exception; now rewrite C).
      assert (Hc : http_code e = None) by (unfold http_code; now rewrite C).
      destruct Hr as [-> | ->]; cbn [handle] in H; rewrite ?E1, ?E2 in H;
        rewrite (dispatch_raise e Hex Hc) in H; discriminate H.
  - intros route [-> | ->]; reflexivity.
Qed.

End Views.

(* ===================================================================== *)
(** ** The health endpoint *)
(* ===================================================================== *)

Section Health.

Variable dec : bytes -> pystr + exn.
Variable loads : pystr -> pyval + exn.
Variable up : Upstream.

(** [check_health] makes one call, never raises, and returns [True]
    exactly when the call returns a response with status 200. *)
Lemma check_health_total {Y} self w :
  let o := run up (@check_health Y self) w in
  yielded o = [] /\
  world o = called w (tags_call self) /\
  result o = inl (match up (List.length (calls w)) (tags_call self) with
                  | inl r => (status_code r =? 200)%Z
                  | inr _ => false
                  end).
Proof.
  unfold check_health. fold (tags_call self). cbn [request bind try_except run].
  destruct (up (List.length (calls w)) (tags_call self)) as [r|[k msg]]; cbn;
    [|rewrite orb_true_r]; repeat split.
Qed.

(** When the probe fails, [/api/health] answers 200 with the degraded
    body, after the one call of the probe. *)
Lemma health_degraded g w :
  match up (List.length (calls w)) (tags_call (ollama g)) with
  | inl r => status_code r <> 200%Z
  | inr _ => True
  end ->
  run up (@handle dec loads Empty_set g ApiHealth) w =
  mk_outcome [] (inl (Json 200 degraded_body)) (called w (tags_call (ollama g))).
Proof.
  intros H. cbn [handle]. unfold dispatch, health_check.
  destruct (check_health_total (Y:=Empty_set) (ollama g) w) as (Hy & Hw & Hr).
  cbn zeta in Hy, Hw, Hr.
  assert (Ho : run up (@check_health Empty_set (ollama g)) w =
               mk_outcome [] (inl false) (called w (tags_call (ollama g)))).
  { destruct (run up (@check_health Empty_set (ollama g)) w) as [ys res w'].
    cbn [yielded world result] in Hy, Hw, Hr. subst ys w'. f_equal.
    rewrite Hr. destruct (up _ _) as [r|e]; [|reflexivity].
    f_equal. now apply Z.eqb_neq. }
  rewrite run_try_except, run_bind, Ho. reflexivity.
Qed.

(** [list_models] on a listing with status 200 whose body is an object. *)
Lemma run_list_models {Y} self w r d :
  up (List.length (calls w)) (tags_call self) = inl r ->
  status_code r = 200%Z ->
  json r = inl (VDict d) ->
  run up (@list_models Y self) w =
  mk_outcome [] (inl (match dict_lookup d (py "models") with
                      | Some v => v
                      | None => VList []
                      end))
             (called w (tags_call self)).
Proof.
  intros Hup Hs Hj. unfold list_models. fold (tags_call self).
  cbn [request bind try_except run]. rewrite Hup. cbn [bind].
  rewrite Hs. cbn [Z.eqb Pos.eqb]. unfold response_json. rewrite Hj.
  reflexivity.
Qed.

(** The names of a list of models that are objects. *)
Lemma names_of_models {Y} ms w :
  Forall (fun m => exists d, m = VDict d) ms ->
  exists names,
    run up (@comprehension Y
              (fun m => lift (py_get m (py "name") (VStr (py "unknown")))) ms) w
    = mk_outcome [] (inl names) w /\
    List.length names = List.length ms.
Proof.
  induction 1 as [|m ms (d & ->) _ (names & IH & Hl)]; cbn [comprehension].
  - exists []. split; reflexivity.
  - cbn [py_get lift bind]. rewrite run_bind, IH. cbn.
    eexists (_ :: names). split; [reflexivity|]. cbn. now rewrite Hl.
Qed.

(** When the daemon answers the probe and then lists models that are
    objects, [/api/health] answers 200 and counts them. *)
Lemma health_healthy g w r1 r2 d ms :
  up (List.length (calls w)) (tags_call (ollama g)) = inl r1 ->
  status_code r1 = 200%Z ->
  up (S (List.length (calls w))) (tags_call (ollama g)) = inl r2 ->
  status_code r2 = 200%Z ->
  json r2 = inl (VDict d) ->
  dict_lookup d (py "models") = Some (VList ms) ->
  Forall (fun m => exists dm, m = VDict dm) ms ->
  exists names,
    result (run up (@handle dec loads Empty_set g ApiHealth) w) =
    inl (Json 200 (VDict [(py "status", VStr (py "healthy"));
                          (py "ollama_connected", VBool true);
                          (py "models_available", VInt (Z.of_nat (List.length ms)));
                          (py "models", VList names)])).
Proof.
  intros H1 S1 H2 S2 Hj Hm Hd. cbn [handle]. unfold dispatch, health_check.
  destruct (check_health_total (Y:=Empty_set) (ollama g) w) as (Hy & Hw & Hr).
  cbn zeta in Hy, Hw, Hr. rewrite H1, S1 in Hr. cbn [Z.eqb Pos.eqb] in Hr.
  assert (Ho : run up (@check_health Empty_set (ollama g)) w =
               mk_outcome [] (inl true) (called w (tags_call (ollama g)))).
  { destruct (run up (@check_health Empty_set (ollama g)) w) as [ys res w'].
    cbn [yielded world result] in Hy, Hw, Hr. now subst. }
  destruct (names_of_models (Y:=Empty_set) ms
              (called (called w (tags_call (ollama g))) (tags_call (ollama g))) Hd)
    as (names & Hn & _).
  exists names.
  rewrite run_try_except, run_bind, Ho. cbn [result world then_outcome yielded].
  rewrite run_bind.
  rewrite (run_list_models (Y:=Empty_set) (ollama g) _ r2 d); cycle 1.
  - cbn [called calls]. rewrite length_app. cbn [List.length].
    now rewrite Nat.add_1_r.
  - assumption.
  - assumption.
  - rewrite Hm. cbn [result world then_outcome yielded py_len py_iter lift bind].
    rewrite run_bind, Hn. reflexivity.
Qed.

End Health.

(* ===================================================================== *)
(** ** Concrete runs of the views *)
(* ===================================================================== *)



Lemma hello_is_valid : valid_request hello (py "hello") (VStr DEFAULT_MODEL).
Proof.
  exists [(py "message", VStr (py " hello "))], (py " hello ").
  repeat split. discriminate.
Defined.

Lemma chat_simple_statuses_witness :
  valid_request hello (py "hello") (VStr DEFAULT_MODEL) /\
  result (run unreachable
            (@handle Py.bytes_decode Py.json_loads Empty_set module_globals
               (ApiChatSimple (Parsed hello)))
            empty_world)
  = inl (Json 503 (error_body
                     (VStr (py "Connection to Ollama failed. Is Ollama running?")))).
Proof.
  split; [exact hello_is_valid|].
  exact (proj2 (chat_simple_statuses Py.bytes_decode Py.json_loads unreachable
                  module_globals hello (py "hello") (VStr DEFAULT_MODEL) empty_world
                  hello_is_valid)).
Defined.

Lemma validation_is_partial_witness :
  message_missing_or_blank blank /\
  run unreachable
      (@handle Py.bytes_decode Py.json_loads Empty_set module_globals
         (ApiChat (Parsed number_message)))
      empty_world
  = mk_outcome [] (inl internal_error_reply) (logged empty_world [internal_error_record]).
Proof.
  destruct (validation_is_partial Py.bytes_decode Py.json_loads unreachable
              module_globals empty_world) as [H1 H2].
  split.
  - apply (H1 blank (ApiChat (Parsed blank)) (error_body (VStr (py "Message is required")))).
    + now left.
    + reflexivity.
  - apply H2. now left.
Defined.

(** C8, where the code departs from it: the daemon is reachable and
    answers the listing with status 200 and a [models] field that is
    [null]; [len(models)] raises in [health_check] and [/api/health]
    answers 500. *)
Theorem health_check_500_on_null_models :
  run (daemon null_listing)
      (@handle Py.bytes_decode Py.json_loads Empty_set module_globals ApiHealth)
      empty_world
  = mk_outcome [] (inl (Json 500 (error_body (VStr (py "Internal server error")))))
      (mk_world [tags_call (ollama module_globals); tags_call (ollama module_globals)]
                [internal_error_record]).
Proof. reflexivity. Qed.

(** C6, where the code departs from it: a line that is not valid UTF-8
    is not valid JSON, yet it is not skipped: [line.decode] raises
    [UnicodeDecodeError], which is not a [JSONDecodeError]; the decoder
    stops after the first fragment and raises, and [/api/chat] relays an
    error chunk instead of the second fragment. *)
Theorem undecodable_bytes_end_the_stream :
  yielded (hello_events noisy_bytes) = [VDict [(py "response", VStr (py "a"))]] /\
  result (hello_events noisy_bytes) = inr codec_error /\
  yielded (run (daemon noisy_bytes) hello_stream empty_world) =
    [sse (VDict [(py "response", VStr (py "a"))]);
     sse (error_body (VStr (exn_str codec_error)));
     DONE].
Proof. repeat split; vm_compute; reflexivity. Qed.

(** The tolerance the decoder does have: the malformed line and the
    blank line are skipped, two events are yielded and one record is
    logged. *)
Example malformed_json_is_skipped :
  yielded (hello_events noisy_json) =
    [VDict [(py "response", VStr (py "a"))]; VDict [(py "response", VStr (py "b"))]] /\
  result (hello_events noisy_json) = inl tt /\
  records (world (hello_events noisy_json)) =
    [mk_log ERROR (py "JSON decode error: Expecting value: line 1 column 14 (char 13)")].
Proof. repeat split; vm_compute; reflexivity. Qed.

(* ===================================================================== *)
(** ** Start-up and the upstream URL *)
(* ===================================================================== *)

Section Startup.

Variable str_of : pyval -> pystr.
Variable up : Upstream.

(** [main] rebinds [OLLAMA_API_URL] and leaves the client [ollama], built
    at import with the default URL, as it is. *)
Lemma main_keeps_client {Y} g argv w g' args :
  result (run up (@main str_of Y g argv) w) = inl (g', args) ->
  OLLAMA_API_URL g' = or_default (opt_ollama_url argv) (OLLAMA_API_URL g) /\
  ollama g' = ollama g.
Proof.
  unfold main. cbn [check_dependencies logger_info bind negb run].
  rewrite run_bind.
  destruct (result (run up (check_ollama_connection str_of _) _)) as [b|e];
    [|discriminate].
  cbn [then_outcome result].
  destruct b; cbn; intros [= <- <-]; split; reflexivity.
Qed.

End Startup.

(** C4, where the code departs from it: the server is started with
    [--ollama-url http://10.0.0.5:11434], where the daemon listens.
    [main] rebinds the global [OLLAMA_API_URL], but the client [ollama]
    was built at import with the default URL: the stream of [/api/chat]
    calls [http://localhost:11434/api/generate] and relays a connection
    error, while [/api/chat/simple], which reads the global, calls the
    URL of the command line and answers 200. *)
Theorem chat_ignores_ollama_url_override :
  result (run remote_daemon (@main Py.str_of Empty_set module_globals override) empty_world)
    = inl (started, mk_args DEFAULT_PORT DEFAULT_HOST false remote_url) /\
  OLLAMA_API_URL started = remote_url /\
  base_url (ollama started) = py "http://localhost:11434" /\
  (let o := run remote_daemon
              (generate Py.bytes_decode Py.json_loads started (VStr DEFAULT_MODEL)
                 (py "hello"))
              empty_world in
   map call_url (calls (world o)) = [py "http://localhost:11434/api/generate"] /\
   yielded o =
     [sse (error_body (VStr (py "Connection to Ollama failed. Is Ollama running?")));
      DONE]) /\
  (let o := run remote_daemon
              (@handle Py.bytes_decode Py.json_loads Empty_set started
                 (ApiChatSimple (Parsed hello)))
              empty_world in
   map call_url (calls (world o)) = [py "http://10.0.0.5:11434/api/generate"] /\
   result o = inl (Json 200 (VDict [(py "response", VStr (py "Hi"));
                                    (py "done", VBool true)]))).
Proof. repeat split; vm_compute; reflexivity. Qed.

(* ===================================================================== *)
(** ** Upstream calls of a stream *)
(* ===================================================================== *)

Lemma run_no_call {Y A} up (p : Prog Y A) :
  no_call p -> forall w, calls (world (run up p w)) = calls w.
Proof. induction 1; intros w; simpl; auto. now rewrite IHno_call. Qed.

Lemma no_call_bind {Y A B} (p : Prog Y A) (f : A -> Prog Y B) :
  no_call p -> (forall a, no_call (f a)) -> no_call (bind p f).
Proof. induction 1; intros Hf; simpl; try constructor; auto. Qed.

Lemma no_call_try_except {Y A} (p : Prog Y A) h :
  no_call p -> (forall e q, h e = Some q -> no_call q) -> no_call (try_except p h).
Proof.
  induction 1; intros Hh; simpl; try (constructor; auto; fail).
  destruct (h e) eqn:E; [eauto | constructor].
Qed.

Lemma no_call_try_finally {Y A} (p : Prog Y A) fin :
  no_call p -> no_call fin -> no_call (try_finally p fin).
Proof.
  induction 1; intros Hf; simpl; try (constructor; auto; fail);
    apply no_call_bind; auto; intros; constructor.
Qed.

Lemma no_call_for_each {X Y} (g : Prog X unit) (body : X -> Prog Y ctl) :
  no_call g -> (forall x, no_call (body x)) -> no_call (for_each g body).
Proof.
  induction 1; intros Hb; simpl; try (constructor; auto; fail).
  apply no_call_bind; [apply Hb|]. intros [|]; [auto | constructor].
Qed.

Lemma no_call_lift {Y A} (r : A + exn) : no_call (@lift Y A r).
Proof. destruct r; constructor. Qed.

(** Programs built from library calls, tests, yields and log records. *)
Ltac no_call_step :=
  lazymatch goal with
  | |- no_call (bind _ _) => apply no_call_bind; [|intros]
  | |- no_call (lift _) => apply no_call_lift
  | |- no_call (if ?b then _ else _) => destruct b
  | |- no_call (yield _) => unfold yield
  | |- no_call (logger_error _) => unfold logger_error
  | |- no_call _ => constructor
  end.

Lemma relay_event_no_call chunk : no_call (relay_event chunk).
Proof. unfold relay_event. repeat no_call_step. Qed.

Lemma iter_lines_no_call r : no_call (iter_lines r).
Proof.
  unfold iter_lines. induction (lines r); simpl.
  - destruct (lines_end r); constructor.
  - now constructor.
Qed.

Lemma raise_for_status_no_call {Y} r : no_call (@raise_for_status Y r).
Proof. unfold raise_for_status. repeat no_call_step. Qed.

Section CallsOnce.

Variable dec : bytes -> pystr + exn.
Variable loads : pystr -> pyval + exn.
Variable up : Upstream.

Lemma decode_line_no_call line : no_call (decode_line dec loads line).
Proof.
  unfold decode_line. destruct (bytes_truthy line); [|constructor].
  apply no_call_try_except.
  - repeat no_call_step.
  - intros e q. destruct (is_JSONDecodeError e); [|discriminate].
    intros [= <-]. repeat no_call_step.
Qed.

Lemma on_request_failure_no_call e q :
  on_request_failure e = Some q -> no_call q.
Proof.
  unfold on_request_failure.
  destruct (is_ConnectionError_or_Timeout e);
    [|destruct (is_RequestException e); [|discriminate]];
    intros [= <-]; repeat no_call_step.
Qed.

Lemma on_streaming_error_no_call e q :
  on_streaming_error e = Some q -> no_call q.
Proof.
  unfold on_streaming_error. destruct (is_Exception e); [|discriminate].
  intros [= <-]. repeat no_call_step.
Qed.

(** [generate] is one call followed by a program without calls. *)
Lemma generate_after_call g model user_message :
  exists rest,
    generate dec loads g model user_message =
    Http (generate_call (ollama g)
            (generate_payload model user_message (Some system_prompt))) rest /\
    forall o, no_call (rest o).
Proof.
  unfold generate, generate_stream, request.
  cbn [bind try_except for_each try_finally].
  eexists. split; [reflexivity|]. intros o. cbv beta.
  apply no_call_try_finally; [|repeat no_call_step].
  apply no_call_try_except; [|apply on_streaming_error_no_call].
  apply no_call_for_each; [|apply relay_event_no_call].
  apply no_call_try_except; [|apply on_request_failure_no_call].
  apply no_call_bind; [destruct o; constructor|]. intros r.
  apply no_call_bind; [apply raise_for_status_no_call|]. intros _.
  apply no_call_for_each; [apply iter_lines_no_call | apply decode_line_no_call].
Qed.

(** X1.  A stream of [/api/chat] costs exactly one upstream call, the
    [POST] of [generate_stream], whatever the daemon answers, whatever
    the lines decode to and however the stream ends: nothing is retried
    and no second request is made. *)
Theorem generate_calls_upstream_once g model user_message w :
  calls (world (run up (generate dec loads g model user_message) w)) =
  calls w ++ [generate_call (ollama g)
                (generate_payload model user_message (Some system_prompt))].
Proof.
  destruct (generate_after_call g model user_message) as (rest & -> & H).
  cbn [run]. now rewrite (run_no_call up _ (H _)).
Qed.

End CallsOnce.

(* ===================================================================== *)
(** ** Every request is answered *)
(* ===================================================================== *)

Lemma run_ends {Y A} up (P : A -> Prop) (Q : exn -> Prop) (p : Prog Y A) :
  ends P Q p ->
  forall w, match result (run up p w) with
            | inl a => P a
            | inr e => Q e
            end.
Proof.
  induction 1 as [a Ha|e He|y k _ IH|r k _ IH|c k _ IH]; intros w; simpl.
  - exact Ha.
  - exact He.
  - unfold emit. simpl. apply IH.
  - apply IH.
  - apply IH.
Qed.

Lemma ends_bind {Y A B} (P : A -> Prop) (P' : B -> Prop) Q
    (p : Prog Y A) (f : A -> Prog Y B) :
  ends P Q p -> (forall a, P a -> ends P' Q (f a)) -> ends P' Q (bind p f).
Proof. induction 1; intros Hf; simpl; try (constructor; auto; fail). auto. Qed.

Lemma ends_try_except {Y A} (P : A -> Prop) Q Q' (p : Prog Y A) h :
  ends P Q p ->
  (forall e, Q e -> match h e with
                    | Some q => ends P Q' q
                    | None => Q' e
                    end) ->
  ends P Q' (try_except p h).
Proof.
  induction 1 as [a Ha|e He|y k _ IH|r k _ IH|c k _ IH]; intros Hh; simpl;
    try (constructor; auto; fail).
  specialize (Hh e He). destruct (h e); [assumption | now constructor].
Qed.

Lemma ends_weaken {Y A} (P P' : A -> Prop) (Q Q' : exn -> Prop) (p : Prog Y A) :
  ends P Q p -> (forall a, P a -> P' a) -> (forall e, Q e -> Q' e) -> ends P' Q' p.
Proof. induction 1; intros HP HQ; constructor; auto. Qed.

(** What the operations on values raise derives from [Exception]. *)
Lemma ends_py_get {Y} v k d : ends (fun _ => True) ordinary (@lift Y _ (py_get v k d)).
Proof. destruct v; simpl; constructor; auto; reflexivity. Qed.

Lemma ends_py_strip {Y} v : ends (fun _ => True) ordinary (@lift Y _ (py_strip v)).
Proof. destruct v; simpl; constructor; auto; reflexivity. Qed.

Lemma ends_py_len {Y} v : ends (fun _ => True) ordinary (@lift Y _ (py_len v)).
Proof. destruct v; simpl; constructor; auto; reflexivity. Qed.

Lemma ends_py_iter {Y} v : ends (fun _ => True) ordinary (@lift Y _ (py_iter v)).
Proof. destruct v; simpl; constructor; auto; reflexivity. Qed.

Lemma ends_request {Y} c :
  ends (fun _ => True) (fun e => is_RequestException e = true) (@request Y c).
Proof. unfold request. constructor. intros [r|e]; constructor; auto. Qed.

Lemma ends_raise_for_status {Y} r :
  ends (fun _ => True) (fun e => is_RequestException e = true) (@raise_for_status Y r).
Proof.
  unfold raise_for_status.
  destruct (_ && _); [|destruct (_ && _)]; constructor; auto.
Qed.

Lemma ends_response_json {Y} r :
  ends (fun _ => True) (fun e => is_RequestException e = true) (@response_json Y r).
Proof. unfold response_json. destruct (json r); constructor; auto. Qed.

Lemma requests_are_ordinary e : is_RequestException e = true -> ordinary e.
Proof.
  unfold is_RequestException, ordinary, is_Exception, http_code.
  destruct (exn_class e); simpl; congruence.
Qed.

Lemma ends_comprehension {Y} (f : pyval -> Prog Y pyval) items :
  (forall m, ends (fun _ => True) ordinary (f m)) ->
  ends (fun _ => True) ordinary (comprehension f items).
Proof.
  intros Hf. induction items as [|m items IH]; simpl; [now constructor|].
  eapply ends_bind; [apply Hf|]. intros x _.
  eapply ends_bind; [apply IH|]. intros xs _. now constructor.
Qed.

(** [check_health] and [list_models] never raise. *)
Lemma ends_check_health {Y} self : ends (fun _ => True) never (@check_health Y self).
Proof.
  unfold check_health. eapply ends_try_except.
  - eapply ends_bind; [apply ends_request|]. intros r _. now constructor.
  - intros e He. cbv beta. rewrite He, orb_true_r. now constructor.
Qed.

Lemma ends_list_models {Y} self : ends (fun _ => True) ordinary (@list_models Y self).
Proof.
  unfold list_models. eapply ends_try_except with (Q := ordinary).
  - eapply ends_bind with (P := fun _ => True).
    + eapply ends_weaken; [apply ends_request | auto | apply requests_are_ordinary].
    + intros r _. destruct (_ =? _)%Z; [|now constructor].
      eapply ends_bind with (P := fun _ => True).
      * eapply ends_weaken; [apply ends_response_json | auto | apply requests_are_ordinary].
      * intros body _. apply ends_py_get.
  - intros e He. cbv beta.
    destruct (is_ConnectionError_or_Timeout e || is_RequestException e);
      [|assumption].
    unfold logger_error. cbn [bind]. repeat constructor.
Qed.

Section Replies.

Variable dec : bytes -> pystr + exn.
Variable loads : pystr -> pyval + exn.
Variable up : Upstream.

(** Flask turns every ordinary exception of a view into the reply of the
    handler of 500. *)
Lemma ends_dispatch {Y} (view : Prog Y ViewResult) P :
  ends P ordinary view ->
  P (Json 500 (error_body (VStr (py "Internal server error")))) ->
  ends P never (dispatch view).
Proof.
  intros Hv HP. unfold dispatch. eapply ends_try_except.
  - exact Hv.
  - intros e He. cbv beta. unfold ordinary in He.
    apply andb_true_iff in He. destruct He as [He Hc].
    destruct (http_code e); [discriminate Hc|]. rewrite He.
    unfold internal_error, logger_error. cbn [bind].
    constructor. constructor. exact HP.
Qed.

Lemma ends_validation {Y} data (accepted : pyval -> pystr -> Prog Y ViewResult) P :
  P (Json 400 (error_body (VStr (py "No data provided")))) ->
  P (Json 400 (error_body (VStr (py "Message is required")))) ->
  (forall model user_message, ends P ordinary (accepted model user_message)) ->
  ends P ordinary
    (if negb (truthy data) then
       Ret (jsonify_status (error_body (VStr (py "No data provided"))) 400)
     else
       message <- lift (py_get data (py "message") (VStr [])) ;;
       user_message <- lift (py_strip message) ;;
       model <- lift (py_get data (py "model") (VStr DEFAULT_MODEL)) ;;
       if negb (truthy (VStr user_message)) then
         Ret (jsonify_status (error_body (VStr (py "Message is required"))) 400)
       else accepted model user_message)%prog.
Proof.
  intros H1 H2 Ha. destruct (negb (truthy data)); [now constructor|].
  eapply ends_bind; [apply ends_py_get|]. intros message _.
  eapply ends_bind; [apply ends_py_strip|]. intros user_message _.
  eapply ends_bind; [apply ends_py_get|]. intros model _.
  destruct (negb _); [now constructor | apply Ha].
Qed.

Lemma ends_simple_request {Y} g model user_message :
  ends (json_reply [200; 500; 503]%Z) ordinary
       (@simple_request Y g model user_message).
Proof.
  unfold simple_request.
  eapply ends_try_except with (Q := fun e => is_RequestException e = true).
  - eapply ends_bind; [apply ends_request|]. intros r _.
    eapply ends_bind; [apply ends_raise_for_status|]. intros _ _.
    eapply ends_bind; [apply ends_response_json|]. intros body _.
    constructor. simpl. auto.
  - intros e He. cbv beta. rewrite He.
    destruct (is_ConnectionError_or_Timeout e);
      unfold logger_error; cbn [bind]; do 2 constructor; simpl; auto.
Qed.

Lemma ends_health_check {Y} g :
  ends (json_reply [200]%Z) ordinary (@health_check Y g).
Proof.
  unfold health_check.
  eapply ends_bind with (P := fun _ => True).
  { eapply ends_weaken; [apply ends_check_health | auto | intros e []]. }
  intros status _. eapply ends_bind with (P := fun _ => True).
  { destruct status; [apply ends_list_models | now constructor]. }
  intros models _.
  eapply ends_bind; [apply ends_py_len|]. intros n _.
  eapply ends_bind; [apply ends_py_iter|]. intros items _.
  eapply ends_bind; [apply ends_comprehension; intros; apply ends_py_get|].
  intros names _. constructor. simpl. auto.
Qed.

Lemma ends_model_info {Y} m : ends (fun _ => True) ordinary (@model_info Y m).
Proof.
  unfold model_info.
  eapply ends_bind; [apply ends_py_get|]. intros name _.
  eapply ends_bind; [apply ends_py_get|]. intros size _.
  eapply ends_bind; [apply ends_py_get|]. intros modified _.
  now constructor.
Qed.

Lemma ends_get_models {Y} g :
  ends (json_reply [200]%Z) ordinary (@get_models Y g).
Proof.
  unfold get_models.
  eapply ends_bind; [apply ends_list_models|]. intros models _.
  eapply ends_bind; [apply ends_py_iter|]. intros items _.
  eapply ends_bind; [apply ends_comprehension; intros; apply ends_model_info|].
  intros infos _. constructor. simpl. auto.
Qed.

(** X2.  Every request that Flask resolves to one of the views
    [health_check], [get_models], [chat] and [chat_simple], to no rule
    or to a rule with another method is answered: for every outcome of
    [request.json] (a parsed value of any type, a content type that is
    not JSON, a body that does not parse) and every behaviour of the
    daemon, [handle] returns a reply and lets no exception through.  The
    reply is a JSON body whose status is one the route can give (200 or
    500 for [/api/health] and [/api/models]; 400 or 500 for
    [/api/chat]; 200, 400, 500 or 503 for [/api/chat/simple]; 404 for a
    path without a rule), or the stream of [/api/chat] for a parsed
    body, or an error page: 415 or 400 when [request.json] raises in
    [chat] or [chat_simple], 405 for a method the rule does not list. *)
Theorem every_request_is_answered g route w :
  exists v,
    result (run up (@handle dec loads Empty_set g route) w) = inl v /\
    reply_of route v.
Proof.
  assert (H : ends (reply_of route) never (@handle dec loads Empty_set g route)).
  { destruct route as [| |[data| |]|[data| |]| |]; cbn [handle];
      try (constructor; simpl; auto; fail).
    - apply ends_dispatch; [|simpl; auto].
      eapply ends_weaken; [apply ends_health_check | | auto].
      intros [status body|gen|status]; simpl; tauto.
    - apply ends_dispatch; [|simpl; auto].
      eapply ends_weaken; [apply ends_get_models | | auto].
      intros [status body|gen|status]; simpl; tauto.
    - apply ends_dispatch; [|simpl; auto].
      unfold chat. cbn [request_json bind].
      apply ends_validation; [simpl; auto | simpl; auto |].
      intros model msg. constructor. now exists data.
    - apply ends_dispatch; [|simpl; auto].
      unfold chat_simple. cbn [request_json bind].
      apply ends_validation; [simpl; auto | simpl; auto |].
      intros model msg.
      eapply ends_weaken; [apply ends_simple_request | | auto].
      intros [status body|gen|status]; simpl; tauto. }
  pose proof (run_ends up _ _ _ H w) as R.
  destruct (result (run up (@handle dec loads Empty_set g route) w)) as [v|e];
    [now exists v | destruct R].
Qed.

(** X3.  [/api/models] behind Flask is always answered too, with status
    200 or 500, for every behaviour of the daemon. *)
Theorem models_request_is_answered g w :
  exists status body,
    result (run up (dispatch (@get_models Empty_set g)) w) = inl (Json status body) /\
    (status = 200 \/ status = 500)%Z.
Proof.
  assert (H : ends (json_reply [500; 200]%Z) never (dispatch (@get_models Empty_set g))).
  { apply ends_dispatch; [|simpl; auto].
    eapply ends_weaken; [apply ends_get_models | | auto].
    intros [status body|gen|status]; simpl; tauto. }
  pose proof (run_ends up _ _ _ H w) as R.
  destruct (result (run up (dispatch (@get_models Empty_set g)) w))
    as [[status body|gen|status]|e];
    simpl in R; try contradiction.
  exists status, body. split; [reflexivity|]. intuition.
Qed.

End Replies.

(* ===================================================================== *)
(** ** The client: probe and listing *)
(* ===================================================================== *)

Lemma run_bind_no_call {Y A B} up (p : Prog Y A) (f : A -> Prog Y B) w :
  (forall a, no_call (f a)) ->
  calls (world (run up (bind p f) w)) = calls (world (run up p w)).
Proof.
  intros Hf. rewrite run_bind.
  destruct (result (run up p w)) as [a|e]; [|reflexivity].
  cbn [then_outcome world]. apply run_no_call, Hf.
Qed.

Lemma run_try_except_no_call {Y A} up (p : Prog Y A) h w :
  (forall e q, h e = Some q -> no_call q) ->
  calls (world (run up (try_except p h) w)) = calls (world (run up p w)).
Proof.
  intros Hh. rewrite run_try_except.
  destruct (result (run up p w)) as [a|e]; [reflexivity|].
  destruct (h e) as [q|] eqn:E; [|reflexivity].
  cbn [then_outcome world]. apply run_no_call. eauto.
Qed.

Lemma no_call_comprehension {Y} (f : pyval -> Prog Y pyval) items :
  (forall m, no_call (f m)) -> no_call (comprehension f items).
Proof.
  intros Hf. induction items as [|m items IH]; simpl; [constructor|].
  apply no_call_bind; [apply Hf|]. intros x.
  apply no_call_bind; [apply IH|]. intros xs. constructor.
Qed.

Section Client.

Variable up : Upstream.

(** The run of [check_health], in one equation. *)
Lemma run_check_health {Y} self w :
  run up (@check_health Y self) w =
  mk_outcome []
    (inl (match up (List.length (calls w))
                   (mk_call GET (base_url self ++ py "/api/tags") None false 5) with
          | inl r => (status_code r =? 200)%Z
          | inr _ => false
          end))
    (mk_world (calls w ++ [mk_call GET (base_url self ++ py "/api/tags") None false 5])
              (records w)).
Proof.
  destruct (check_health_total up (Y:=Y) self w) as (Hy & Hw & Hr).
  cbn zeta in Hy, Hw, Hr.
  destruct (run up (@check_health Y self) w) as [ys res w'].
  cbn [yielded world result] in Hy, Hw, Hr. now subst.
Qed.

(** X4.  [check_health] is total: it makes one [GET] of
    [{base_url}/api/tags] with a timeout of 5 seconds, logs nothing,
    never raises, and returns [True] exactly when that call returns a
    response with status 200; a failure of the call gives [False]. *)
Theorem check_health_never_raises self w :
  let o := run up (@check_health Empty_set self) w in
  let call := mk_call GET (base_url self ++ py "/api/tags") None false 5 in
  calls (world o) = calls w ++ [call] /\
  records (world o) = records w /\
  yielded o = [] /\
  result o = inl (match up (List.length (calls w)) call with
                  | inl r => (status_code r =? 200)%Z
                  | inr _ => false
                  end).
Proof.
  cbn zeta. rewrite run_check_health. repeat split.
Qed.

(** The run of [list_models], by the outcome of its call. *)
Lemma run_list_models_cases {Y} self w :
  run up (@list_models Y self) w =
  mk_outcome []
    (fst (listing_of (up (List.length (calls w)) (tags_call self))))
    (logged (called w (tags_call self))
            (snd (listing_of (up (List.length (calls w)) (tags_call self))))).
Proof.
  unfold list_models. fold (tags_call self). cbn [request bind try_except run].
  unfold listing_of.
  destruct (up (List.length (calls w)) (tags_call self)) as [r|[k msg]].
  - cbn [bind]. destruct (status_code r =? 200)%Z.
    + unfold response_json. destruct (json r) as [v|msg].
      * cbn [bind]. destruct v; cbn; now rewrite ?logged_nil.
      * cbn. reflexivity.
    + cbn. now rewrite logged_nil.
  - cbn. rewrite orb_true_r. reflexivity.
Qed.

(** X5.  [list_models] makes one [GET] of [{base_url}/api/tags] and
    turns every failure of the request into an empty list: a call that
    raises, and a body that is not JSON, give [[]] and one error record
    with the text of the failure; a status other than 200 gives [[]] and
    no record.  On status 200 with a JSON object it returns the [models]
    field ([[]] when absent) unchanged, and on a JSON body that is not
    an object the [AttributeError] of [.get] escapes. *)
Theorem list_models_outcomes self w :
  let o := run up (@list_models Empty_set self) w in
  calls (world o) = calls w ++ [tags_call self] /\
  match up (List.length (calls w)) (tags_call self) with
  | inr e =>
      result o = inl (VList []) /\
      records (world o) = records w ++ [listing_error_record (rq_str e)]
  | inl r =>
      if (status_code r =? 200)%Z then
        match json r with
        | inr msg =>
            result o = inl (VList []) /\
            records (world o) = records w ++ [listing_error_record msg]
        | inl (VDict d) =>
            result o = inl (field d "models" (VList [])) /\
            records (world o) = records w
        | inl _ =>
            (exists e, result o = inr e /\ exn_class e = AttributeError) /\
            records (world o) = records w
        end
      else result o = inl (VList []) /\ records (world o) = records w
  end.
Proof.
  cbn zeta. rewrite run_list_models_cases. unfold listing_of.
  cbn [world logged called calls]. split; [reflexivity|].
  destruct (up (List.length (calls w)) (tags_call self)) as [r|e].
  - destruct (status_code r =? 200)%Z.
    + destruct (json r) as [v|msg].
      * destruct v; cbn; rewrite ?app_nil_r; split; eauto.
      * cbn. split; reflexivity.
    + cbn. rewrite app_nil_r. split; reflexivity.
  - cbn. split; reflexivity.
Qed.

End Client.

(* ===================================================================== *)
(** ** The models endpoint and the health endpoint *)
(* ===================================================================== *)

Lemma comprehension_names {Y} ds :
  @comprehension Y (fun m => lift (py_get m (py "name") (VStr (py "unknown"))))
    (map VDict ds)
  = Ret (map name_of ds).
Proof.
  induction ds as [|d ds IH]; [reflexivity|].
  cbn [map comprehension py_get lift bind]. rewrite IH. reflexivity.
Qed.

Lemma comprehension_infos {Y} ds :
  @comprehension Y model_info (map VDict ds) = Ret (map info_of ds).
Proof.
  induction ds as [|d ds IH]; [reflexivity|].
  cbn [map comprehension]. unfold model_info at 1.
  cbn [py_get lift bind]. rewrite IH. reflexivity.
Qed.

Lemma listing_fails_empty o :
  listing_fails o -> fst (listing_of o) = inl (VList []).
Proof.
  destruct o as [r|e]; [|reflexivity]. unfold listing_of.
  intros [H|[msg H]].
  - apply Z.eqb_neq in H. now rewrite H.
  - rewrite H. now destruct (_ =? _)%Z.
Qed.

Section Listings.

Variable up : Upstream.

(** X6.  [/api/models] answers 200 with an empty [models] list, not an
    error, whenever the call to the daemon fails: it raises, or its
    status is not 200, or its body is not JSON.  One call is made. *)
Theorem get_models_empty_on_failure g w :
  listing_fails (up (List.length (calls w)) (tags_call (ollama g))) ->
  let o := run up (dispatch (@get_models Empty_set g)) w in
  result o = inl (Json 200 (VDict [(py "models", VList [])])) /\
  calls (world o) = calls w ++ [tags_call (ollama g)].
Proof.
  intros H. cbn zeta. unfold dispatch, get_models.
  rewrite run_try_except, run_bind, run_list_models_cases.
  cbn [result]. rewrite (listing_fails_empty _ H). split; reflexivity.
Qed.

(** X7.  When the daemon lists models that are objects, [/api/models]
    answers 200 with one entry per model, in the order of the listing;
    an entry has exactly the keys [name], [size] and [modified], taken
    from [name], [size] and [modified_at] with the defaults ['unknown'],
    [0] and [''], and every other field of the model is dropped.  One
    call is made and nothing is logged. *)
Theorem get_models_projects_listing g w r d ds :
  answers up (List.length (calls w)) (tags_call (ollama g)) r ->
  json r = inl (VDict d) ->
  field d "models" (VList []) = VList (map VDict ds) ->
  run up (dispatch (@get_models Empty_set g)) w =
  mk_outcome [] (inl (Json 200 (VDict [(py "models", VList (map info_of ds))])))
             (called w (tags_call (ollama g))).
Proof.
  intros [Hup Hs] Hj Hm. unfold dispatch, get_models.
  rewrite run_try_except, run_bind, run_list_models_cases.
  unfold listing_of. rewrite Hup, Hs, Hj, Hm.
  cbn [Z.eqb Pos.eqb fst snd result world then_outcome yielded py_iter lift bind].
  rewrite comprehension_infos, logged_nil. reflexivity.
Qed.

(** X8.  When the daemon answers the listing with status 200 and a
    [models] field that is [null], a boolean or a number, the loop of
    [get_models] raises and [/api/models] answers 500 with the body of
    the handler of internal errors. *)
Theorem get_models_500_on_bad_listing g w r d v :
  answers up (List.length (calls w)) (tags_call (ollama g)) r ->
  json r = inl (VDict d) ->
  dict_lookup d (py "models") = Some v ->
  not_iterable v ->
  result (run up (dispatch (@get_models Empty_set g)) w) = inl internal_error_reply.
Proof.
  intros [Hup Hs] Hj Hm Hv. unfold dispatch, get_models.
  rewrite run_try_except, run_bind, run_list_models_cases.
  unfold listing_of, field. rewrite Hup, Hs, Hj, Hm.
  destruct v; try contradiction; reflexivity.
Qed.

(** The calls of [health_check]: the probe, and the listing when the
    probe succeeds. *)
Lemma list_models_calls {Y} self w :
  calls (world (run up (@list_models Y self) w)) = calls w ++ [tags_call self].
Proof. rewrite run_list_models_cases. reflexivity. Qed.

(** X9.  [/api/health] costs one upstream call when the probe fails and
    two when it succeeds, whatever the daemon answers; every call is the
    [GET] of [{base_url}/api/tags] with a timeout of 5 seconds. *)
Theorem health_check_calls dec loads g w :
  calls (world (run up (@handle dec loads Empty_set g ApiHealth) w)) =
  calls w ++
  match up (List.length (calls w)) (tags_call (ollama g)) with
  | inl r => if (status_code r =? 200)%Z
             then [tags_call (ollama g); tags_call (ollama g)]
             else [tags_call (ollama g)]
  | inr _ => [tags_call (ollama g)]
  end.
Proof.
  cbn [handle]. unfold dispatch.
  rewrite run_try_except_no_call.
  2:{ intros e q. destruct (http_code e) as [code|].
      - destruct (code =? 404)%Z; [intros [= <-]; constructor|].
        destruct (code =? 500)%Z; intros [= <-];
          [unfold internal_error; repeat no_call_step | constructor].
      - destruct (is_Exception e); [|discriminate].
        intros [= <-]. unfold internal_error. repeat no_call_step. }
  unfold health_check. rewrite run_bind, run_check_health.
  cbn [result then_outcome world].
  assert (Hrest : forall status models,
            no_call (n <- @lift Empty_set _ (py_len models) ;;
                     items <- lift (py_iter models) ;;
                     names <- comprehension
                                (fun m => lift (py_get m (py "name") (VStr (py "unknown"))))
                                items ;;
                     Ret (jsonify (VDict [
                       (py "status", VStr (if status : bool then py "healthy" else py "degraded"));
                       (py "ollama_connected", VBool status);
                       (py "models_available", VInt n);
                       (py "models", VList names)])))%prog).
  { intros status models. repeat no_call_step.
    apply no_call_comprehension. intros m. apply no_call_lift. }
  rewrite run_bind_no_call by (intros; apply Hrest).
  fold (tags_call (ollama g)).
  destruct (up (List.length (calls w)) (tags_call (ollama g))) as [r|e].
  - destruct (status_code r =? 200)%Z.
    + rewrite list_models_calls. cbn [calls]. now rewrite <- app_assoc.
    + reflexivity.
  - reflexivity.
Qed.

(** X10.  When the probe succeeds and the daemon lists models that are
    objects, [/api/health] answers 200 with status [healthy],
    [ollama_connected] true, the number of models, and their names in
    the order of the listing, ['unknown'] standing for a model without a
    name.  Two calls are made and nothing is logged. *)
Theorem health_check_lists_names dec loads g w r1 r2 d ds :
  answers up (List.length (calls w)) (tags_call (ollama g)) r1 ->
  answers up (S (List.length (calls w))) (tags_call (ollama g)) r2 ->
  json r2 = inl (VDict d) ->
  field d "models" (VList []) = VList (map VDict ds) ->
  run up (@handle dec loads Empty_set g ApiHealth) w =
  mk_outcome [] (inl (Json 200 (healthy_body (map name_of ds))))
             (called (called w (tags_call (ollama g))) (tags_call (ollama g))).
Proof.
  intros [H1 S1] [H2 S2] Hj Hm. cbn [handle]. unfold dispatch, health_check.
  rewrite run_try_except, run_bind, run_check_health.
  fold (tags_call (ollama g)). rewrite H1, S1.
  cbn [Z.eqb Pos.eqb result world then_outcome yielded].
  rewrite run_bind, run_list_models_cases.
  cbn [calls]. rewrite length_app. cbn [List.length]. rewrite Nat.add_1_r.
  unfold listing_of. rewrite H2, S2, Hj, Hm.
  cbn [Z.eqb Pos.eqb fst snd result world then_outcome yielded py_len py_iter lift bind].
  rewrite comprehension_names, logged_nil.
  unfold healthy_body. rewrite !length_map. reflexivity.
Qed.

End Listings.

(* ===================================================================== *)
(** ** The stream when the request fails, and the order of the chunks *)
(* ===================================================================== *)

Section Failures.

Variable dec : bytes -> pystr + exn.
Variable loads : pystr -> pyval + exn.
Variable up : Upstream.

(** The stream of [generate] when [generate_stream] ends at once with an
    exception of [requests]. *)
Lemma run_generate_failure w e :
  is_RequestException e = true ->
  run up
    (try_finally
       (try_except
          (for_each (match on_request_failure e with
                     | Some q => q
                     | None => Raise e
                     end) relay_event)
          on_streaming_error)
       (yield DONE))
    w
  = mk_outcome [sse (error_body (VStr (failure_message e))); DONE] (inl tt)
      (logged w [failure_record e]).
Proof.
  intros He. unfold on_request_failure, failure_message, failure_record. rewrite He.
  destruct (is_ConnectionError_or_Timeout e); reflexivity.
Qed.

(** X11.  When the call of [generate_stream] raises (the daemon cannot
    be reached, the call times out, or any other failure of [requests]),
    or returns a status from 400 to 599, the stream of [/api/chat] is
    one error chunk followed by the sentinel, with no response or done
    chunk.  The chunk says that the connection failed for a connection
    error or a timeout, and carries [Request failed: ] and the text of
    the failure otherwise; one error record is logged. *)
Theorem generate_on_request_failure g model user_message w :
  let c := generate_call (ollama g)
             (generate_payload model user_message (Some system_prompt)) in
  let o := run up (generate dec loads g model user_message) w in
  (forall e,
     up (List.length (calls w)) c = inr e ->
     yielded o = [sse (error_body (VStr (failure_message (exn_of_requests e)))); DONE] /\
     records (world o) = records w ++ [failure_record (exn_of_requests e)]) /\
  (forall r,
     up (List.length (calls w)) c = inl r ->
     (400 <= status_code r < 600)%Z ->
     exists msg,
       @raise_for_status pyval r = Raise (mk_exn (Requests HTTPError) msg) /\
       yielded o = [sse (error_body (VStr (py "Request failed: " ++ msg))); DONE] /\
       records (world o) = records w ++ [mk_log ERROR (py "Request error: " ++ msg)]).
Proof.
  intros c o. subst o. unfold generate, generate_stream. fold c.
  cbn [request bind try_except for_each try_finally run]. split.
  - intros e Hup. rewrite Hup. cbn [bind try_except].
    rewrite (run_generate_failure _ (exn_of_requests e) eq_refl).
    split; reflexivity.
  - intros r Hup Hs. rewrite Hup. cbn [bind].
    destruct (status_error_raises (Y:=pyval) r Hs) as [msg E].
    exists msg. split; [exact E|]. rewrite E. cbn [bind try_except].
    rewrite (run_generate_failure _ (mk_exn (Requests HTTPError) msg) eq_refl).
    split; reflexivity.
Qed.

Lemma fragments_chunks events texts :
  Forall2 fragment_of events texts ->
  Forall error_free events /\
  flat_map chunks_of events = map (fun text => sse (VDict [(py "response", text)])) texts.
Proof.
  induction 1 as [|event text events texts (d & -> & He & Hr & Hd) _ [IH1 IH2]].
  - split; [constructor | reflexivity].
  - split; [constructor; [now exists d | assumption]|].
    cbn [flat_map map]. rewrite IH2. unfold chunks_of, frames_of.
    unfold field in Hd. now rewrite Hr, Hd.
Qed.

(** X12.  Fragments are relayed one by one and in order: when the body
    of the daemon's answer decodes to fragment events and ends normally,
    the stream of [/api/chat] is one response chunk per event, carrying
    the text of that event, in the order of the lines, followed by the
    sentinel.  Nothing is merged, dropped or reordered; blank lines and
    lines that are not JSON in between leave no trace in the stream. *)
Theorem fragments_are_relayed_in_order g model user_message w r items texts :
  up (List.length (calls w))
     (generate_call (ollama g) (generate_payload model user_message (Some system_prompt)))
    = inl r ->
  status_ok (status_code r) ->
  decodes dec loads (lines r) items ->
  lines_end r = None ->
  Forall2 fragment_of (events_of items) texts ->
  yielded (run up (generate dec loads g model user_message) w) =
  map (fun text => sse (VDict [(py "response", text)])) texts ++ [DONE].
Proof.
  intros Hup Hs Hd Hend Hf.
  destruct (fragments_chunks _ _ Hf) as [Hfree <-].
  now apply run_generate_error_free with (r := r).
Qed.

End Failures.

(* ===================================================================== *)
(** ** Events that are not objects, and the account of the lines *)
(* ===================================================================== *)

(** On an event that is not a [dict], the loop body of [generate] raises
    before it yields anything. *)
Lemma relay_event_not_an_object event :
  not_an_object event ->
  exists e,
    relay_event event = Raise e /\
    (exn_class e = TypeError \/ exn_class e = AttributeError).
Proof.
  unfold relay_event.
  destruct event as [| | | |s|l|d]; intros H; try contradiction;
    cbn [py_contains lift bind];
    try (eexists; split; [reflexivity | left; reflexivity]).
  - destruct (str_contains s (py "error")); cbn [py_getitem lift bind];
      [eexists; split; [reflexivity | left; reflexivity]|].
    destruct (str_contains s (py "response")); cbn [py_getitem py_get lift bind];
      eexists; split; try reflexivity; auto.
  - destruct (existsb _ l); cbn [py_getitem lift bind];
      [eexists; split; [reflexivity | left; reflexivity]|].
    destruct (existsb _ l); cbn [py_getitem py_get lift bind];
      eexists; split; try reflexivity; auto.
Qed.

Lemma decodes_accounts dec loads ls items :
  decodes dec loads ls items ->
  (List.length (events_of items) + List.length (errors_of items))%nat
  = List.length (filter bytes_truthy ls).
Proof.
  induction 1 as [|ls items _ IH|line event ls items Hl _ _ IH|line e ls items Hl _ _ _ IH];
    simpl; auto; destruct line; try congruence; simpl; lia.
Qed.

Section Accounting.

Variable dec : bytes -> pystr + exn.
Variable loads : pystr -> pyval + exn.
Variable up : Upstream.

(** X13.  A line that is valid JSON but not an object (an array, a
    string, a number, [null]) ends the stream of [/api/chat]: the loop
    body raises a [TypeError] or an [AttributeError] on it before
    writing anything, the [except] clause of [generate] relays the text
    of that exception as an error chunk, and the sentinel follows; the
    events after that line are not relayed. *)
Theorem event_that_is_not_an_object_ends_the_stream
    g model user_message w r pre event post :
  up (List.length (calls w))
     (generate_call (ollama g) (generate_payload model user_message (Some system_prompt)))
    = inl r ->
  status_ok (status_code r) ->
  decodes dec loads (lines r) (pre ++ inl event :: post) ->
  Forall error_free (events_of pre) ->
  not_an_object event ->
  exists e,
    (exn_class e = TypeError \/ exn_class e = AttributeError) /\
    yielded (run up (generate dec loads g model user_message) w) =
    flat_map chunks_of (events_of pre) ++ [sse (error_body (VStr (exn_str e))); DONE].
Proof.
  intros Hup Hs Hd Hf Hn.
  destruct (relay_event_not_an_object event Hn) as (e & E & Hc).
  exists e. split; [exact Hc|].
  assert (Hex : is_Exception e = true).
  { unfold is_Exception. destruct Hc as [-> | ->]; reflexivity. }
  unfold generate. rewrite run_try_finally_yield. cbn [yielded].
  rewrite run_try_except.
  unfold generate_stream. cbn [request bind try_except for_each run].
  rewrite Hup. cbn [bind]. rewrite (response_tree dec loads r _ Hs Hd).
  rewrite replay_app, (run_relay_error_free _ _ _ _ Hf).
  cbn [replay fold_right for_each]. rewrite E.
  cbn [bind run then_outcome result yielded world].
  unfold on_streaming_error. rewrite Hex.
  cbn [logger_error bind yield run emit then_outcome yielded].
  now rewrite app_nil_r, <- app_assoc.
Qed.

(** X14.  No line of the body is lost silently by the decoder: when the
    body decodes and ends normally, every non-blank line is either
    yielded as one event or logged as one [JSON decode error] record,
    so the events and the new records together are as many as the
    non-blank lines; the records are in the order of the lines they are
    about, and blank lines leave no record. *)
Theorem generate_stream_accounts_for_lines self model prompt sp w r items :
  up (List.length (calls w)) (generate_call self (generate_payload model prompt sp))
    = inl r ->
  status_ok (status_code r) ->
  decodes dec loads (lines r) items ->
  lines_end r = None ->
  let o := run up (generate_stream dec loads self model prompt sp) w in
  records (world o) = records w ++ map decode_error_record (errors_of items) /\
  (List.length (yielded o) + List.length (errors_of items))%nat
  = List.length (filter bytes_truthy (lines r)).
Proof.
  intros Hup Hs Hd Hend. cbn zeta.
  unfold generate_stream. cbn [request bind try_except run]. rewrite Hup.
  cbn [bind]. rewrite (response_tree dec loads r items Hs Hd), run_replay.
  unfold ending. rewrite Hend.
  cbn [run then_outcome yielded world logged records calls]. split; [reflexivity|].
  rewrite app_nil_r. now apply decodes_accounts with (dec := dec) (loads := loads).
Qed.

End Accounting.

(* ===================================================================== *)
(** ** Start-up *)
(* ===================================================================== *)

Section StartupRuns.

Variable str_of : pyval -> pystr.
Variable up : Upstream.

Lemma log_model_names_no_call {Y} items : no_call (@log_model_names str_of Y items).
Proof.
  induction items as [|m items IH]; simpl; [constructor|].
  apply no_call_bind; [apply no_call_lift|]. intros name.
  unfold logger_info. cbn [bind]. now constructor.
Qed.

(** X15.  The server starts without the daemon: when the probe fails
    (the call raises or its status is not 200), [main] does not exit; it
    makes the one call of the probe, logs that the dependencies are
    found, two errors and the warning that the server will not work
    without Ollama, and goes on to [app.run] with the parsed arguments
    and with [OLLAMA_API_URL] rebound. *)
Theorem main_starts_without_daemon g argv w :
  probe_fails (up (List.length (calls w)) (tags_call (ollama g))) ->
  run up (@main str_of Empty_set g argv) w =
  mk_outcome [] (inl (globals_after_main g argv, parse_arguments g argv))
    (mk_world (calls w ++ [tags_call (ollama g)])
              (records w ++ startup_records_without_daemon)).
Proof.
  intros H. unfold main, check_dependencies, check_ollama_connection.
  cbn [logger_info bind negb run ollama].
  rewrite run_bind, run_bind, run_check_health.
  fold (tags_call (ollama g)).
  assert (E : match up (List.length (calls w)) (tags_call (ollama g)) with
              | inl r => (status_code r =? 200)%Z
              | inr _ => false
              end = false).
  { destruct (up _ _) as [r|e]; [now apply Z.eqb_neq | reflexivity]. }
  cbn [calls records]. rewrite E.
  cbn -[check_mark cross_mark warning_mark py].
  unfold startup_records_without_daemon. now rewrite <- !app_assoc.
Qed.

(** X16.  Whenever [main] reaches [app.run], the globals it serves with
    differ from those of the import by [OLLAMA_API_URL] only, which is
    the value of [--ollama-url] or, without the option, unchanged; the
    client [ollama] is the one built at import.  Whatever the daemon
    answers, the calls of the start-up are the probe and, when the probe
    succeeds, the listing, both through that client. *)
Theorem main_rebinds_the_url_only g argv w :
  let o := run up (@main str_of Empty_set g argv) w in
  calls (world o) =
    calls w ++
    match up (List.length (calls w)) (tags_call (ollama g)) with
    | inl r => if (status_code r =? 200)%Z
               then [tags_call (ollama g); tags_call (ollama g)]
               else [tags_call (ollama g)]
    | inr _ => [tags_call (ollama g)]
    end /\
  forall g' args,
    result o = inl (g', args) ->
    g' = globals_after_main g argv /\ args = parse_arguments g argv.
Proof.
  cbn zeta. split.
  - unfold main, check_dependencies.
    cbn [logger_info bind negb run ollama].
    rewrite run_bind_no_call.
    2:{ intros connected. repeat no_call_step; unfold logger_warning; repeat constructor. }
    unfold check_ollama_connection. cbn [ollama].
    rewrite run_bind, run_check_health.
    fold (tags_call (ollama g)). cbn [result then_outcome world calls records].
    destruct (up (List.length (calls w)) (tags_call (ollama g))) as [r|e];
      [destruct (status_code r =? 200)%Z|]; cbv iota.
    + rewrite run_bind_no_call.
      2:{ intros models. apply no_call_bind; [apply no_call_lift|]. intros n.
          unfold logger_info, logger_warning. cbn [bind]. constructor.
          apply no_call_bind; [|intros; constructor].
          destruct (truthy models); cbn [bind]; constructor; [|constructor].
          apply no_call_bind; [apply no_call_lift|]. intros items.
          apply log_model_names_no_call. }
      rewrite list_models_calls. cbn [calls]. now rewrite <- app_assoc.
    + reflexivity.
    + reflexivity.
  - intros g' args H.
    destruct (main_keeps_client str_of up (Y:=Empty_set) g argv w g' args H) as [H1 H2].
    revert H. unfold main. cbn [check_dependencies logger_info bind negb run].
    rewrite run_bind.
    destruct (result (run up (check_ollama_connection str_of _) _)) as [b|e];
      [|discriminate].
    cbn [then_outcome result].
    destruct b; cbn; intros [= <- <-]; split; reflexivity.
Qed.

(** X17.  The start-up fails on a listing it cannot count: when the
    probe succeeds and the daemon lists a [models] field that is [null],
    a boolean or a number, [len(models)] raises a [TypeError] in
    [check_ollama_connection], nothing catches it, and [main] ends with
    that exception instead of reaching [app.run]. *)
Theorem main_fails_on_bad_listing g argv w r1 r2 d v :
  answers up (List.length (calls w)) (tags_call (ollama g)) r1 ->
  answers up (S (List.length (calls w))) (tags_call (ollama g)) r2 ->
  json r2 = inl (VDict d) ->
  dict_lookup d (py "models") = Some v ->
  not_iterable v ->
  exists e,
    result (run up (@main str_of Empty_set g argv) w) = inr e /\
    exn_class e = TypeError.
Proof.
  intros [H1 S1] [H2 S2] Hj Hm Hv.
  unfold main, check_dependencies, check_ollama_connection.
  cbn [logger_info bind negb run ollama].
  rewrite run_bind, run_bind, run_check_health.
  fold (tags_call (ollama g)). cbn [calls records]. rewrite H1, S1.
  cbn [Z.eqb Pos.eqb result then_outcome world yielded].
  rewrite run_bind, run_list_models_cases.
  cbn [calls]. rewrite length_app. cbn [List.length]. rewrite Nat.add_1_r.
  unfold listing_of, field. rewrite H2, S2, Hj, Hm.
  destruct v; try contradiction; cbn; eexists; split; reflexivity.
Qed.

End StartupRuns.

(* ===================================================================== *)
(** ** The trimmed message *)
(* ===================================================================== *)

Lemma lstrip_nil s : lstrip s = [] <-> forallb is_space s = true.
Proof.
  induction s as [|c s IH]; simpl; [tauto|].
  destruct (is_space c); simpl; [exact IH | split; discriminate].
Qed.

Lemma lstrip_head s c t : lstrip s = c :: t -> is_space c = false.
Proof.
  induction s as [|x s IH]; simpl; [discriminate|].
  destruct (is_space x) eqn:E; [exact IH | intros [= <- _]; exact E].
Qed.

Lemma lstrip_suffix s : exists spaces, s = spaces ++ lstrip s /\ forallb is_space spaces = true.
Proof.
  induction s as [|x s (spaces & E & H)]; simpl; [now exists []|].
  destruct (is_space x) eqn:Ex.
  - exists (x :: spaces). simpl. rewrite Ex, H. split; [now f_equal | reflexivity].
  - now exists [].
Qed.

Lemma forallb_rev (f : N -> bool) l : forallb f (rev l) = forallb f l.
Proof.
  induction l as [|x l IH]; simpl; [reflexivity|].
  rewrite forallb_app, IH. simpl. rewrite andb_true_r. apply andb_comm.
Qed.

(** [strip] gives the empty string exactly on strings of white space. *)
Lemma strip_nil s : strip s = [] <-> forallb is_space s = true.
Proof.
  unfold strip. rewrite <- lstrip_nil. split.
  - intros H. apply (f_equal (@rev N)) in H. rewrite rev_involutive in H.
    simpl in H. apply lstrip_nil in H. rewrite forallb_rev in H.
    destruct (lstrip s) as [|c t] eqn:E; [reflexivity|].
    apply lstrip_head in E. simpl in H. now rewrite E in H.
  - intros ->. reflexivity.
Qed.

Lemma strip_last s t c : strip s = t ++ [c] -> is_space c = false.
Proof.
  unfold strip. intros H. apply (f_equal (@rev N)) in H.
  rewrite rev_involutive, rev_app_distr in H. simpl in H.
  now apply lstrip_head in H.
Qed.

Lemma strip_first s c t : strip s = c :: t -> is_space c = false.
Proof.
  unfold strip. intros H.
  destruct (lstrip_suffix (rev (lstrip s))) as (spaces & E & _).
  apply (f_equal (@rev N)) in E. rewrite rev_involutive, rev_app_distr, H in E.
  simpl in E. now apply lstrip_head in E.
Qed.

Section Trimming.

Variable dec : bytes -> pystr + exn.
Variable loads : pystr -> pyval + exn.

(** X18.  For a body whose message is a string, the views turn the
    request down with [Message is required] exactly when the message is
    made of white space only (the empty string included).  Otherwise the
    prompt they pass on, to [generate] and to the request of
    [chat_simple], is the message without its leading and trailing white
    space: it is not empty and neither begins nor ends with a white
    space character. *)
Theorem message_is_trimmed g d s :
  dict_lookup d (py "message") = Some (VStr s) ->
  let model := field d "model" (VStr DEFAULT_MODEL) in
  let rejected := Ret (Json 400 (error_body (VStr (py "Message is required")))) in
  if forallb is_space s then
    @chat dec loads Empty_set g (Parsed (VDict d)) = rejected /\
    @chat_simple Empty_set g (Parsed (VDict d)) = rejected
  else
    @chat dec loads Empty_set g (Parsed (VDict d))
      = Ret (EventStream (generate dec loads g model (strip s))) /\
    @chat_simple Empty_set g (Parsed (VDict d)) = simple_request g model (strip s) /\
    strip s <> [] /\
    (forall c t, strip s = c :: t -> is_space c = false) /\
    (forall t c, strip s = t ++ [c] -> is_space c = false).
Proof.
  intros M model rejected.
  assert (T : truthy (VDict d) = true) by (destruct d; [discriminate M | reflexivity]).
  unfold chat, chat_simple. cbn [request_json bind]. rewrite T. cbn [negb py_get lift bind]. rewrite M.
  cbn [py_strip lift bind].
  destruct (forallb is_space s) eqn:E.
  - apply strip_nil in E. rewrite E. split; reflexivity.
  - assert (Hne : strip s <> []).
    { intros H. apply strip_nil in H. congruence. }
    destruct (strip s) as [|c t] eqn:S; [congruence|]. cbn [truthy negb].
    repeat split; auto.
    + intros c0 t0 [= <- <-]. apply (strip_first s c t S).
    + intros t0 c0 H. rewrite <- S in H. apply (strip_last s t0 c0 H).
Qed.

End Trimming.

(* ===================================================================== *)
(** ** One line per chunk *)
(* ===================================================================== *)

Lemma hex_digit_printable n : (n < 16)%N -> printable (hex_digit n).
Proof.
  unfold hex_digit, printable. intros H.
  destruct (N.ltb_spec n 10); lia.
Qed.

Lemma u_escape_printable n : Forall printable (u_escape n).
Proof.
  unfold u_escape.
  assert (H : forall x, (x mod 16 < 16)%N) by (intros; apply N.mod_lt; discriminate).
  repeat constructor; try (unfold printable; simpl; lia);
    apply hex_digit_printable, H.
Qed.

Lemma escape_char_printable c : Forall printable (escape_char c).
Proof.
  unfold escape_char.
  destruct (c =? 34)%N; [repeat constructor; unfold printable; simpl; lia|].
  destruct (c =? 92)%N; [repeat constructor; unfold printable; simpl; lia|].
  destruct (c =? 10)%N; [repeat constructor; unfold printable; simpl; lia|].
  destruct (c =? 13)%N; [repeat constructor; unfold printable; simpl; lia|].
  destruct (c =? 9)%N; [repeat constructor; unfold printable; simpl; lia|].
  destruct (c =? 8)%N; [repeat constructor; unfold printable; simpl; lia|].
  destruct (c =? 12)%N; [repeat constructor; unfold printable; simpl; lia|].
  destruct ((32 <=? c) && (c <=? 126))%N eqn:E.
  - apply andb_true_iff in E. destruct E as [H1 H2].
    apply N.leb_le in H1. apply N.leb_le in H2.
    constructor; [now split | constructor].
  - destruct (c <? 65536)%N; [apply u_escape_printable|].
    apply Forall_app; split; apply u_escape_printable.
Qed.

Lemma dumps_str_printable s : Forall printable (dumps_str s).
Proof.
  unfold dumps_str. repeat (apply Forall_app; split);
    try (repeat constructor; unfold printable; lia).
  induction s as [|c s IH]; simpl; [constructor|].
  apply Forall_app; split; [apply escape_char_printable | exact IH].
Qed.

Lemma uint_printable d : Forall printable (py (NilEmpty.string_of_uint d)).
Proof.
  induction d; simpl; constructor; auto; unfold printable; simpl; lia.
Qed.

Lemma str_of_int_printable z : Forall printable (str_of_int z).
Proof.
  unfold str_of_int. destruct (Z.to_int z); simpl.
  - apply uint_printable.
  - constructor; [unfold printable; simpl; lia | apply uint_printable].
Qed.

Lemma dumps_float_printable r : Forall printable r -> Forall printable (dumps_float r).
Proof.
  intros H. unfold dumps_float.
  repeat (destruct (pystr_eqb r _); [repeat constructor; unfold printable; simpl; lia|]).
  exact H.
Qed.

Lemma join_comma_printable items :
  Forall (Forall printable) items -> Forall printable (join_comma items).
Proof.
  induction 1 as [|x items Hx _ IH]; [constructor|].
  destruct items as [|y items]; [exact Hx|].
  change (join_comma (x :: y :: items))
    with (x ++ [44; 32]%N ++ join_comma (y :: items)).
  apply Forall_app; split; [exact Hx|].
  apply Forall_app; split; [repeat constructor; unfold printable; lia | exact IH].
Qed.

(** [json.dumps] writes printable ASCII only. *)
Lemma json_dumps_printable :
  forall v, plain_floats v -> Forall printable (json_dumps v).
Proof.
  fix IH 1. intros [| [|] |z|r|s|l|d] H;
    try (repeat constructor; unfold printable; simpl; lia).
  - apply str_of_int_printable.
  - apply dumps_float_printable, H.
  - apply dumps_str_printable.
  - change (json_dumps (VList l))
      with (py "[" ++ join_comma (map json_dumps l) ++ py "]").
    apply Forall_app; split; [repeat constructor; unfold printable; simpl; lia|].
    apply Forall_app; split; [|repeat constructor; unfold printable; simpl; lia].
    apply join_comma_printable. simpl in H.
    induction l as [|x l IHl]; simpl; [constructor|].
    destruct H as [Hx Hl]. constructor; [apply IH, Hx | apply IHl, Hl].
  - change (json_dumps (VDict d))
      with (py "{" ++
            join_comma (map (fun kv => dumps_str (fst kv) ++ py ": " ++ json_dumps (snd kv)) d)
            ++ py "}").
    apply Forall_app; split; [repeat constructor; unfold printable; simpl; lia|].
    apply Forall_app; split; [|repeat constructor; unfold printable; simpl; lia].
    apply join_comma_printable. simpl in H.
    induction d as [|[k x] d IHd]; cbn [map fst snd]; [constructor|].
    destruct H as [Hx Hd]. constructor; [|apply IHd, Hd].
    apply Forall_app; split; [apply dumps_str_printable|].
    apply Forall_app; split; [repeat constructor; unfold printable; simpl; lia|].
    apply IH, Hx.
Qed.

(** X19.  A data chunk is one line: for every payload (whose floats
    print as Python floats do), the chunk is [data: ], then the JSON
    text, which is printable ASCII without any line break, then the two
    line feeds that close the event.  Text of a fragment with line
    breaks, quotes or characters outside ASCII is escaped by
    [json.dumps] and cannot break the framing of the stream. *)
Theorem data_chunk_is_one_line payload :
  plain_floats payload ->
  exists line,
    sse payload = py "data: " ++ line ++ [10; 10]%N /\
    Forall printable line /\
    ~ In 10%N line /\ ~ In 13%N line.
Proof.
  intros H. exists (json_dumps payload). split; [reflexivity|].
  pose proof (json_dumps_printable payload H) as P.
  split; [exact P|]. rewrite Forall_forall in P.
  split; intros Hin; apply P in Hin; unfold printable in Hin; lia.
Qed.

(* ===================================================================== *)
(** ** Concrete runs of the further properties *)
(* ===================================================================== *)

Lemma get_models_empty_on_failure_witness :
  result (run (daemon busy) (dispatch (@get_models Empty_set module_globals)) empty_world)
    = inl (Json 200 (VDict [(py "models", VList [])])) /\
  calls (world (run (daemon busy) (dispatch (@get_models Empty_set module_globals))
                    empty_world))
    = [tags_call (ollama module_globals)].
Proof.
  apply (get_models_empty_on_failure (daemon busy) module_globals empty_world).
  simpl. left. discriminate.
Defined.

Lemma get_models_projects_listing_witness :
  run (daemon two_models) (dispatch (@get_models Empty_set module_globals)) empty_world =
  mk_outcome []
    (inl (Json 200 (VDict [(py "models", VList (map info_of two_models_dicts))])))
    (called empty_world (tags_call (ollama module_globals))).
Proof.
  apply (get_models_projects_listing (daemon two_models) module_globals empty_world
           two_models [(py "models", VList (map VDict two_models_dicts))] two_models_dicts).
  - split; reflexivity.
  - reflexivity.
  - reflexivity.
Defined.

Lemma get_models_500_on_bad_listing_witness :
  result (run (daemon null_listing) (dispatch (@get_models Empty_set module_globals))
              empty_world)
    = inl internal_error_reply.
Proof.
  apply (get_models_500_on_bad_listing (daemon null_listing) module_globals empty_world
           null_listing [(py "models", VNone)] VNone).
  - split; reflexivity.
  - reflexivity.
  - reflexivity.
  - exact I.
Defined.

Lemma health_check_lists_names_witness :
  run (daemon two_models)
      (@handle Py.bytes_decode Py.json_loads Empty_set module_globals ApiHealth)
      empty_world =
  mk_outcome []
    (inl (Json 200 (healthy_body [VStr (py "codellama:7b"); VStr (py "unknown")])))
    (called (called empty_world (tags_call (ollama module_globals)))
            (tags_call (ollama module_globals))).
Proof.
  apply (health_check_lists_names (daemon two_models) Py.bytes_decode Py.json_loads
           module_globals empty_world two_models two_models
           [(py "models", VList (map VDict two_models_dicts))] two_models_dicts).
  - split; reflexivity.
  - split; reflexivity.
  - reflexivity.
  - reflexivity.
Defined.

Lemma generate_on_request_failure_witness :
  yielded (run unreachable hello_stream empty_world) =
    [sse (error_body (VStr (py "Connection to Ollama failed. Is Ollama running?"))); DONE] /\
  exists msg,
    yielded (run (daemon bad_gateway) hello_stream empty_world) =
      [sse (error_body (VStr (py "Request failed: " ++ msg))); DONE] /\
    records (world (run (daemon bad_gateway) hello_stream empty_world)) =
      [mk_log ERROR (py "Request error: " ++ msg)].
Proof.
  split.
  - destruct (generate_on_request_failure Py.bytes_decode Py.json_loads unreachable
                module_globals (VStr DEFAULT_MODEL) (py "hello") empty_world) as [H _].
    apply (H (mk_requests_exn ConnectionError (py "Connection refused")) eq_refl).
  - destruct (generate_on_request_failure Py.bytes_decode Py.json_loads (daemon bad_gateway)
                module_globals (VStr DEFAULT_MODEL) (py "hello") empty_world) as [_ H].
    destruct (H bad_gateway eq_refl) as (msg & _ & Hy & Hr).
    + split; [discriminate | reflexivity].
    + exists msg. split; [exact Hy | exact Hr].
Defined.

Example noisy_json_decodes :
  decodes Py.bytes_decode Py.json_loads (lines noisy_json)
    [inl (VDict [(py "response", VStr (py "a"))]);
     inr missing_value;
     inl (VDict [(py "response", VStr (py "b"))])].
Proof.
  apply decodes_event; [discriminate | vm_compute; reflexivity |].
  apply decodes_noise; [discriminate | vm_compute; reflexivity | reflexivity |].
  apply decodes_blank.
  apply decodes_event; [discriminate | vm_compute; reflexivity |].
  constructor.
Qed.

Lemma fragments_are_relayed_in_order_witness :
  yielded (run (daemon noisy_json) hello_stream empty_world) =
  [sse (VDict [(py "response", VStr (py "a"))]);
   sse (VDict [(py "response", VStr (py "b"))]);
   DONE].
Proof.
  apply (fragments_are_relayed_in_order Py.bytes_decode Py.json_loads (daemon noisy_json)
           module_globals (VStr DEFAULT_MODEL) (py "hello") empty_world noisy_json
           _ [VStr (py "a"); VStr (py "b")]
           eq_refl (or_introl eq_refl) noisy_json_decodes eq_refl).
  repeat constructor; eexists; repeat split.
Defined.

Example array_line_decodes :
  decodes Py.bytes_decode Py.json_loads (lines array_line)
    ([inl (VDict [(py "response", VStr (py "a"))])] ++
     inl (VList [VInt 1; VInt 2]) ::
     [inl (VDict [(py "response", VStr (py "b"))])]).
Proof.
  repeat (apply decodes_event; [discriminate | vm_compute; reflexivity |]).
  constructor.
Qed.

Lemma event_that_is_not_an_object_ends_the_stream_witness :
  exists e,
    (exn_class e = TypeError \/ exn_class e = AttributeError) /\
    yielded (run (daemon array_line) hello_stream empty_world) =
    [sse (VDict [(py "response", VStr (py "a"))]);
     sse (error_body (VStr (exn_str e)));
     DONE].
Proof.
  apply (event_that_is_not_an_object_ends_the_stream Py.bytes_decode Py.json_loads
           (daemon array_line) module_globals (VStr DEFAULT_MODEL) (py "hello") empty_world
           array_line [inl (VDict [(py "response", VStr (py "a"))])]
           (VList [VInt 1; VInt 2]) [inl (VDict [(py "response", VStr (py "b"))])]
           eq_refl (or_introl eq_refl) array_line_decodes).
  - repeat constructor. eexists. repeat split.
  - exact I.
Defined.

Lemma generate_stream_accounts_for_lines_witness :
  records (world (hello_events noisy_json)) = [decode_error_record missing_value] /\
  (List.length (yielded (hello_events noisy_json)) + 1)%nat = 3%nat.
Proof.
  apply (generate_stream_accounts_for_lines Py.bytes_decode Py.json_loads (daemon noisy_json)
           (ollama module_globals) (VStr DEFAULT_MODEL) (py "hello") (Some system_prompt)
           empty_world noisy_json _ eq_refl (or_introl eq_refl) noisy_json_decodes eq_refl).
Defined.

Lemma main_starts_without_daemon_witness :
  run unreachable (@main Py.str_of Empty_set module_globals override) empty_world =
  mk_outcome []
    (inl (started, mk_args DEFAULT_PORT DEFAULT_HOST false remote_url))
    (mk_world [tags_call (ollama module_globals)] startup_records_without_daemon).
Proof.
  apply (main_starts_without_daemon Py.str_of unreachable module_globals override
           empty_world).
  exact I.
Defined.

Lemma main_rebinds_the_url_only_witness :
  calls (world (run unreachable (@main Py.str_of Empty_set module_globals no_options)
                    empty_world))
    = [tags_call (ollama module_globals)] /\
  module_globals = globals_after_main module_globals no_options /\
  mk_args DEFAULT_PORT DEFAULT_HOST false (OLLAMA_API_URL module_globals)
    = parse_arguments module_globals no_options.
Proof.
  destruct (main_rebinds_the_url_only Py.str_of unreachable module_globals no_options
              empty_world) as [H1 H2].
  split; [exact H1|].
  apply (H2 module_globals
            (mk_args DEFAULT_PORT DEFAULT_HOST false (OLLAMA_API_URL module_globals))).
  reflexivity.
Defined.

Lemma main_fails_on_bad_listing_witness :
  exists e,
    result (run (daemon null_listing) (@main Py.str_of Empty_set module_globals no_options)
                empty_world) = inr e /\
    exn_class e = TypeError.
Proof.
  apply (main_fails_on_bad_listing Py.str_of (daemon null_listing) module_globals no_options
           empty_world null_listing null_listing [(py "models", VNone)] VNone).
  - split; reflexivity.
  - split; reflexivity.
  - reflexivity.
  - reflexivity.
  - exact I.
Defined.

Lemma message_is_trimmed_witness :
  @chat Py.bytes_decode Py.json_loads Empty_set module_globals (Parsed hello)
    = Ret (EventStream hello_stream) /\
  @chat_simple Empty_set module_globals (Parsed hello)
    = simple_request module_globals (VStr DEFAULT_MODEL) (py "hello") /\
  strip (py " hello ") <> [] /\
  (forall c t, strip (py " hello ") = c :: t -> is_space c = false) /\
  (forall t c, strip (py " hello ") = t ++ [c] -> is_space c = false).
Proof.
  exact (message_is_trimmed Py.bytes_decode Py.json_loads module_globals
           [(py "message", VStr (py " hello "))] (py " hello ") eq_refl).
Defined.

Lemma data_chunk_is_one_line_witness :
  exists line,
    sse awkward_payload = py "data: " ++ line ++ [10; 10]%N /\
    Forall printable line /\
    ~ In 10%N line /\ ~ In 13%N line.
Proof.
  apply (data_chunk_is_one_line awkward_payload).
  simpl. repeat split.
  repeat (constructor; [unfold printable; simpl; lia|]). constructor.
Defined.

(* ===================================================================== *)
(** ** Start-up with a daemon *)
(* ===================================================================== *)

Section StartupListing.

Variable str_of : pyval -> pystr.
Variable up : Upstream.

Lemma run_log_model_names {Y} ds w :
  run up (@log_model_names str_of Y (map VDict ds)) w =
  mk_outcome [] (inl tt)
    (logged w (map (fun d => mk_log INFO (py "  - " ++ str_of (name_of d))) ds)).
Proof.
  revert w. induction ds as [|d ds IH]; intros w.
  - cbn [map log_model_names run]. now rewrite logged_nil.
  - cbn [map log_model_names py_get lift bind logger_info run]. rewrite IH.
    unfold logged. cbn [calls records]. now rewrite <- app_assoc.
Qed.

(** X20.  With a daemon that lists models that are objects, [main]
    reaches [app.run] after two calls and logs, after the line on the
    dependencies, the number of models and then either one line per
    model, in the order of the listing and with ['unknown'] for a model
    without a name, or, for an empty listing, the warning that no model
    was found; the warning about a missing daemon is not logged. *)
Theorem main_logs_the_listing g argv w r1 r2 d ds :
  answers up (List.length (calls w)) (tags_call (ollama g)) r1 ->
  answers up (S (List.length (calls w))) (tags_call (ollama g)) r2 ->
  json r2 = inl (VDict d) ->
  field d "models" (VList []) = VList (map VDict ds) ->
  run up (@main str_of Empty_set g argv) w =
  mk_outcome [] (inl (globals_after_main g argv, parse_arguments g argv))
    (mk_world (calls w ++ [tags_call (ollama g); tags_call (ollama g)])
              (records w ++
               mk_log INFO (check_mark ++ py " All dependencies found") ::
               listing_records str_of ds)).
Proof.
  intros [H1 S1] [H2 S2] Hj Hm.
  unfold main, check_dependencies, check_ollama_connection.
  cbn [logger_info bind negb run ollama].
  rewrite run_bind, run_bind, run_check_health.
  fold (tags_call (ollama g)). cbn [calls records]. rewrite H1, S1.
  cbn [Z.eqb Pos.eqb result then_outcome world yielded].
  rewrite run_bind, run_list_models_cases.
  cbn [calls]. rewrite length_app. cbn [List.length]. rewrite Nat.add_1_r.
  unfold listing_of. rewrite H2, S2, Hj, Hm.
  cbn [Z.eqb Pos.eqb fst snd result then_outcome world yielded py_len lift bind].
  rewrite logged_nil, length_map.
  destruct ds as [|d0 ds].
  - cbn -[check_mark cross_mark warning_mark py str_of_int].
    unfold then_outcome, globals_after_main, listing_records.
    cbn [yielded result world app List.length].
    rewrite <- !app_assoc. reflexivity.
  - cbn [truthy map logger_info bind py_iter lift run].
    change (VDict d0 :: map VDict ds) with (map VDict (d0 :: ds)).
    rewrite run_bind, run_log_model_names.
    cbn -[check_mark cross_mark warning_mark py str_of_int map].
    unfold then_outcome, logged, called, globals_after_main, listing_records.
    cbn [yielded result world app calls records].
    rewrite <- !app_assoc. reflexivity.
Qed.

End StartupListing.

Lemma main_logs_the_listing_witness :
  run (daemon two_models) (@main Py.str_of Empty_set module_globals no_options) empty_world =
  mk_outcome []
    (inl (module_globals,
          mk_args DEFAULT_PORT DEFAULT_HOST false (OLLAMA_API_URL module_globals)))
    (mk_world [tags_call (ollama module_globals); tags_call (ollama module_globals)]
       [mk_log INFO (check_mark ++ py " All dependencies found");
        mk_log INFO (check_mark ++ py " Connected to Ollama (2 models available)");
        mk_log INFO (py "Available models:");
        mk_log INFO (py "  - codellama:7b");
        mk_log INFO (py "  - unknown")]).
Proof.
  apply (main_logs_the_listing Py.str_of (daemon two_models) module_globals no_options
           empty_world two_models two_models
           [(py "models", VList (map VDict two_models_dicts))] two_models_dicts).
  - split; reflexivity.
  - split; reflexivity.
  - reflexivity.
  - reflexivity.
Defined.
